(** * grid_planner: point cloud buffers and the spherical projection model

    A shallow embedding of [include/grid_planner/clouds.h] (namespace [naex]):
    the schema operations on [sensor_msgs::msg::PointCloud2]
    ([reset_fields], [append_field] and the helpers over it, [resize_cloud],
    [copy_cloud_metadata], [copy_points], [fill_field], [fill_const_field]),
    the class [SphericalProjection] ([fit_fast], [fit_robust], [check],
    [project], [unproject]) and the two summaries.

    Conventions.
    - [uint32_t] values are integers in [Z], every operation that can wrap
      is written with [wrap32]; [Index] is [int], converted with [to_int];
      [size_t] has 64 bits ([wrap64]).
    - [float] ([Value]) is IEEE-754 binary32, [double] is binary64, both as
      [spec_float] with the operations of [SpecFloat] at the matching
      precision.
    - a call either returns, throws, aborts on a failed [assert], or reads
      or writes outside a byte vector: the type [Outcome].
    - the member functions of [SphericalProjection] run in a state monad
      over the six data members, and report through the logger.
    - a loop that need not end runs on fuel, and is not over when the fuel
      is.
    - what the sources leave to geom.h, to the standard library (the
      order [std::sort] gives to elements of equal step) and to the build
      is a member of the class [Extern]; memory is taken to suffice. *)

From Stdlib Require Import ZArith List Bool Lia Permutation Sorted.
From Stdlib Require Import SpecFloat Strings.Byte.
From stdpp Require Import list strings.

Local Open Scope Z_scope.

(* ================================================================== *)
(** * Machine integers *)
(* ================================================================== *)

(** [uint32_t] arithmetic is modulo 2^32. *)
Definition wrap32 (z : Z) : Z := z mod 2 ^ 32.

(** [size_t] arithmetic is modulo 2^64. *)
Definition wrap64 (z : Z) : Z := z mod 2 ^ 64.

(** Conversion of an integer value to [int] (two's complement). *)
Definition to_int (z : Z) : Z := (z + 2 ^ 31) mod 2 ^ 32 - 2 ^ 31.

Definition INT_MAX : Z := 2 ^ 31 - 1.

(** types.h: [typedef int Index;] and
    [const Index INVALID_INDEX = std::numeric_limits<Index>::max();] *)
Abbreviation Index := Z.
Definition INVALID_INDEX : Index := INT_MAX.

(* ================================================================== *)
(** * Floating point *)
(* ================================================================== *)

(** types.h: [typedef float Elem; typedef Elem Value;] *)
Abbreviation Value := spec_float.
Abbreviation Double := spec_float.

Module F32.
Definition prec : Z := 24.
Definition emax : Z := 128.
Definition add : Value -> Value -> Value := SFadd prec emax.
Definition sub : Value -> Value -> Value := SFsub prec emax.
Definition mul : Value -> Value -> Value := SFmul prec emax.
Definition div : Value -> Value -> Value := SFdiv prec emax.
Definition sqrt : Value -> Value := SFsqrt prec emax.
Definition ltb : Value -> Value -> bool := SFltb.
Definition eqb : Value -> Value -> bool := SFeqb.
Definition abs : Value -> Value := SFabs.
(** Conversion of an [int] to [float] (round to nearest even). *)
Definition of_int (n : Z) : Value := binary_normalize prec emax n 0 false.
(** The value with the given 32-bit pattern. *)
Definition of_bits (b : Z) : Value :=
  let s := Z.testbit b 31 in
  let e := Z.land (Z.shiftr b 23) 255 in
  let m := Z.land b (2 ^ 23 - 1) in
  if e =? 0 then
    match m with
    | Zpos p => S754_finite s p (-149)
    | _ => S754_zero s
    end
  else if e =? 255 then
    (if m =? 0 then S754_infinity s else S754_nan)
  else
    match m + 2 ^ 23 with
    | Zpos p => S754_finite s p (e - 150)
    | _ => S754_nan
    end.
End F32.

Module F64.
Definition prec : Z := 53.
Definition emax : Z := 1024.
Definition add : Double -> Double -> Double := SFadd prec emax.
Definition div : Double -> Double -> Double := SFdiv prec emax.
Definition ltb : Double -> Double -> bool := SFltb.
Definition of_int (n : Z) : Double := binary_normalize prec emax n 0 false.
(** Widening of a [float]: every binary32 value is a binary64 value. *)
Definition of_float (x : Value) : Double :=
  match x with
  | S754_finite s m e => binary_normalize prec emax (cond_Zopp s (Zpos m)) e s
  | _ => x
  end.
End F64.

(** Two floats are the same value (all NaNs are one value here). *)
#[global] Instance spec_float_eq_dec : EqDecision spec_float :=
  ltac:(solve_decision).

(** [std::isfinite]. *)
Definition isfinite (x : spec_float) : bool :=
  match x with
  | S754_zero _ | S754_finite _ _ _ => true
  | S754_infinity _ | S754_nan => false
  end.

(** [std::isnan]. *)
Definition isnan (x : spec_float) : bool :=
  match x with
  | S754_nan => true
  | _ => false
  end.

(** [std::min(a, b)]: [b] when [b < a], otherwise [a]. *)
Definition std_min (a b : Value) : Value := if F32.ltb b a then b else a.

(* ================================================================== *)
(** * Outcomes of a call *)
(* ================================================================== *)

Inductive Exception : Type :=
| runtime_error (what : string)
| length_error (what : string).

Inductive Outcome (A : Type) : Type :=
| Ret (a : A)             (* the call returns [a] *)
| Throw (e : Exception)   (* a C++ exception leaves the call *)
| AssertionFailed         (* an [assert] fails and aborts *)
| OutOfBounds.            (* an access outside a byte vector: undefined *)

Arguments Ret {A} a.
Arguments Throw {A} e.
Arguments AssertionFailed {A}.
Arguments OutOfBounds {A}.

Definition obind {A B : Type} (c : Outcome A) (k : A -> Outcome B) : Outcome B :=
  match c with
  | Ret a => k a
  | Throw e => Throw e
  | AssertionFailed => AssertionFailed
  | OutOfBounds => OutOfBounds
  end.

Declare Scope outcome_scope.
Delimit Scope outcome_scope with outcome.
Notation "'let*' p ':=' c 'in' k" := (obind c (fun p => k))
  (at level 10, p pattern, c at level 100, k at level 200, only parsing)
  : outcome_scope.

(* ================================================================== *)
(** * sensor_msgs::msg::PointCloud2 *)
(* ================================================================== *)

(** The element types of [sensor_msgs::msg::PointField], which are the
    types [append_field<T>] is instantiated with. *)
Inductive Datatype : Type :=
| INT8 | UINT8 | INT16 | UINT16 | INT32 | UINT32 | FLOAT32 | FLOAT64.

(** Modelled from the spec: [PointFieldTraits<T>::value_size()] of
    point_field_traits.h, which is not among the sources; the size in
    bytes of one element of each datatype of the spec's field descriptor
    ([int8], [uint8], [int16], [uint16], [int32], [uint32], [float32],
    [float64]). *)
Definition value_size (T : Datatype) : Z :=
  match T with
  | INT8 | UINT8 => 1
  | INT16 | UINT16 => 2
  | INT32 | UINT32 | FLOAT32 => 4
  | FLOAT64 => 8
  end.

Record PointField : Type := mkPointField {
  name : string;
  offset : Z;        (* uint32 *)
  datatype : Datatype;
  count : Z          (* uint32 *)
}.

Record Header : Type := mkHeader {
  stamp : Z;
  frame_id : string
}.

Record PointCloud2 : Type := mkPointCloud2 {
  header : Header;
  height : Z;        (* uint32 *)
  width : Z;         (* uint32 *)
  fields : list PointField;
  is_bigendian : bool;
  point_step : Z;    (* uint32 *)
  row_step : Z;      (* uint32 *)
  data : list byte;
  is_dense : bool
}.

(** [size_t(cloud.height) * cloud.width] *)
Definition num_points (cloud : PointCloud2) : Z := height cloud * width cloud.

Definition find_field (cloud : PointCloud2) (n : string) : option PointField :=
  List.find (fun f => String.eqb (name f) n) (fields cloud).

Definition reset_fields (cloud : PointCloud2) : PointCloud2 :=
  {| header := header cloud; height := height cloud; width := width cloud;
     fields := [];
     is_bigendian := is_bigendian cloud;
     point_step := 0;
     row_step := row_step cloud; data := data cloud;
     is_dense := is_dense cloud |}.

Definition append_field (T : Datatype) (n : string) (cnt : Z)
    (cloud : PointCloud2) : PointCloud2 :=
  let field := {| name := n; offset := point_step cloud;
                  datatype := T; count := cnt |} in
  {| header := header cloud; height := height cloud; width := width cloud;
     fields := fields cloud ++ [field];
     is_bigendian := is_bigendian cloud;
     point_step := wrap32 (point_step cloud + cnt * value_size T);
     row_step := row_step cloud; data := data cloud;
     is_dense := is_dense cloud |}.

Definition append_position_fields (T : Datatype) (cloud : PointCloud2) : PointCloud2 :=
  append_field T "z" 1 (append_field T "y" 1 (append_field T "x" 1 cloud)).

(** [resize_cloud(cloud, height, width)]; [data.resize(n, 0)] keeps the
    bytes there are and fills with zeros. *)
Definition resize_cloud (cloud : PointCloud2) (h w : Z) : PointCloud2 :=
  let rs := wrap32 (w * point_step cloud) in
  {| header := header cloud; height := h; width := w;
     fields := fields cloud;
     is_bigendian := is_bigendian cloud;
     point_step := point_step cloud;
     row_step := rs;
     data := resize (Z.to_nat (wrap32 (h * rs))) x00 (data cloud);
     is_dense := is_dense cloud |}.

(** A schema declaration: the template argument, the name and the count of
    one [append_field] call. *)
Abbreviation FieldDecl := (Datatype * string * Z)%type.

Definition decl_size (d : FieldDecl) : Z :=
  let '(T, _, cnt) := d in cnt * value_size T.

(** The calls [append_field<T>(name, count, cloud)] of [decls], in order. *)
Definition append_fields (decls : list FieldDecl) (cloud : PointCloud2) : PointCloud2 :=
  fold_left (fun c d => let '(T, n, cnt) := d in append_field T n cnt c) decls cloud.

(** Sum of [count * element_size] over declarations. *)
Definition total_size (decls : list FieldDecl) : Z :=
  fold_right (fun d acc => decl_size d + acc) 0 decls.

(* ================================================================== *)
(** * Reading floats out of the byte vector *)
(* ================================================================== *)

(** What the sources take from outside: geom.h (not among the sources),
    <cmath>, <algorithm> ([sort_result l] is the order in which
    [std::sort] leaves the candidates [l], see [std_sort]), the build
    ([NDEBUG] removes every [assert]) and the byte order of the host. *)
Class Extern : Type := {
  azimuth : Value -> Value -> Value;
  elevation : Value -> Value -> Value -> Value;
  cartesian_to_spherical : Value -> Value -> Value -> Value * Value * Value;
  spherical_to_cartesian : Value -> Value -> Value -> Value * Value * Value;
  degrees : Double -> Double;
  degrees_float : Value -> Value;
  std_round : Value -> Value;
  std_acos : Value -> Value;
  sort_result : list (Value * Value) -> list (Value * Value);
  NDEBUG : bool;
  host_bigendian : bool
}.

(** The bytes of a [uint16_t] in the memory of the host. *)
Definition store_u16 `{Extern} (num : Z) : list Z :=
  if host_bigendian then [num / 256; num mod 256] else [num mod 256; num / 256].

(** [bigendian()]: whether the first byte in memory of the [uint16_t]
    value 1 differs from 1. *)
Definition bigendian `{Extern} : bool :=
  negb (nth 0 (store_u16 1) 0 =? 1).

(** The unsigned number whose little-endian bytes are [bs]. *)
Fixpoint le_bits (bs : list byte) : Z :=
  match bs with
  | [] => 0
  | b :: bs' => Z.of_N (Byte.to_N b) + 256 * le_bits bs'
  end.

(** The [float] whose four bytes start at [pos], in the byte order of the
    host. *)
Definition float_at `{Extern} (bytes : list byte) (pos : Z) : Value :=
  let bs := take 4 (drop (Z.to_nat pos) bytes) in
  F32.of_bits (le_bits (if host_bigendian then rev bs else bs)).

(** Reading the [float] at [data + pos]: defined when the four bytes are
    bytes of the vector. *)
Definition load_float `{Extern} (bytes : list byte) (pos : Z) : Outcome Value :=
  if (0 <=? pos) && (pos + 4 <=? Z.of_nat (length bytes)) then
    Ret (float_at bytes pos)
  else OutOfBounds.

(** [sensor_msgs::PointCloud2ConstIterator<float> it(cloud, name)]: an
    iterator is the position in [cloud.data] of the element it points to.
    The constructor throws when the cloud has no field of that name. *)
Definition PointCloud2ConstIterator (cloud : PointCloud2) (n : string) : Outcome Z :=
  match find_field cloud n with
  | Some f => Ret (offset f)
  | None => Throw (runtime_error ("Field " +:+ n +:+ " does not exist"))
  end.

(** [it + i]: [i] records further. *)
Definition it_add (cloud : PointCloud2) (it : Z) (i : Index) : Z :=
  it + i * point_step cloud.

(** [it[k]]: the [k]-th float from the element on. *)
Definition it_get `{Extern} (cloud : PointCloud2) (it : Z) (k : Z) : Outcome Value :=
  load_float (data cloud) (it + 4 * k).

(** [!std::isfinite(x[0]) || !std::isfinite(x[1]) || !std::isfinite(x[2])],
    negated: the three floats at the iterator are finite. The operands are
    read from left to right, and only as far as needed. *)
Definition finite_at `{Extern} (cloud : PointCloud2) (it : Z) : Outcome bool :=
  (let* x0 := it_get cloud it 0 in
   if negb (isfinite x0) then Ret false else
   let* x1 := it_get cloud it 1 in
   if negb (isfinite x1) then Ret false else
   let* x2 := it_get cloud it 2 in
   Ret (isfinite x2))%outcome.

(** [int n_points = cloud.height * cloud.width]: a [uint32_t] product
    converted to [Index]. *)
Definition n_points_of (cloud : PointCloud2) : Index :=
  to_int (wrap32 (height cloud * width cloud)).

(** [a / b] and [a % b] for an [Index] [a] and a [uint32_t] [b]: [a] is
    converted to [unsigned], and so is the result. *)
Definition udiv (a : Index) (b : Z) : Z := wrap32 a / b.
Definition umod (a : Index) (b : Z) : Z := wrap32 a mod b.

(** [x[0], x[1], x[2]] and [x[0], x[1]] at an iterator. *)
Definition xyz_at `{Extern} (cloud : PointCloud2) (it : Z) : Outcome (Value * Value * Value) :=
  (let* x := it_get cloud it 0 in
   let* y := it_get cloud it 1 in
   let* z := it_get cloud it 2 in
   Ret (x, y, z))%outcome.

Definition xy_at `{Extern} (cloud : PointCloud2) (it : Z) : Outcome (Value * Value) :=
  (let* x := it_get cloud it 0 in
   let* y := it_get cloud it 1 in
   Ret (x, y))%outcome.

(* ================================================================== *)
(** * copy_points *)
(* ================================================================== *)

(** [std::copy(in_ptr + first, in_ptr + last, out_ptr + dst)] over byte
    vectors: defined when the source range is a range of [src] and the
    destination range a range of [dst_bytes]. *)
Definition std_copy (src : list byte) (first last : Z) (dst_bytes : list byte) (dst : Z)
    : Outcome (list byte) :=
  if (0 <=? first) && (first <=? last) && (last <=? Z.of_nat (length src))
     && (0 <=? dst) && (dst + (last - first) <=? Z.of_nat (length dst_bytes))
  then Ret (list_inserts (Z.to_nat dst)
              (take (Z.to_nat (last - first)) (drop (Z.to_nat first) src))
              dst_bytes)
  else OutOfBounds.

(** The loop of [copy_points]: [i] counts the records written, [its] are
    the indices still to copy. The offsets are products of an [Index] and a
    [uint32_t], hence [uint32_t]. *)
Fixpoint copy_loop (input : PointCloud2) (out_point_step : Z) (its : list Index)
    (i : Index) (out : list byte) : Outcome (list byte) :=
  match its with
  | [] => Ret out
  | it :: its' =>
      (let* out' := std_copy (data input)
                      (wrap32 (it * point_step input))
                      (wrap32 ((it + 1) * point_step input))
                      out (wrap32 (i * out_point_step)) in
       copy_loop input out_point_step its' (i + 1) out')%outcome
  end.

(** [v.resize(n)] on a byte vector, [n] a [size_t]: the bytes [v] had are
    kept, new ones are zero; a size above [max_size()] (2^63 - 1 bytes)
    throws [std::length_error]. Running out of memory is not modelled. *)
Definition vector_resize (n : Z) (bytes : list byte) : Outcome (list byte) :=
  if n <? 2 ^ 63 then Ret (resize (Z.to_nat n) x00 bytes)
  else Throw (length_error "vector::_M_default_append").

(** [copy_points(input, indices, output)]; the result is the new value of
    [output]. The size given to [resize] is the [size_t] product
    [indices.size() * output.point_step]. The debug record it logs at the
    end is left out. *)
Definition copy_points (input : PointCloud2) (indices : list Index)
    (output : PointCloud2) : Outcome PointCloud2 :=
  let size := Z.of_nat (length indices) in
  let out_width := wrap32 size in
  let out_point_step := point_step input in
  (let* out_data := vector_resize (wrap64 (size * out_point_step)) (data output) in
   let* out_data' := copy_loop input out_point_step indices 0 out_data in
   Ret {| header := header input;
          height := 1;
          width := out_width;
          fields := fields input;
          is_bigendian := is_bigendian input;
          point_step := out_point_step;
          row_step := wrap32 (out_width * out_point_step);
          data := out_data';
          is_dense := is_dense input |})%outcome.


(* ================================================================== *)
(** * SphericalProjection *)
(* ================================================================== *)

Record SphericalProjection : Type := mkSphericalProjection {
  azimuth_start_ : Value;
  azimuth_step_ : Value;
  elevation_start_ : Value;
  elevation_step_ : Value;
  height_ : Z;       (* uint32 *)
  width_ : Z         (* uint32 *)
}.

(** What [RCLCPP_DEBUG], [RCLCPP_INFO] and [RCLCPP_WARN] hand to the
    logger. The elapsed time of a [Timer] is not modelled. *)
Inductive Severity : Type := DEBUG | INFO | WARN.

Inductive LogArg : Type :=
| ArgDouble (d : Double)
| ArgInt (n : Z)
| ArgSeconds.

Record LogRecord : Type := mkLogRecord {
  severity : Severity;
  format : string;
  args : list LogArg
}.

(** A member function: from the object before the call to the result, the
    object after the call and the records logged. *)
Definition Method (A : Type) : Type :=
  SphericalProjection -> Outcome (A * SphericalProjection * list LogRecord).

Definition m_ret {A : Type} (a : A) : Method A :=
  fun self => Ret (a, self, []).

Definition m_bind {A B : Type} (c : Method A) (k : A -> Method B) : Method B :=
  fun self =>
    (let* (a, self', l1) := c self in
     let* (b, self'', l2) := k a self' in
     Ret (b, self'', l1 ++ l2))%outcome.

Definition m_lift {A : Type} (o : Outcome A) : Method A :=
  fun self => (let* a := o in Ret (a, self, []))%outcome.

Definition m_get : Method SphericalProjection :=
  fun self => Ret (self, self, []).

Definition m_log (r : LogRecord) : Method unit :=
  fun self => Ret (tt, self, [r]).

(** [assert(c)]: nothing under [NDEBUG]. *)
Definition m_assert `{Extern} (c : bool) : Method unit :=
  fun self => if NDEBUG || c then Ret (tt, self, []) else AssertionFailed.

Definition set_azimuth_start_ (v : Value) : Method unit :=
  fun self => Ret (tt, {| azimuth_start_ := v; azimuth_step_ := azimuth_step_ self;
                          elevation_start_ := elevation_start_ self;
                          elevation_step_ := elevation_step_ self;
                          height_ := height_ self; width_ := width_ self |}, []).

Definition set_azimuth_step_ (v : Value) : Method unit :=
  fun self => Ret (tt, {| azimuth_start_ := azimuth_start_ self; azimuth_step_ := v;
                          elevation_start_ := elevation_start_ self;
                          elevation_step_ := elevation_step_ self;
                          height_ := height_ self; width_ := width_ self |}, []).

Definition set_elevation_start_ (v : Value) : Method unit :=
  fun self => Ret (tt, {| azimuth_start_ := azimuth_start_ self;
                          azimuth_step_ := azimuth_step_ self;
                          elevation_start_ := v;
                          elevation_step_ := elevation_step_ self;
                          height_ := height_ self; width_ := width_ self |}, []).

Definition set_elevation_step_ (v : Value) : Method unit :=
  fun self => Ret (tt, {| azimuth_start_ := azimuth_start_ self;
                          azimuth_step_ := azimuth_step_ self;
                          elevation_start_ := elevation_start_ self;
                          elevation_step_ := v;
                          height_ := height_ self; width_ := width_ self |}, []).

Definition set_height_ (v : Z) : Method unit :=
  fun self => Ret (tt, {| azimuth_start_ := azimuth_start_ self;
                          azimuth_step_ := azimuth_step_ self;
                          elevation_start_ := elevation_start_ self;
                          elevation_step_ := elevation_step_ self;
                          height_ := v; width_ := width_ self |}, []).

Definition set_width_ (v : Z) : Method unit :=
  fun self => Ret (tt, {| azimuth_start_ := azimuth_start_ self;
                          azimuth_step_ := azimuth_step_ self;
                          elevation_start_ := elevation_start_ self;
                          elevation_step_ := elevation_step_ self;
                          height_ := height_ self; width_ := v |}, []).

Declare Scope method_scope.
Delimit Scope method_scope with method.
Notation "'let*' p ':=' c 'in' k" := (m_bind c (fun p => k))
  (at level 10, p pattern, c at level 100, k at level 200, only parsing)
  : method_scope.

(** ** unproject and project *)

Definition unproject `{Extern} (self : SphericalProjection) (r c : Value)
    : Value * Value * Value :=
  let az := F32.add (azimuth_start_ self) (F32.mul c (azimuth_step_ self)) in
  let el := F32.add (elevation_start_ self) (F32.mul r (elevation_step_ self)) in
  spherical_to_cartesian az el (F32.of_int 1).

Definition project `{Extern} (self : SphericalProjection) (x y z : Value)
    : Value * Value :=
  let '(az, el, radius) := cartesian_to_spherical x y z in
  let r := F32.div (F32.sub el (elevation_start_ self)) (elevation_step_ self) in
  let c := F32.div (F32.sub az (azimuth_start_ self)) (azimuth_step_ self) in
  (r, c).

(** ** fit_fast *)

(** The four indices [i_r0, i_r1, i_c0, i_c1] of the scan. *)
Record Extrema : Type := mkExtrema {
  i_r0 : Index;
  i_r1 : Index;
  i_c0 : Index;
  i_c1 : Index
}.

Definition no_extrema : Extrema :=
  {| i_r0 := INVALID_INDEX; i_r1 := INVALID_INDEX;
     i_c0 := INVALID_INDEX; i_c1 := INVALID_INDEX |}.

(** The four updates of the loop body for the valid point [i]. *)
Definition update_extrema (w : Z) (i : Index) (e : Extrema) : Extrema :=
  {| i_r0 := if (i_r0 e =? INVALID_INDEX) || (udiv i w <? udiv (i_r0 e) w)
             then i else i_r0 e;
     i_r1 := if (i_r1 e =? INVALID_INDEX) || (udiv (i_r1 e) w <? udiv i w)
             then i else i_r1 e;
     i_c0 := if (i_c0 e =? INVALID_INDEX) || (umod i w <? umod (i_c0 e) w)
             then i else i_c0 e;
     i_c1 := if (i_c1 e =? INVALID_INDEX) || (umod (i_c1 e) w <? umod i w)
             then i else i_c1 e |}.

(** [if (i_r0 < i_r1 && i_c0 < i_c1) break;] *)
Definition extrema_found (e : Extrema) : bool :=
  (i_r0 e <? i_r1 e) && (i_c0 e <? i_c1 e).

(** [for (Index i = 0; i < n_points; ++i, ++x_it)], with [n] iterations
    left from index [i] on. *)
Fixpoint fit_fast_scan `{Extern} (cloud : PointCloud2) (x_begin : Z) (n : nat)
    (i : Index) (e : Extrema) : Outcome Extrema :=
  match n with
  | O => Ret e
  | S n' =>
      (let* fin := finite_at cloud (it_add cloud x_begin i) in
       if negb fin then fit_fast_scan cloud x_begin n' (i + 1) e
       else
         let e' := update_extrema (width cloud) i e in
         if extrema_found e' then Ret e'
         else fit_fast_scan cloud x_begin n' (i + 1) e')%outcome
  end.

Definition fit_fast `{Extern} (cloud : PointCloud2) : Method bool :=
  (let* _ := m_assert (1 <=? height cloud) in
   let* _ := m_assert (1 <=? width cloud) in
   let n_points := n_points_of cloud in
   let* x_begin := m_lift (PointCloud2ConstIterator cloud "x") in
   let* e := m_lift (fit_fast_scan cloud x_begin (Z.to_nat n_points) 0 no_extrema) in
   if i_r0 e =? INVALID_INDEX then m_ret false
   else
     let* _ := set_height_ (height cloud) in
     let* _ := set_width_ (width cloud) in
     let* (x0, y0, z0) := m_lift (xyz_at cloud (it_add cloud x_begin (i_r0 e))) in
     let elevation_0 := elevation x0 y0 z0 in
     let* (x1, y1, z1) := m_lift (xyz_at cloud (it_add cloud x_begin (i_r1 e))) in
     let elevation_1 := elevation x1 y1 z1 in
     let* self := m_get in
     let r0 := to_int (udiv (i_r0 e) (width_ self)) in
     let r1 := to_int (udiv (i_r1 e) (width_ self)) in
     let* _ := set_elevation_step_
                 (F32.div (F32.sub elevation_1 elevation_0)
                          (F32.of_int (to_int (r1 - r0)))) in
     let* self := m_get in
     let* _ := set_elevation_start_
                 (F32.sub elevation_0 (F32.mul (F32.of_int r0) (elevation_step_ self))) in
     let* (x0, y0) := m_lift (xy_at cloud (it_add cloud x_begin (i_c0 e))) in
     let azimuth_0 := azimuth x0 y0 in
     let* (x1, y1) := m_lift (xy_at cloud (it_add cloud x_begin (i_c1 e))) in
     let azimuth_1 := azimuth x1 y1 in
     let* self := m_get in
     let c0 := to_int (umod (i_c0 e) (width_ self)) in
     let c1 := to_int (umod (i_c1 e) (width_ self)) in
     let* _ := set_azimuth_step_
                 (F32.div (F32.sub azimuth_1 azimuth_0)
                          (F32.of_int (to_int (c1 - c0)))) in
     let* self := m_get in
     let* _ := set_azimuth_start_
                 (F32.sub azimuth_0 (F32.mul (F32.of_int c0) (azimuth_step_ self))) in
     let* _ := m_log {| severity := INFO;
                        format := "Spherical model: elevation difference %.3f between rows %i and %i, azimuth difference %.3f between cols %i and %i (%.6f s).";
                        args := [ArgDouble (F64.of_float (F32.sub elevation_1 elevation_0));
                                 ArgInt r0; ArgInt r1;
                                 ArgDouble (F64.of_float (F32.sub azimuth_1 azimuth_0));
                                 ArgInt c0; ArgInt c1; ArgSeconds] |} in
     m_ret true)%method.

(** ** fit_robust *)

(** [typedef std::pair<Value, Value> Model;]: (start, step). *)
Abbreviation Model := (Value * Value)%type.

(** [comp = [](const Model &a, const Model &b) { return a.second < b.second; }] *)
Definition comp (a b : Model) : bool := F32.ltb (snd a) (snd b).

(** Insertion in turn, each element after those that are not greater: a
    sort that keeps the order of the elements [lt] does not tell apart. *)
Fixpoint sort_insert (lt : Model -> Model -> bool) (x : Model) (l : list Model)
    : list Model :=
  match l with
  | [] => [x]
  | y :: l' => if lt x y then x :: l else y :: sort_insert lt x l'
  end.

Definition insertion_sort (lt : Model -> Model -> bool) (l : list Model) : list Model :=
  fold_left (fun sorted x => sort_insert lt x sorted) l [].

(** [std::is_sorted(first, last, lt)]: no element is less than the one
    before it. *)
Fixpoint is_sorted (lt : Model -> Model -> bool) (l : list Model) : bool :=
  match l with
  | a :: (b :: _) as l' => negb (lt b a) && is_sorted lt l'
  | _ => true
  end.

(** [std::sort(first, last, comp)] leaves the elements of the range in an
    order that is sorted by [comp]. Which of these orders it is, where
    [comp] does not tell elements apart, is not specified and differs
    between implementations: it is [sort_result l], the order the
    [std::sort] in use leaves [l] in. A [sort_result] that gives no sorted
    order of [l] is not the one of a [std::sort]; insertion in turn stands
    in for it. *)
Definition std_sort `{Extern} (lt : Model -> Model -> bool) (l : list Model)
    : list Model :=
  let sorted := sort_result l in
  if bool_decide (sorted ≡ₚ l) && is_sorted lt sorted then sorted
  else insertion_sort lt l.

(** The first loop of [fit_robust]: the indices of the valid points. *)
Fixpoint collect_valid `{Extern} (cloud : PointCloud2) (x_begin : Z) (n : nat)
    (i : Index) (valid : list Index) : Outcome (list Index) :=
  match n with
  | O => Ret valid
  | S n' =>
      (let* fin := finite_at cloud (it_add cloud x_begin i) in
       if negb fin then collect_valid cloud x_begin n' (i + 1) valid
       else collect_valid cloud x_begin n' (i + 1) (valid ++ [i]))%outcome
  end.

(** The candidate of the azimuth for a pair of points, if their columns
    differ, and of the elevation, if their rows differ. *)
Definition az_candidate `{Extern} (cloud : PointCloud2) (x_begin : Z) (v0 v1 : Index)
    : Outcome (option Model) :=
  let c0 := to_int (umod v0 (width cloud)) in
  let c1 := to_int (umod v1 (width cloud)) in
  if c0 =? c1 then Ret None
  else
    (let* (x0, y0) := xy_at cloud (it_add cloud x_begin v0) in
     let az0 := azimuth x0 y0 in
     let* (x1, y1) := xy_at cloud (it_add cloud x_begin v1) in
     let az1 := azimuth x1 y1 in
     let az_step := F32.div (F32.sub az1 az0) (F32.of_int (to_int (c1 - c0))) in
     Ret (Some (F32.sub az0 (F32.mul (F32.of_int c0) az_step), az_step)))%outcome.

Definition el_candidate `{Extern} (cloud : PointCloud2) (x_begin : Z) (v0 v1 : Index)
    : Outcome (option Model) :=
  let r0 := to_int (udiv v0 (width cloud)) in
  let r1 := to_int (udiv v1 (width cloud)) in
  if r0 =? r1 then Ret None
  else
    (let* (x0, y0, z0) := xyz_at cloud (it_add cloud x_begin v0) in
     let el0 := elevation x0 y0 z0 in
     let* (x1, y1, z1) := xyz_at cloud (it_add cloud x_begin v1) in
     let el1 := elevation x1 y1 z1 in
     let el_step := F32.div (F32.sub el1 el0) (F32.of_int (to_int (r1 - r0))) in
     Ret (Some (F32.sub el0 (F32.mul (F32.of_int r0) el_step), el_step)))%outcome.

(** [v.reserve(n)] for an [Index] [n]: a negative [n] converts to a size
    above [max_size()], and [reserve] throws. Running out of memory is not
    modelled. *)
Definition vector_reserve (n : Index) : Outcome unit :=
  if n <? 0 then Throw (length_error "vector::reserve") else Ret tt.

(** [models.push_back(m)] when there is a candidate. *)
Definition push_candidate (models : list Model) (m : option Model) : list Model :=
  match m with
  | Some m => models ++ [m]
  | None => models
  end.

(** [for (Index i = 0; i + 1 < valid.size(); ++i)]: [valid] holds
    [valid[i], valid[i + 1], ...]. *)
Fixpoint collect_models `{Extern} (cloud : PointCloud2) (x_begin : Z)
    (valid : list Index) (az_models el_models : list Model)
    : Outcome (list Model * list Model) :=
  match valid with
  | v0 :: ((v1 :: _) as rest) =>
      (let* az := az_candidate cloud x_begin v0 v1 in
       let az_models' := push_candidate az_models az in
       let* el := el_candidate cloud x_begin v0 v1 in
       let el_models' := push_candidate el_models el in
       if (25 <=? Z.of_nat (length az_models')) && (25 <=? Z.of_nat (length el_models'))
       then Ret (az_models', el_models')
       else collect_models cloud x_begin rest az_models' el_models')%outcome
  | _ => Ret (az_models, el_models)
  end.

(** [models[models.size() / 2]] *)
Definition middle (models : list Model) : Outcome Model :=
  match models !! (length models / 2)%nat with
  | Some m => Ret m
  | None => OutOfBounds
  end.

(** [fit_robust(cloud)]. The generator [g] of the call is seeded by a
    [std::random_device] inside the function; [shuffle] is what
    [std::shuffle(valid.begin(), valid.end(), g)] makes of [valid] in this
    call. *)
Definition fit_robust `{Extern} (shuffle : list Index -> list Index)
    (cloud : PointCloud2) : Method bool :=
  (let* _ := m_assert (1 <=? height cloud) in
   let* _ := m_assert (1 <=? width cloud) in
   let n_points := n_points_of cloud in
   let* x_begin := m_lift (PointCloud2ConstIterator cloud "x") in
   let* _ := m_lift (vector_reserve n_points) in
   let* valid := m_lift (collect_valid cloud x_begin (Z.to_nat n_points) 0 []) in
   let valid := shuffle valid in
   let* _ := m_lift (vector_reserve n_points) in
   let* _ := m_lift (vector_reserve n_points) in
   let* (az_models, el_models) := m_lift (collect_models cloud x_begin valid [] []) in
   if match az_models with [] => true | _ => false end
      || match el_models with [] => true | _ => false end
   then m_ret false
   else
     let az_models := std_sort comp az_models in
     let* az := m_lift (middle az_models) in
     let* _ := set_azimuth_start_ (fst az) in
     let* _ := set_azimuth_step_ (snd az) in
     let el_models := std_sort comp el_models in
     let* el := m_lift (middle el_models) in
     let* _ := set_elevation_start_ (fst el) in
     let* _ := set_elevation_step_ (snd el) in
     let* _ := set_height_ (height cloud) in
     let* _ := set_width_ (width cloud) in
     let* self := m_get in
     let deg x := ArgDouble (F64.of_float (degrees_float x)) in
     let* _ := m_log {| severity := DEBUG;
                        format := "Robust fit [deg]: azimuth [%.1f, %.1f], step %.3f (from %lu models), elevation [%.1f, %.1f], step %.3f (from %lu models) (%.6f s).";
                        args := [deg (azimuth_start_ self);
                                 deg (F32.add (azimuth_start_ self)
                                        (F32.mul (F32.of_int (wrap32 (width_ self - 1)))
                                                 (azimuth_step_ self)));
                                 deg (azimuth_step_ self);
                                 ArgInt (Z.of_nat (length az_models));
                                 deg (elevation_start_ self);
                                 deg (F32.add (elevation_start_ self)
                                        (F32.mul (F32.of_int (wrap32 (height_ self - 1)))
                                                 (elevation_step_ self)));
                                 deg (elevation_step_ self);
                                 ArgInt (Z.of_nat (length el_models));
                                 ArgSeconds] |} in
     m_ret true)%method.

Definition fit `{Extern} (shuffle : list Index -> list Index) (cloud : PointCloud2)
    : Method bool :=
  fit_robust shuffle cloud.

(** ** check *)

(** Eigen: [pt.normalize()] divides by the norm when the squared norm is
    positive; [a.dot(b)]. *)
Abbreviation Vec3 := (Value * Value * Value)%type.

Definition Vec3_squaredNorm (v : Vec3) : Value :=
  let '(x, y, z) := v in
  F32.add (F32.add (F32.mul x x) (F32.mul y y)) (F32.mul z z).

Definition Vec3_normalize (v : Vec3) : Vec3 :=
  let '(x, y, z) := v in
  let n2 := Vec3_squaredNorm v in
  if F32.ltb (F32.of_int 0) n2 then
    let n := F32.sqrt n2 in (F32.div x n, F32.div y n, F32.div z n)
  else v.

Definition Vec3_dot (a b : Vec3) : Value :=
  let '(ax, ay, az) := a in
  let '(bx, by_, bz) := b in
  F32.add (F32.add (F32.mul ax bx) (F32.mul ay by_)) (F32.mul az bz).

(** The body of the inner loop for the point at [x_it], in row [r] and
    column [c]: [acc] is ([residual_sum], [n]). Everything after the
    unconditional [continue] is dead. *)
Definition check_point `{Extern} (cloud : PointCloud2) (self : SphericalProjection)
    (r c : Index) (x_it : Z) (acc : Double * Index) : Outcome (Double * Index) :=
  (let* fin := finite_at cloud x_it in
   if negb fin then Ret acc
   else
     let* (x, y, z) := xyz_at cloud x_it in
     let '(r_model, c_model) := project self x y z in
     if F32.eqb (F32.of_int r) (std_round r_model)
        && F32.eqb (F32.of_int c) (std_round c_model)
     then Ret acc
     else
       let pt := Vec3_normalize (x, y, z) in
       let pt_model := unproject self (F32.of_int r) (F32.of_int c) in
       let residual := std_acos (Vec3_dot pt pt_model) in
       if isfinite residual
       then Ret (F64.add (fst acc) (F64.of_float residual), to_int (snd acc + 1))
       else Ret acc)%outcome.

(** [for (Index c = 0; c < width_; ++c, ++x_it)] with [n] iterations left. *)
Fixpoint check_row `{Extern} (cloud : PointCloud2) (self : SphericalProjection)
    (r : Index) (n : nat) (c : Index) (x_it : Z) (acc : Double * Index)
    : Outcome (Z * (Double * Index)) :=
  match n with
  | O => Ret (x_it, acc)
  | S n' =>
      (let* acc' := check_point cloud self r c x_it acc in
       check_row cloud self r n' (c + 1) (it_add cloud x_it 1) acc')%outcome
  end.

(** [for (Index r = 0; r < height_; ++r)] with [n] iterations left. *)
Fixpoint check_rows `{Extern} (cloud : PointCloud2) (self : SphericalProjection)
    (n : nat) (r : Index) (x_it : Z) (acc : Double * Index)
    : Outcome (Double * Index) :=
  match n with
  | O => Ret acc
  | S n' =>
      (let* (x_it', acc') := check_row cloud self r (Z.to_nat (width_ self)) 0 x_it acc in
       check_rows cloud self n' (r + 1) x_it' acc')%outcome
  end.

Definition check `{Extern} (cloud : PointCloud2) : Method bool :=
  (let* self := m_get in
   let* _ := m_assert (height_ self =? height cloud) in
   let* _ := m_assert (width_ self =? width cloud) in
   let* _ := (if negb (height cloud =? height_ self) || negb (width cloud =? width_ self)
              then m_log {| severity := WARN;
                            format := "Cloud size (%i, %i) inconsistent with model size (%i, %i).";
                            args := [ArgInt (height cloud); ArgInt (width cloud);
                                     ArgInt (height_ self); ArgInt (width_ self)] |}
              else m_ret tt) in
   let* x_it := m_lift (PointCloud2ConstIterator cloud "x") in
   let* (residual_sum, n) :=
     m_lift (check_rows cloud self (Z.to_nat (height_ self)) 0 x_it (F64.of_int 0, 0)) in
   let mean_residual := F64.div residual_sum (F64.of_int n) in
   let bound := F64.div (F64.of_float (std_min (F32.abs (azimuth_step_ self))
                                               (F32.abs (elevation_step_ self))))
                        (F64.of_int 2) in
   let* _ := (if F64.ltb bound mean_residual
              then m_log {| severity := WARN;
                            format := "Mean angular error: %.3f [deg].";
                            args := [ArgDouble (degrees (F64.div residual_sum (F64.of_int n)))] |}
              else m_log {| severity := DEBUG;
                            format := "Mean angular error: %.3f [deg].";
                            args := [ArgDouble (F64.div residual_sum (F64.of_int n))] |}) in
   m_ret true)%method.

(* ================================================================== *)
(** * Buffers the fits are stated for *)
(* ================================================================== *)

(** Point [i] is valid: the three floats of its position are finite. They
    are the floats [x_it[0]], [x_it[1]], [x_it[2]] at the field [x], which is
    where [append_position_fields] puts x, y and z. *)
Definition point_valid `{Extern} (cloud : PointCloud2) (x_begin : Z) (i : Z) : bool :=
  let pos := it_add cloud x_begin i in
  isfinite (float_at (data cloud) pos)
  && isfinite (float_at (data cloud) (pos + 4))
  && isfinite (float_at (data cloud) (pos + 8)).

(** The buffer has at least one row and one column (the [assert]s of the
    fits), a field [x] at [x_begin] with room for three floats in every
    record, the records of all its points in [data], and a number of
    points that an [Index] can hold. *)
Record cloud_ok (cloud : PointCloud2) (x_begin : Z) : Prop := mk_cloud_ok {
  ok_height : 1 <= height cloud < 2 ^ 32;
  ok_width : 1 <= width cloud < 2 ^ 32;
  ok_field : exists f, find_field cloud "x" = Some f /\ offset f = x_begin;
  ok_x_begin : 0 <= x_begin /\ x_begin + 12 <= point_step cloud;
  ok_data : num_points cloud * point_step cloud <= Z.of_nat (length (data cloud));
  ok_points : num_points cloud <= INT_MAX
}.

(** Row and column of point [i]. *)
Definition row_of (cloud : PointCloud2) (i : Z) : Z := i / width cloud.
Definition col_of (cloud : PointCloud2) (i : Z) : Z := i mod width cloud.

(** No point of the buffer is valid. *)
Definition no_valid_point `{Extern} (cloud : PointCloud2) (x_begin : Z) : Prop :=
  forall i, 0 <= i < num_points cloud -> point_valid cloud x_begin i = false.

(** ** std::shuffle *)

(** One of its implementations: for [i] from 1 to [n - 1], exchange
    element [i] with the element at a position drawn from [0 .. i];
    [draws i] is the number the generator gives at step [i]. *)
Definition swap {A : Type} (l : list A) (i j : nat) : list A :=
  match l !! i, l !! j with
  | Some a, Some b => <[i := b]> (<[j := a]> l)
  | _, _ => l
  end.

Definition std_shuffle {A : Type} (draws : nat -> nat) (l : list A) : list A :=
  fold_left (fun v i => swap v i (draws i mod S i)%nat) (seq 1 (length l - 1)) l.

(* ================================================================== *)
(** * Vocabulary of the properties *)
(* ================================================================== *)

(** The float of the field named [n] in the record of point [i], when the
    buffer has such a field. *)
Definition field_float `{Extern} (cloud : PointCloud2) (n : string) (i : Z)
    : option Value :=
  f ← find_field cloud n;
  Some (float_at (data cloud) (it_add cloud (offset f) i)).

(** The position fields x, y and z of point [i] are all finite. *)
Definition position_finite `{Extern} (cloud : PointCloud2) (i : Z) : bool :=
  match field_float cloud "x" i, field_float cloud "y" i, field_float cloud "z" i with
  | Some x, Some y, Some z => isfinite x && isfinite y && isfinite z
  | _, _, _ => false
  end.

(** The fields y and z follow x as [append_position_fields<float>] lays
    them out: 4 and 8 bytes after [x_begin]. *)
Definition position_packed (cloud : PointCloud2) (x_begin : Z) : Prop :=
  (exists f, find_field cloud "y" = Some f /\ offset f = x_begin + 4)
  /\ (exists f, find_field cloud "z" = Some f /\ offset f = x_begin + 8).





(** All valid points of the buffer are in one column, or in one row. *)
Definition one_column `{Extern} (cloud : PointCloud2) (x_begin : Z) : Prop :=
  forall i j, 0 <= i < num_points cloud -> 0 <= j < num_points cloud ->
    point_valid cloud x_begin i = true -> point_valid cloud x_begin j = true ->
    col_of cloud i = col_of cloud j.

Definition one_row `{Extern} (cloud : PointCloud2) (x_begin : Z) : Prop :=
  forall i j, 0 <= i < num_points cloud -> 0 <= j < num_points cloud ->
    point_valid cloud x_begin i = true -> point_valid cloud x_begin j = true ->
    row_of cloud i = row_of cloud j.

(** [idx] is a valid point before index [k]. *)
Definition seen_point `{Extern} (cloud : PointCloud2) (x_begin : Z) (k : Z) (idx : Z)
    : Prop :=
  0 <= idx < k /\ point_valid cloud x_begin idx = true.

(** The four indices of the scan are valid points before index [k]. *)
Definition seen `{Extern} (cloud : PointCloud2) (x_begin : Z) (k : Z) (e : Extrema)
    : Prop :=
  seen_point cloud x_begin k (i_r0 e) /\ seen_point cloud x_begin k (i_r1 e)
  /\ seen_point cloud x_begin k (i_c0 e) /\ seen_point cloud x_begin k (i_c1 e).

(** The invariant of the scan of [fit_fast] before index [k]: nothing was
    found and no point before [k] is valid, or the four indices are valid
    points before [k]; the two column indices are equal as long as the
    valid points are in one column, and so for the rows. *)
Definition scan_inv `{Extern} (cloud : PointCloud2) (x_begin : Z) (k : Z) (e : Extrema)
    : Prop :=
  ((e = no_extrema /\ forall j, 0 <= j < k -> point_valid cloud x_begin j = false)
   \/ seen cloud x_begin k e)
  /\ (one_column cloud x_begin -> i_c0 e = i_c1 e)
  /\ (one_row cloud x_begin -> i_r0 e = i_r1 e).

(** The azimuth and the elevation of point [i]. *)
Definition azimuth_of `{Extern} (cloud : PointCloud2) (x_begin : Z) (i : Z) : Value :=
  azimuth (float_at (data cloud) (it_add cloud x_begin i))
          (float_at (data cloud) (it_add cloud x_begin i + 4)).

Definition elevation_of `{Extern} (cloud : PointCloud2) (x_begin : Z) (i : Z) : Value :=
  elevation (float_at (data cloud) (it_add cloud x_begin i))
            (float_at (data cloud) (it_add cloud x_begin i + 4))
            (float_at (data cloud) (it_add cloud x_begin i + 8)).

(** The object after a [fit_fast] whose scan left the indices [e]. *)
Definition fit_fast_model `{Extern} (cloud : PointCloud2) (x_begin : Z) (e : Extrema)
    : SphericalProjection :=
  let w := width cloud in
  let el_step :=
    F32.div (F32.sub (elevation_of cloud x_begin (i_r1 e))
                     (elevation_of cloud x_begin (i_r0 e)))
            (F32.of_int (to_int (to_int (udiv (i_r1 e) w) - to_int (udiv (i_r0 e) w)))) in
  let az_step :=
    F32.div (F32.sub (azimuth_of cloud x_begin (i_c1 e))
                     (azimuth_of cloud x_begin (i_c0 e)))
            (F32.of_int (to_int (to_int (umod (i_c1 e) w) - to_int (umod (i_c0 e) w)))) in
  {| azimuth_start_ :=
       F32.sub (azimuth_of cloud x_begin (i_c0 e))
               (F32.mul (F32.of_int (to_int (umod (i_c0 e) w))) az_step);
     azimuth_step_ := az_step;
     elevation_start_ :=
       F32.sub (elevation_of cloud x_begin (i_r0 e))
               (F32.mul (F32.of_int (to_int (udiv (i_r0 e) w))) el_step);
     elevation_step_ := el_step;
     height_ := height cloud;
     width_ := w |}.

(** The object after a [fit_robust] that took the candidates [az] and
    [el]. *)
Definition fit_robust_model (cloud : PointCloud2) (az el : Model) : SphericalProjection :=
  {| azimuth_start_ := fst az; azimuth_step_ := snd az;
     elevation_start_ := fst el; elevation_step_ := snd el;
     height_ := height cloud; width_ := width cloud |}.

(** The step of [a] is at most the step of [b], as floats ([<=] of
    IEEE 754: false when one of them is NaN). *)
Definition step_le (a b : Model) : Prop := SFleb (snd a) (snd b) = true.

(** A list is in ascending order of step: the step of an element is at
    most the step of every later one. *)
Definition step_sorted (l : list Model) : Prop :=
  forall i j a b, (i < j)%nat -> l !! i = Some a -> l !! j = Some b -> step_le a b.

(** [comp] puts no element of the list before an earlier one. *)
Definition comp_sorted (l : list Model) : Prop :=
  forall i j a b, (i < j)%nat -> l !! i = Some a -> l !! j = Some b ->
    comp b a = false.

(** A key whose lexicographic order is the order of the floats that are
    numbers. *)
Definition fkey (x : Value) : Z * Z * Z :=
  match x with
  | S754_nan => (0, 0, 0)
  | S754_zero _ => (0, 0, 0)
  | S754_infinity s => (if s then -2 else 2, 0, 0)
  | S754_finite s m e => if s then (-1, - e, - Zpos m) else (1, e, Zpos m)
  end.

Definition lex_lt (a b : Z * Z * Z) : Prop :=
  let '(a1, a2, a3) := a in
  let '(b1, b2, b3) := b in
  a1 < b1 \/ (a1 = b1 /\ (a2 < b2 \/ (a2 = b2 /\ a3 < b3))).

(** [f] has one value on the list. *)
Definition all_same (f : Z -> Z) (l : list Z) : Prop :=
  forall a b, a ∈ l -> b ∈ l -> f a = f b.

(** The record [check] logs for the mean residual. *)
Definition mean_error_record (r : LogRecord) : Prop :=
  format r = "Mean angular error: %.3f [deg]."
  /\ (severity r = WARN \/ severity r = DEBUG)
  /\ exists mean, args r = [ArgDouble mean].

(* ================================================================== *)
(** * The other schema helpers *)
(* ================================================================== *)

Definition append_normal_fields (T : Datatype) (cloud : PointCloud2) : PointCloud2 :=
  let cloud := append_field T "nx" 1 cloud in
  let cloud := append_field T "ny" 1 cloud in
  append_field T "nz" 1 cloud.

Definition append_occupancy_fields (cloud : PointCloud2) : PointCloud2 :=
  let cloud := append_field UINT8 "seen_thru" 1 cloud in
  append_field UINT8 "hit" 1 cloud.

Definition append_traversability_fields (cloud : PointCloud2) : PointCloud2 :=
  let cloud := append_field UINT8 "normal_pts" 1 cloud in
  let cloud := append_field UINT8 "obs_pts" 1 cloud in
  let cloud := append_field UINT8 "gnd_diff_std" 1 cloud in
  let cloud := append_field INT8 "gnd_diff_min" 1 cloud in
  let cloud := append_field INT8 "gnd_diff_max" 1 cloud in
  let cloud := append_field UINT8 "gnd_abs_diff_mean" 1 cloud in
  let cloud := append_field UINT8 "nz_lbl" 1 cloud in
  append_field UINT8 "final_lbl" 1 cloud.

Definition append_planning_fields (cloud : PointCloud2) : PointCloud2 :=
  let cloud := append_field FLOAT32 "path_cost" 1 cloud in
  let cloud := append_field FLOAT32 "utility" 1 cloud in
  append_field FLOAT32 "final_cost" 1 cloud.

(** [copy_cloud_metadata(input, output)]; the result is the new value of
    [output]. *)
Definition copy_cloud_metadata (input output : PointCloud2) : PointCloud2 :=
  {| header := header input;
     height := height output; width := width output;
     fields := fields input;
     is_bigendian := is_bigendian input;
     point_step := point_step input;
     row_step := row_step output; data := data output;
     is_dense := is_dense input |}.

(** The bytes a field takes in every record. *)
Definition field_size (f : PointField) : Z := count f * value_size (datatype f).

(* ================================================================== *)
(** * Writing through an iterator: fill_field and fill_const_field *)
(* ================================================================== *)

(** The byte of a colour channel inside a packed rgb or rgba field. *)
Definition channel_offset (big : bool) (n : string) : option Z :=
  if String.eqb n "r" then Some (if big then 1 else 2)
  else if String.eqb n "g" then Some (if big then 2 else 1)
  else if String.eqb n "b" then Some (if big then 3 else 0)
  else if String.eqb n "a" then Some (if big then 0 else 3)
  else None.

(** [sensor_msgs::PointCloud2Iterator<T> it(cloud, name)]: the position of
    the first field called [name]; for a channel name r, g, b or a that no
    field has, the byte of that channel in the first field called rgb or
    rgba. The constructor throws when there is no such field. *)
Definition PointCloud2Iterator (cloud : PointCloud2) (n : string) : Outcome Z :=
  let missing := Throw (runtime_error ("Field " +:+ n +:+ " does not exist")) in
  match find_field cloud n with
  | Some f => Ret (offset f)
  | None =>
      match channel_offset (is_bigendian cloud) n with
      | Some k =>
          match List.find (fun f => String.eqb (name f) "rgb" || String.eqb (name f) "rgba")
                          (fields cloud) with
          | Some f => Ret (offset f + k)
          | None => missing
          end
      | None => missing
      end
  end.

(** A value of an element type [T] is the [sizeof(T)] bytes of its object
    representation. [*field_it = value] puts them at the position of the
    iterator, which is defined when they are bytes of the vector. *)
Definition store_object (T : Datatype) (value : list byte) (bytes : list byte) (pos : Z)
    : Outcome (list byte) :=
  if (0 <=? pos) && (pos + value_size T <=? Z.of_nat (length bytes)) then
    Ret (list_inserts (Z.to_nat pos) (resize (Z.to_nat (value_size T)) x00 value) bytes)
  else OutOfBounds.

(** The buffer with other bytes. *)
Definition with_data (cloud : PointCloud2) (bytes : list byte) : PointCloud2 :=
  {| header := header cloud; height := height cloud; width := width cloud;
     fields := fields cloud; is_bigendian := is_bigendian cloud;
     point_step := point_step cloud; row_step := row_step cloud;
     data := bytes; is_dense := is_dense cloud |}.

(** [size_t n = cloud.height * cloud.width]: the product is a [uint32_t]. *)
Definition fill_count (cloud : PointCloud2) : Z := wrap32 (height cloud * width cloud).

(** [for (; it != end; ++it, ++field_it) *field_it = *it;] with [n]
    iterations left; [it] is the array from the pointer [it] on, and reading
    after its end is undefined. *)
Fixpoint fill_field_loop (T : Datatype) (cloud : PointCloud2) (n : nat)
    (it : list (list byte)) (field_it : Z) (bytes : list byte) : Outcome (list byte) :=
  match n with
  | O => Ret bytes
  | S n' =>
      match it with
      | [] => OutOfBounds
      | value :: it' =>
          (let* bytes' := store_object T value bytes field_it in
           fill_field_loop T cloud n' it' (it_add cloud field_it 1) bytes')%outcome
      end
  end.

(** [fill_field<T>(name, it, cloud)]; the result is the new value of
    [cloud]. *)
Definition fill_field (T : Datatype) (n : string) (it : list (list byte))
    (cloud : PointCloud2) : Outcome PointCloud2 :=
  (let* field_it := PointCloud2Iterator cloud n in
   let* bytes := fill_field_loop T cloud (Z.to_nat (fill_count cloud)) it field_it
                   (data cloud) in
   Ret (with_data cloud bytes))%outcome.

(** [for (; field_it != end; ++field_it) *field_it = value;]. The loop
    ends when the iterator meets [end]; each iteration before stores inside
    the bytes, further on than the one before, so that more than
    [length bytes] iterations cannot be: [fuel] is never used up from
    [S (length bytes)]. *)
Fixpoint fill_const_loop (T : Datatype) (cloud : PointCloud2) (value : list byte)
    (fuel : nat) (field_it end_ : Z) (bytes : list byte) : Outcome (list byte) :=
  if field_it =? end_ then Ret bytes
  else
    match fuel with
    | O => OutOfBounds
    | S fuel' =>
        (let* bytes' := store_object T value bytes field_it in
         fill_const_loop T cloud value fuel' (it_add cloud field_it 1) end_ bytes')%outcome
    end.

(** [fill_const_field<T>(name, value, cloud)]; [field_it + n] takes an
    [int]. *)
Definition fill_const_field (T : Datatype) (n : string) (value : list byte)
    (cloud : PointCloud2) : Outcome PointCloud2 :=
  (let* field_it := PointCloud2Iterator cloud n in
   let end_ := it_add cloud field_it (to_int (fill_count cloud)) in
   let* bytes := fill_const_loop T cloud value (S (length (data cloud))) field_it end_
                   (data cloud) in
   Ret (with_data cloud bytes))%outcome.

(** The bytes of field [f] in the record of point [i]. *)
Definition field_at (cloud : PointCloud2) (pos : Z) (size : Z) (i : Z) : list byte :=
  take (Z.to_nat size) (drop (Z.to_nat (it_add cloud pos i)) (data cloud)).

(* ================================================================== *)
(** * The summaries *)
(* ================================================================== *)

(** What goes into a [std::stringstream]: numbers and separators. *)
Inductive Token : Type :=
| Num (v : Value)
| Space
| Endl.

(** A record of the logger whose argument is the text of a stream. *)
Record TextRecord : Type := mkTextRecord {
  text_severity : Severity;
  text_format : string;
  text : list Token
}.

(** The line feed. *)
Definition newline : string :=
  String (Ascii.Ascii false true false true false false false false) EmptyString.

(** The loops of the summaries need not end. A loop either is not over
    after [fuel] iterations ([None]) or has an outcome. *)
Definition Run (A : Type) : Type := option (Outcome A).

Definition run_bind {A B : Type} (c : Run A) (k : A -> Run B) : Run B :=
  match c with
  | None => None
  | Some (Ret a) => k a
  | Some (Throw e) => Some (Throw e)
  | Some AssertionFailed => Some AssertionFailed
  | Some OutOfBounds => Some OutOfBounds
  end.

(** [for (Index c = 0; c < width; c += width / 8)] of both summaries, from
    column [c] on: [sample c] is the azimuth and the elevation the body
    computes for the column; [c] is compared and advanced as [unsigned]. *)
Fixpoint summary_row `{Extern} (sample : Index -> Outcome (Value * Value)) (w : Z)
    (fuel : nat) (c : Index) (az_ss el_ss : list Token)
    : Run (list Token * list Token) :=
  match fuel with
  | O => None
  | S fuel' =>
      if wrap32 c <? w then
        run_bind (Some (sample c)) (fun '(az, el) =>
          let sep := if 0 <? c then [Space] else [] in
          summary_row sample w fuel' (to_int (wrap32 c + w / 8))
            (az_ss ++ sep ++ [Num (degrees_float az)])
            (el_ss ++ sep ++ [Num (degrees_float el)]))
      else Some (Ret (az_ss, el_ss))
  end.

(** [for (Index r = 0; r < height; r += height / 8)] of both summaries,
    from row [r] on. *)
Fixpoint summary_rows `{Extern} (sample : Index -> Index -> Outcome (Value * Value))
    (h w : Z) (fuel : nat) (r : Index) (az_ss el_ss : list Token)
    : Run (list Token * list Token) :=
  match fuel with
  | O => None
  | S fuel' =>
      if wrap32 r <? h then
        let sep := if 0 <? r then [Endl] else [] in
        run_bind (summary_row (sample r) w fuel' 0 (az_ss ++ sep) (el_ss ++ sep))
          (fun '(az_ss', el_ss') =>
             summary_rows sample h w fuel' (to_int (wrap32 r + h / 8)) az_ss' el_ss')
      else Some (Ret (az_ss, el_ss))
  end.

(** The body of the loops of [print_cloud_summary]: the point at
    [x_begin + r * cloud.width + c], where the product is [unsigned] and
    the iterator takes an [int]. *)
Definition cloud_sample `{Extern} (cloud : PointCloud2) (x_begin : Z) (r c : Index)
    : Outcome (Value * Value) :=
  let it := it_add cloud (it_add cloud x_begin (to_int (wrap32 (r * width cloud)))) c in
  (let* (x, y, z) := xyz_at cloud it in
   let '(az, el, radius) := cartesian_to_spherical x y z in
   Ret (az, el))%outcome.

(** [print_cloud_summary(cloud)]: the records it logs. *)
Definition print_cloud_summary `{Extern} (fuel : nat) (cloud : PointCloud2)
    : Run (list TextRecord) :=
  run_bind (Some (PointCloud2ConstIterator cloud "x")) (fun x_begin =>
  run_bind (summary_rows (cloud_sample cloud x_begin) (height cloud) (width cloud)
              fuel 0 [] [])
    (fun '(az_ss, el_ss) =>
       Some (Ret [ {| text_severity := INFO;
                      text_format := "Azimuth sample:" +:+ newline +:+ "%s";
                      text := az_ss |};
                   {| text_severity := INFO;
                      text_format := "Elevation sample:" +:+ newline +:+ "%s";
                      text := el_ss |} ]))).

(** The body of the loops of [print_model_summary]: the direction of the
    model at row [r] and column [c], back in spherical coordinates. *)
Definition model_sample `{Extern} (self : SphericalProjection) (r c : Index)
    : Outcome (Value * Value) :=
  let '(x, y, z) := unproject self (F32.of_int r) (F32.of_int c) in
  let '(az, el, radius) := cartesian_to_spherical x y z in
  Ret (az, el).

(** [print_model_summary()]: the records it logs; the object is not
    changed. *)
Definition print_model_summary `{Extern} (fuel : nat) (self : SphericalProjection)
    : Run (list TextRecord) :=
  run_bind (summary_rows (model_sample self) (height_ self) (width_ self) fuel 0 [] [])
    (fun '(az_ss, el_ss) =>
       Some (Ret [ {| text_severity := INFO;
                      text_format := "Azimuth model sample:" +:+ newline +:+ "%s";
                      text := az_ss |};
                   {| text_severity := INFO;
                      text_format := "Elevation model sample:" +:+ newline +:+ "%s";
                      text := el_ss |} ])).

(** The number of samples the loops take of [n] rows or columns, the
    indices they take them at, and the text they make of a grid of
    values. *)
Definition samples (n : Z) : Z := (n + n / 8 - 1) / (n / 8).

Definition ticks (n : Z) : list Z := (fun k => k * (n / 8)) <$> seqZ 0 (samples n).

Definition cell_text (sep : Token) (k : Z) (body : list Token) : list Token :=
  (if 0 <? k then [sep] else []) ++ body.

Definition row_text (f : Z -> Value) (w : Z) : list Token :=
  c ← ticks w; cell_text Space c [Num (f c)].

Definition grid_text (f : Z -> Z -> Value) (h w : Z) : list Token :=
  r ← ticks h; cell_text Endl r (row_text (f r) w).

(** The spherical coordinates of point [i], and of the direction of the
    model at row [r] and column [c]. *)
Definition spherical_of `{Extern} (cloud : PointCloud2) (x_begin : Z) (i : Z)
    : Value * Value * Value :=
  cartesian_to_spherical (float_at (data cloud) (it_add cloud x_begin i))
                         (float_at (data cloud) (it_add cloud x_begin i + 4))
                         (float_at (data cloud) (it_add cloud x_begin i + 8)).

Definition model_direction `{Extern} (self : SphericalProjection) (r c : Z)
    : Value * Value * Value :=
  let '(x, y, z) := unproject self (F32.of_int r) (F32.of_int c) in
  cartesian_to_spherical x y z.

(** The buffer with another endianness flag. *)
Definition with_bigendian (cloud : PointCloud2) (b : bool) : PointCloud2 :=
  {| header := header cloud; height := height cloud; width := width cloud;
     fields := fields cloud; is_bigendian := b;
     point_step := point_step cloud; row_step := row_step cloud;
     data := data cloud; is_dense := is_dense cloud |}.

(* ================================================================== *)
(** * Concrete buffers and models *)
(* ================================================================== *)

Module Fixtures.

(** binary32 constants by their bit patterns. *)
Definition f_zero : Value := F32.of_bits 0x00000000.
Definition f_half_pi : Value := F32.of_bits 0x3FC90FDB.
Definition f_pi : Value := F32.of_bits 0x40490FDB.

Definition with_sign (s : bool) (x : Value) : Value :=
  if s then SFopp x else x.

(** [atan2(y, x)] where it is known without computing: on the axes. Other
    arguments are outside the table. *)
Definition axis_atan2 (y x : Value) : Value :=
  match y, x with
  | S754_zero s, (S754_zero false | S754_finite false _ _) => S754_zero s
  | S754_zero s, (S754_zero true | S754_finite true _ _) => with_sign s f_pi
  | S754_finite s _ _, S754_zero _ => with_sign s f_half_pi
  | _, _ => S754_nan
  end.

(** [hypot(x, y)] on the axes. *)
Definition axis_hypot (x y : Value) : Value :=
  match x, y with
  | S754_zero _, _ => SFabs y
  | _, S754_zero _ => SFabs x
  | _, _ => S754_nan
  end.

(** An instance of what the sources take from outside that is exact for
    points on the coordinate axes: azimuth is [atan2(y, x)], elevation is
    [atan2(z, hypot(x, y))]. Its [std::sort] keeps the order of candidates
    of equal step. A debug build ([assert] active) on a little-endian
    host. *)
#[local] Instance axis_extern : Extern := {|
  azimuth x y := axis_atan2 y x;
  elevation x y z := axis_atan2 z (axis_hypot x y);
  cartesian_to_spherical x y z :=
    (axis_atan2 y x, axis_atan2 z (axis_hypot x y),
     F32.sqrt (Vec3_squaredNorm (x, y, z)));
  spherical_to_cartesian az el radius := (S754_nan, S754_nan, S754_nan);
  degrees x := S754_nan;
  degrees_float x := S754_nan;
  std_round x := S754_nan;
  std_acos x := S754_nan;
  sort_result := insertion_sort comp;
  NDEBUG := false;
  host_bigendian := false
|}.

Definition byte_of_Z (z : Z) : byte :=
  match Byte.of_N (Z.to_N (z mod 256)) with
  | Some b => b
  | None => x00
  end.

(** The four bytes of a 32-bit pattern, least significant first. *)
Definition bytes_of_bits (bits : Z) : list byte :=
  map byte_of_Z [bits; bits / 2 ^ 8; bits / 2 ^ 16; bits / 2 ^ 24].

(** The record of a point with the given bit patterns of x, y and z. *)
Definition xyz (x y z : Z) : list byte :=
  bytes_of_bits x ++ bytes_of_bits y ++ bytes_of_bits z.

Definition one : Z := 0x3F800000.
Definition minus_one : Z := 0xBF800000.
Definition zero : Z := 0.
Definition nan : Z := 0x7FC00000.

Definition blank : PointCloud2 :=
  {| header := {| stamp := 0; frame_id := "lidar" |};
     height := 0; width := 0; fields := []; is_bigendian := false;
     point_step := 0; row_step := 0; data := []; is_dense := false |}.

(** A buffer with the fields x, y, z ([float]) of [h] rows and [w] columns
    holding [bytes]. *)
Definition xyz_cloud (h w : Z) (bytes : list byte) : PointCloud2 :=
  let c := resize_cloud (append_position_fields FLOAT32 (reset_fields blank)) h w in
  {| header := header c; height := height c; width := width c;
     fields := fields c; is_bigendian := is_bigendian c;
     point_step := point_step c; row_step := row_step c;
     data := bytes; is_dense := is_dense c |}.

(** Two rows, two columns, the points on the axes:
    row 0: (1, 0, 0), (0, 1, 0); row 1: (0, 0, 1), (-1, 0, 0). *)
Definition axes_cloud : PointCloud2 :=
  xyz_cloud 2 2 (xyz one zero zero ++ xyz zero one zero
                 ++ xyz zero zero one ++ xyz minus_one zero zero).

(** Two rows, two columns, no valid point. *)
Definition nan_cloud : PointCloud2 :=
  xyz_cloud 2 2 (xyz nan nan nan ++ xyz nan nan nan
                 ++ xyz nan nan nan ++ xyz nan nan nan).

(** Two rows, two columns, the valid points in column 0 only. *)
Definition column_cloud : PointCloud2 :=
  xyz_cloud 2 2 (xyz one zero zero ++ xyz nan nan nan
                 ++ xyz zero zero one ++ xyz nan nan nan).


(** A model that was never fit. *)
Definition model0 : SphericalProjection :=
  {| azimuth_start_ := f_zero; azimuth_step_ := f_zero;
     elevation_start_ := f_zero; elevation_step_ := f_zero;
     height_ := 0; width_ := 0 |}.

(** Two runs of the generator: it gives 0 at every step, or 1 at step 3
    and 0 at the others. *)
Definition draws_a (i : nat) : nat := 0%nat.
Definition draws_b (i : nat) : nat := if (i =? 3)%nat then 1%nat else 0%nat.

(** One row, two columns, with the fields x, intensity, y and z ([float])
    in this order: the points (1, 0, NaN) and (0, 1, NaN), of intensity
    0. *)
Definition spread_cloud : PointCloud2 :=
  let c := append_field FLOAT32 "x" 1 (reset_fields blank) in
  let c := append_field FLOAT32 "intensity" 1 c in
  let c := append_field FLOAT32 "y" 1 c in
  let c := append_field FLOAT32 "z" 1 c in
  let c := resize_cloud c 1 2 in
  {| header := header c; height := height c; width := width c;
     fields := fields c; is_bigendian := is_bigendian c;
     point_step := point_step c; row_step := row_step c;
     data := bytes_of_bits one ++ bytes_of_bits zero
             ++ bytes_of_bits zero ++ bytes_of_bits nan
             ++ bytes_of_bits zero ++ bytes_of_bits zero
             ++ bytes_of_bits one ++ bytes_of_bits nan;
     is_dense := is_dense c |}.







(** [axis_extern] with a [std::sort] that reverses the order of candidates
    of equal step. *)
Definition flip_extern : Extern := {|
  azimuth := @azimuth axis_extern;
  elevation := @elevation axis_extern;
  cartesian_to_spherical := @cartesian_to_spherical axis_extern;
  spherical_to_cartesian := @spherical_to_cartesian axis_extern;
  degrees := @degrees axis_extern;
  degrees_float := @degrees_float axis_extern;
  std_round := @std_round axis_extern;
  std_acos := @std_acos axis_extern;
  sort_result l := insertion_sort comp (rev l);
  NDEBUG := @NDEBUG axis_extern;
  host_bigendian := @host_bigendian axis_extern
|}.

End Fixtures.

(* ================================================================== *)
(** * Properties *)
(* ================================================================== *)
(* ================================================================== *)
(** * Machine integers: facts *)
(* ================================================================== *)

Lemma wrap32_range (z : Z) : 0 <= wrap32 z < 2 ^ 32.
Proof. unfold wrap32. apply Z.mod_pos_bound. lia. Qed.

Lemma wrap32_small (z : Z) : 0 <= z < 2 ^ 32 -> wrap32 z = z.
Proof. intros Hz. unfold wrap32. apply Z.mod_small. exact Hz. Qed.

Lemma wrap64_small (z : Z) : 0 <= z < 2 ^ 64 -> wrap64 z = z.
Proof. intros Hz. unfold wrap64. apply Z.mod_small. exact Hz. Qed.

Lemma wrap32_add_l (a b : Z) : wrap32 (wrap32 a + b) = wrap32 (a + b).
Proof. unfold wrap32. apply Zplus_mod_idemp_l. Qed.

Lemma to_int_small (z : Z) : - 2 ^ 31 <= z < 2 ^ 31 -> to_int z = z.
Proof. intros Hz. unfold to_int. rewrite Z.mod_small; lia. Qed.

Lemma udiv_small (a b : Z) :
  0 <= a <= INT_MAX -> 1 <= b -> udiv a b = a / b /\ to_int (a / b) = a / b.
Proof.
  unfold INT_MAX, udiv. intros Ha Hb.
  rewrite wrap32_small by lia. split; [reflexivity|].
  apply to_int_small.
  assert (0 <= a / b) by (apply Z.div_pos; lia).
  assert (a / b <= a) by (apply Z.div_le_upper_bound; nia).
  lia.
Qed.

Lemma umod_small (a b : Z) :
  0 <= a <= INT_MAX -> 1 <= b -> umod a b = a mod b /\ to_int (a mod b) = a mod b.
Proof.
  unfold INT_MAX, umod. intros Ha Hb.
  rewrite wrap32_small by lia. split; [reflexivity|].
  apply to_int_small.
  assert (0 <= a mod b < b) by (apply Z.mod_pos_bound; lia).
  assert (a mod b <= a) by (apply Z.mod_le; lia).
  lia.
Qed.

(* ================================================================== *)
(** * Schema packing *)
(* ================================================================== *)

Lemma append_fields_snoc (decls : list FieldDecl) (d : FieldDecl) (cloud : PointCloud2) :
  append_fields (decls ++ [d]) cloud =
  (let '(T, n, cnt) := d in append_field T n cnt (append_fields decls cloud)).
Proof. unfold append_fields. rewrite fold_left_app. reflexivity. Qed.

Lemma total_size_snoc (decls : list FieldDecl) (d : FieldDecl) :
  total_size (decls ++ [d]) = total_size decls + decl_size d.
Proof.
  induction decls as [|d' decls IH]; simpl.
  - lia.
  - rewrite IH. lia.
Qed.

Lemma total_size_nonneg (decls : list FieldDecl) :
  Forall (fun d => 0 <= decl_size d) decls -> 0 <= total_size decls.
Proof.
  induction 1 as [|d decls Hd _ IH]; simpl; lia.
Qed.

Lemma total_size_take_le (decls : list FieldDecl) (k : nat) :
  Forall (fun d => 0 <= decl_size d) decls ->
  0 <= total_size (take k decls) <= total_size decls.
Proof.
  intros Hpos. revert k.
  induction Hpos as [|d decls Hd Hpos IH]; intros k.
  - rewrite take_nil. simpl. lia.
  - destruct k as [|k]; simpl.
    + pose proof (total_size_nonneg decls Hpos). lia.
    + specialize (IH k). lia.
Qed.

(** The stride after the calls is the sum of the sizes modulo 2^32. *)
Lemma append_fields_point_step (decls : list FieldDecl) (cloud : PointCloud2) :
  point_step (append_fields decls (reset_fields cloud)) = wrap32 (total_size decls).
Proof.
  induction decls as [|d decls IH] using rev_ind.
  - reflexivity.
  - rewrite append_fields_snoc, total_size_snoc.
    destruct d as [[T n] cnt]. simpl.
    rewrite IH. apply wrap32_add_l.
Qed.

(** The field list after the calls: one descriptor per call, each with the
    stride before its call as offset. *)
Lemma append_fields_fields (decls : list FieldDecl) (cloud : PointCloud2) :
  fields (append_fields decls (reset_fields cloud)) =
  imap (fun k d => let '(T, n, cnt) := d in
                   {| name := n;
                      offset := point_step (append_fields (take k decls) (reset_fields cloud));
                      datatype := T; count := cnt |}) decls.
Proof.
  induction decls as [|d decls IH] using rev_ind.
  - reflexivity.
  - rewrite append_fields_snoc, imap_app.
    destruct d as [[T n] cnt]. simpl. rewrite IH.
    f_equal.
    + apply imap_ext. intros k [[T' n'] cnt'] Hk. simpl.
      rewrite take_app_le; [reflexivity|].
      apply lookup_lt_Some in Hk. exact (Nat.lt_le_incl _ _ Hk).
    + rewrite Nat.add_0_r, take_app_length. reflexivity.
Qed.

(** C3 (as amended). After [reset_fields], every [append_field] call gives
    its field the stride at the moment of the call as offset; that offset
    is the sum of [count * element_size] over the fields declared before,
    and the final stride is the sum over all declared fields, both modulo
    2^32, the range of the [uint32_t] members; when no count is negative
    and the total is below 2^32, offsets and stride are these sums
    themselves. *)
Theorem append_field_packing (decls : list FieldDecl) (cloud : PointCloud2) :
  let schema := append_fields decls (reset_fields cloud) in
  length (fields schema) = length decls
  /\ (forall k T n cnt, decls !! k = Some (T, n, cnt) ->
        exists f, fields schema !! k = Some f
          /\ name f = n /\ datatype f = T /\ count f = cnt
          /\ offset f = point_step (append_fields (take k decls) (reset_fields cloud))
          /\ offset f = wrap32 (total_size (take k decls)))
  /\ point_step schema = wrap32 (total_size decls)
  /\ (Forall (fun d => 0 <= decl_size d) decls -> total_size decls < 2 ^ 32 ->
        point_step schema = total_size decls
        /\ forall k f, fields schema !! k = Some f ->
             offset f = total_size (take k decls)).
Proof.
  intros schema. subst schema.
  rewrite append_fields_fields, append_fields_point_step.
  split; [apply length_imap|].
  split.
  { intros k T n cnt Hk.
    eexists. rewrite list_lookup_imap, Hk. simpl.
    split; [reflexivity|].
    repeat split. apply append_fields_point_step. }
  split; [reflexivity|].
  intros Hpos Hlt. split.
  - apply wrap32_small. pose proof (total_size_nonneg decls Hpos). lia.
  - intros k f Hf. rewrite list_lookup_imap in Hf.
    destruct (decls !! k) as [[[T n] cnt]|] eqn:Hk; simpl in Hf; [|discriminate].
    injection Hf as <-. simpl.
    rewrite append_fields_point_step. apply wrap32_small.
    pose proof (total_size_take_le decls k Hpos). lia.
Qed.

(** C3, as stated, fails: a field of 2^29 doubles makes the stride wrap to
    0, so the next field gets offset 0 and the final stride is 4, while the
    sums are 2^32 and 2^32 + 4. *)
Lemma append_field_sum_wraps :
  let decls := [(FLOAT64, "samples", 536870912); (FLOAT32, "intensity", 1)] in
  let schema := append_fields decls (reset_fields Fixtures.blank) in
  total_size (take 1 decls) = 4294967296
  /\ total_size decls = 4294967300
  /\ offset <$> fields schema !! 1%nat = Some 0
  /\ point_step schema = 4
  /\ point_step schema <> total_size decls.
Proof. vm_compute. repeat split; congruence. Qed.

(** The amended statement at a schema that fits: x, y, z as [float] and
    two counters. *)
Lemma append_field_packing_witness :
  let decls := [(FLOAT32, "x", 1); (FLOAT32, "y", 1); (FLOAT32, "z", 1);
                (UINT8, "seen_thru", 1); (UINT8, "hit", 1)] in
  let schema := append_fields decls (reset_fields Fixtures.blank) in
  point_step schema = 14
  /\ offset <$> fields schema !! 3%nat = Some 12.
Proof.
  intros decls schema.
  destruct (append_field_packing decls Fixtures.blank) as (_ & _ & _ & Hexact).
  destruct Hexact as [Hstep Hoff].
  - repeat constructor; vm_compute; congruence.
  - reflexivity.
  - split.
    + exact Hstep.
    + destruct (fields schema !! 3%nat) as [f|] eqn:Hf; [|vm_compute in Hf; discriminate].
      simpl. f_equal. apply (Hoff 3%nat f Hf).
Defined.

(* ================================================================== *)
(** * copy_points *)
(* ================================================================== *)

Lemma lookup_take_drop {A : Type} (l : list A) (a n m : nat) :
  (m < n)%nat -> take n (drop a l) !! m = l !! (a + m)%nat.
Proof. intros Hm. rewrite lookup_take_lt by exact Hm. apply lookup_drop. Qed.




(** The loop never throws and never fails an assertion. *)
Lemma copy_loop_no_error (input : PointCloud2) (ps : Z) (its : list Z) :
  forall (i : Z) (out : list byte),
  (exists out', copy_loop input ps its i out = Ret out')
  \/ copy_loop input ps its i out = OutOfBounds.
Proof.
  induction its as [|it its IH]; intros i out; simpl.
  - left. eexists. reflexivity.
  - unfold std_copy.
    destruct (_ && _); simpl; [apply IH | right; reflexivity].
Qed.

(** An index whose record ends after the source bytes makes the loop run
    out of bounds. *)
Lemma copy_loop_out_of_bounds (input : PointCloud2) (ps : Z) (its : list Z) (bad : Z) :
  bad ∈ its ->
  Z.of_nat (length (data input)) < wrap32 ((bad + 1) * point_step input) ->
  forall (i : Z) (out : list byte), copy_loop input ps its i out = OutOfBounds.
Proof.
  intros Hin Hbad.
  induction its as [|it its IH]; intros i out.
  - apply elem_of_nil in Hin. contradiction.
  - simpl.
    destruct (decide (it = bad)) as [->|Hne].
    + unfold std_copy.
      replace (wrap32 ((bad + 1) * point_step input) <=? Z.of_nat (length (data input)))
        with false by (symmetry; apply Z.leb_gt; lia).
      rewrite !andb_false_r. reflexivity.
    + apply elem_of_cons in Hin as [Heq|Hin]; [congruence|].
      unfold std_copy.
      destruct (_ && _); simpl; [apply IH, Hin | reflexivity].
Qed.

(** Below [max_size()] the vector is resized. *)
Lemma vector_resize_ok (n : Z) (bytes : list byte) :
  n < 2 ^ 63 -> vector_resize n bytes = Ret (resize (Z.to_nat n) x00 bytes).
Proof.
  intros Hn. unfold vector_resize.
  replace (n <? 2 ^ 63) with true by (symmetry; apply Z.ltb_lt; exact Hn).
  reflexivity.
Qed.

(** The resize of [copy_points] when the bytes of the copies fit 32 bits. *)
Lemma copy_points_resize (n step : Z) (bytes : list byte) :
  0 <= n -> 0 <= step -> n * step < 2 ^ 32 ->
  vector_resize (wrap64 (n * step)) bytes
  = Ret (resize (Z.to_nat (n * step)) x00 bytes).
Proof.
  intros Hn Hstep Hfit.
  rewrite wrap64_small by nia. apply vector_resize_ok. lia.
Qed.




(** ** Offsets that do not fit 32 bits *)

Section Blob.
Variable step : Z.
Hypothesis Hstep : step = 2 ^ 31.






End Blob.





(* ================================================================== *)
(** * Floating point: facts *)
(* ================================================================== *)

(** Arithmetic is computed on closed values only. *)
Arguments F32.add : simpl never.
Arguments F32.sub : simpl never.
Arguments F32.mul : simpl never.
Arguments F32.div : simpl never.
Arguments F32.sqrt : simpl never.
Arguments F32.of_int : simpl never.
Arguments F32.of_bits : simpl never.
Arguments F64.add : simpl never.
Arguments F64.div : simpl never.
Arguments F64.of_int : simpl never.
Arguments F64.of_float : simpl never.
Arguments float_at : simpl never.
Arguments wrap32 : simpl never.
Arguments to_int : simpl never.
Arguments udiv : simpl never.
Arguments umod : simpl never.

Lemma F32_sub_self (x : Value) :
  F32.sub x x = S754_zero false \/ F32.sub x x = S754_nan.
Proof.
  destruct x as [s|s| |s m e].
  - left. destruct s; reflexivity.
  - right. destruct s; reflexivity.
  - right. reflexivity.
  - left. unfold F32.sub, SFsub. rewrite Z.sub_diag. reflexivity.
Qed.

Lemma F32_div_by_zero (x : Value) :
  x = S754_zero false \/ x = S754_nan ->
  F32.div x (F32.of_int 0) = S754_nan.
Proof. intros [->| ->]; reflexivity. Qed.

(** The step computed from one and the same sample is not a number. *)
Lemma F32_self_step (x : Value) (c : Z) :
  F32.div (F32.sub x x) (F32.of_int (to_int (c - c))) = S754_nan.
Proof.
  rewrite Z.sub_diag. change (to_int 0) with 0.
  apply F32_div_by_zero, F32_sub_self.
Qed.

(* ================================================================== *)
(** * Reading the points of a buffer *)
(* ================================================================== *)

Section Reads.
Context {ext : Extern}.

Lemma load_float_ok (bytes : list byte) (pos : Z) :
  0 <= pos -> pos + 4 <= Z.of_nat (length bytes) ->
  load_float bytes pos = Ret (float_at bytes pos).
Proof.
  intros H0 H1. unfold load_float.
  replace (0 <=? pos) with true by (symmetry; apply Z.leb_le; lia).
  replace (pos + 4 <=? Z.of_nat (length bytes)) with true
    by (symmetry; apply Z.leb_le; lia).
  reflexivity.
Qed.

Lemma n_points_of_ok (cloud : PointCloud2) (x_begin : Z) :
  cloud_ok cloud x_begin -> n_points_of cloud = num_points cloud.
Proof.
  intros [Hh Hw _ _ _ Hn]. unfold n_points_of, num_points, INT_MAX in *.
  assert (0 <= height cloud * width cloud) by nia.
  rewrite wrap32_small by lia. apply to_int_small. lia.
Qed.

(** The three floats of point [i] are bytes of the buffer. *)
Lemma point_in_data (cloud : PointCloud2) (x_begin : Z) (i : Z) :
  cloud_ok cloud x_begin -> 0 <= i < num_points cloud ->
  0 <= it_add cloud x_begin i
  /\ it_add cloud x_begin i + 12 <= Z.of_nat (length (data cloud)).
Proof.
  intros [_ _ _ [Hx0 Hx1] Hd _] Hi. unfold it_add.
  assert (0 <= point_step cloud) by lia.
  assert (0 <= i * point_step cloud) by nia.
  assert ((i + 1) * point_step cloud <= num_points cloud * point_step cloud) by nia.
  lia.
Qed.

Lemma it_get_ok (cloud : PointCloud2) (x_begin : Z) (i k : Z) :
  cloud_ok cloud x_begin -> 0 <= i < num_points cloud -> 0 <= k <= 2 ->
  it_get cloud (it_add cloud x_begin i) k
  = Ret (float_at (data cloud) (it_add cloud x_begin i + 4 * k)).
Proof.
  intros Hok Hi Hk. destruct (point_in_data cloud x_begin i Hok Hi) as [H0 H1].
  unfold it_get. apply load_float_ok; lia.
Qed.

Lemma finite_at_ok (cloud : PointCloud2) (x_begin : Z) (i : Z) :
  cloud_ok cloud x_begin -> 0 <= i < num_points cloud ->
  finite_at cloud (it_add cloud x_begin i) = Ret (point_valid cloud x_begin i).
Proof.
  intros Hok Hi. unfold finite_at, point_valid.
  rewrite (it_get_ok cloud x_begin i 0), (it_get_ok cloud x_begin i 1),
    (it_get_ok cloud x_begin i 2) by (assumption || lia).
  cbn [obind].
  change (4 * 0) with 0. change (4 * 1) with 4. change (4 * 2) with 8.
  rewrite Z.add_0_r.
  destruct (isfinite (float_at (data cloud) (it_add cloud x_begin i)));
    cbn [negb andb]; [|reflexivity].
  destruct (isfinite (float_at (data cloud) (it_add cloud x_begin i + 4)));
    cbn [negb andb]; reflexivity.
Qed.

Lemma xyz_at_ok (cloud : PointCloud2) (x_begin : Z) (i : Z) :
  cloud_ok cloud x_begin -> 0 <= i < num_points cloud ->
  xyz_at cloud (it_add cloud x_begin i)
  = Ret (float_at (data cloud) (it_add cloud x_begin i),
         float_at (data cloud) (it_add cloud x_begin i + 4),
         float_at (data cloud) (it_add cloud x_begin i + 8)).
Proof.
  intros Hok Hi. unfold xyz_at.
  rewrite (it_get_ok cloud x_begin i 0), (it_get_ok cloud x_begin i 1),
    (it_get_ok cloud x_begin i 2) by (assumption || lia).
  cbn [obind].
  change (4 * 0) with 0. change (4 * 1) with 4. change (4 * 2) with 8.
  rewrite Z.add_0_r. reflexivity.
Qed.

Lemma xy_at_ok (cloud : PointCloud2) (x_begin : Z) (i : Z) :
  cloud_ok cloud x_begin -> 0 <= i < num_points cloud ->
  xy_at cloud (it_add cloud x_begin i)
  = Ret (float_at (data cloud) (it_add cloud x_begin i),
         float_at (data cloud) (it_add cloud x_begin i + 4)).
Proof.
  intros Hok Hi. unfold xy_at.
  rewrite (it_get_ok cloud x_begin i 0), (it_get_ok cloud x_begin i 1)
    by (assumption || lia).
  cbn [obind].
  change (4 * 0) with 0. change (4 * 1) with 4.
  rewrite Z.add_0_r. reflexivity.
Qed.

Lemma iterator_ok (cloud : PointCloud2) (x_begin : Z) :
  cloud_ok cloud x_begin -> PointCloud2ConstIterator cloud "x" = Ret x_begin.
Proof.
  intros [_ _ (f & Hf & Hoff) _ _ _]. unfold PointCloud2ConstIterator.
  rewrite Hf, Hoff. reflexivity.
Qed.

Lemma asserts_ok (cloud : PointCloud2) (x_begin : Z) :
  cloud_ok cloud x_begin ->
  NDEBUG || (1 <=? height cloud) = true /\ NDEBUG || (1 <=? width cloud) = true.
Proof.
  intros [Hh Hw _ _ _ _].
  split; apply orb_true_iff; right; apply Z.leb_le; lia.
Qed.

(** An index of the scan is below [INVALID_INDEX]. *)
Lemma index_not_invalid (cloud : PointCloud2) (x_begin : Z) (i : Z) :
  cloud_ok cloud x_begin -> 0 <= i < num_points cloud ->
  0 <= i < INVALID_INDEX.
Proof. intros [_ _ _ _ _ Hn] Hi. unfold INVALID_INDEX. lia. Qed.

Lemma udiv_row (cloud : PointCloud2) (x_begin : Z) (i : Z) :
  cloud_ok cloud x_begin -> 0 <= i < num_points cloud ->
  udiv i (width cloud) = row_of cloud i /\ to_int (row_of cloud i) = row_of cloud i.
Proof.
  intros Hok Hi. pose proof (index_not_invalid _ _ _ Hok Hi).
  destruct Hok as [_ Hw _ _ _ _].
  apply udiv_small; unfold INVALID_INDEX in *; lia.
Qed.

Lemma umod_col (cloud : PointCloud2) (x_begin : Z) (i : Z) :
  cloud_ok cloud x_begin -> 0 <= i < num_points cloud ->
  umod i (width cloud) = col_of cloud i /\ to_int (col_of cloud i) = col_of cloud i.
Proof.
  intros Hok Hi. pose proof (index_not_invalid _ _ _ Hok Hi).
  destruct Hok as [_ Hw _ _ _ _].
  apply umod_small; unfold INVALID_INDEX in *; lia.
Qed.

End Reads.

(* ================================================================== *)
(** * fit_fast *)
(* ================================================================== *)

Section FitFast.
Context {ext : Extern}.

Lemma seen_point_mono (cloud : PointCloud2) (x_begin : Z) (k k' idx : Z) :
  k <= k' -> seen_point cloud x_begin k idx -> seen_point cloud x_begin k' idx.
Proof. unfold seen_point. intros Hk [Hi Hv]. split; [lia | exact Hv]. Qed.

Lemma seen_mono (cloud : PointCloud2) (x_begin : Z) (k k' : Z) (e : Extrema) :
  k <= k' -> seen cloud x_begin k e -> seen cloud x_begin k' e.
Proof.
  unfold seen. intros Hk (H0 & H1 & H2 & H3).
  repeat split; eapply seen_point_mono; eauto.
Qed.

Lemma scan_inv_init (cloud : PointCloud2) (x_begin : Z) :
  scan_inv cloud x_begin 0 no_extrema.
Proof.
  split; [|split; reflexivity].
  left. split; [reflexivity|]. intros j Hj. lia.
Qed.

Lemma scan_inv_skip (cloud : PointCloud2) (x_begin : Z) (k : Z) (e : Extrema) :
  scan_inv cloud x_begin k e -> point_valid cloud x_begin k = false ->
  scan_inv cloud x_begin (k + 1) e.
Proof.
  intros ([[-> Hnone]|Hseen] & Hcol & Hrow) Hk; (split; [|split; assumption]).
  - left. split; [reflexivity|]. intros j Hj.
    destruct (decide (j = k)) as [->|Hne]; [exact Hk|]. apply Hnone. lia.
  - right. eapply seen_mono; [|exact Hseen]. lia.
Qed.

Lemma update_no_extrema (w i : Z) :
  update_extrema w i no_extrema = {| i_r0 := i; i_r1 := i; i_c0 := i; i_c1 := i |}.
Proof. reflexivity. Qed.

(** Each index after the update is the new point or the index before. *)
Lemma update_extrema_cases (w i : Z) (e : Extrema) :
  let e' := update_extrema w i e in
  (i_r0 e' = i \/ i_r0 e' = i_r0 e) /\ (i_r1 e' = i \/ i_r1 e' = i_r1 e)
  /\ (i_c0 e' = i \/ i_c0 e' = i_c0 e) /\ (i_c1 e' = i \/ i_c1 e' = i_c1 e).
Proof.
  unfold update_extrema. cbn [i_r0 i_r1 i_c0 i_c1].
  repeat split; destruct (_ || _); auto.
Qed.

Lemma scan_inv_update (cloud : PointCloud2) (x_begin : Z) (k : Z) (e : Extrema) :
  cloud_ok cloud x_begin -> 0 <= k < num_points cloud ->
  scan_inv cloud x_begin k e -> point_valid cloud x_begin k = true ->
  scan_inv cloud x_begin (k + 1) (update_extrema (width cloud) k e).
Proof.
  intros Hok Hk ([[-> Hnone]|Hseen] & Hcol & Hrow) Hv.
  - rewrite update_no_extrema. split; [|split; reflexivity].
    right. repeat split; cbn [i_r0 i_r1 i_c0 i_c1]; (lia || exact Hv).
  - assert (Hnew : seen_point cloud x_begin (k + 1) k) by (split; [lia | exact Hv]).
    destruct Hseen as (S0 & S1 & S2 & S3).
    split; [|split].
    + right.
      destruct (update_extrema_cases (width cloud) k e) as (C0 & C1 & C2 & C3).
      assert (Hpick : forall idx old, idx = k \/ idx = old ->
                seen_point cloud x_begin k old -> seen_point cloud x_begin (k + 1) idx).
      { intros idx old [-> | ->] Hold; [exact Hnew|].
        eapply seen_point_mono; [|exact Hold]. lia. }
      unfold seen. eauto 10.
    + intros Hone. specialize (Hcol Hone).
      unfold update_extrema. cbn [i_c0 i_c1]. rewrite <- Hcol.
      destruct S2 as [Hi2 Hv2].
      assert (Hni : (i_c0 e =? INVALID_INDEX) = false).
      { apply Z.eqb_neq. pose proof (index_not_invalid cloud x_begin (i_c0 e) Hok). lia. }
      rewrite Hni. cbn [orb].
      rewrite (proj1 (umod_col cloud x_begin k Hok Hk)),
        (proj1 (umod_col cloud x_begin (i_c0 e) Hok ltac:(lia))).
      rewrite (Hone k (i_c0 e)) by (assumption || lia).
      rewrite Z.ltb_irrefl. reflexivity.
    + intros Hone. specialize (Hrow Hone).
      unfold update_extrema. cbn [i_r0 i_r1]. rewrite <- Hrow.
      destruct S0 as [Hi0 Hv0].
      assert (Hni : (i_r0 e =? INVALID_INDEX) = false).
      { apply Z.eqb_neq. pose proof (index_not_invalid cloud x_begin (i_r0 e) Hok). lia. }
      rewrite Hni. cbn [orb].
      rewrite (proj1 (udiv_row cloud x_begin k Hok Hk)),
        (proj1 (udiv_row cloud x_begin (i_r0 e) Hok ltac:(lia))).
      rewrite (Hone k (i_r0 e)) by (assumption || lia).
      rewrite Z.ltb_irrefl. reflexivity.
Qed.

(** The scan returns, with the invariant at the index where it stopped:
    the end of the buffer, or the point where it broke out. *)
Lemma fit_fast_scan_spec (cloud : PointCloud2) (x_begin : Z) :
  cloud_ok cloud x_begin ->
  forall (n : nat) (i : Z) (e : Extrema),
  0 <= i -> i + Z.of_nat n <= num_points cloud ->
  scan_inv cloud x_begin i e ->
  exists e' k,
    fit_fast_scan cloud x_begin n i e = Ret e'
    /\ i <= k <= i + Z.of_nat n
    /\ scan_inv cloud x_begin k e'
    /\ (k = i + Z.of_nat n \/ extrema_found e' = true).
Proof.
  intros Hok. induction n as [|n IH]; intros i e Hi Hn Hinv.
  - exists e, i. cbn [fit_fast_scan].
    split; [reflexivity|]. split; [lia|]. split; [exact Hinv|]. left. lia.
  - cbn [fit_fast_scan].
    rewrite (finite_at_ok cloud x_begin i) by (assumption || lia). cbn [obind].
    destruct (point_valid cloud x_begin i) eqn:Hv; cbn [negb].
    + destruct (extrema_found (update_extrema (width cloud) i e)) eqn:Hfound.
      * exists (update_extrema (width cloud) i e), (i + 1).
        split; [reflexivity|]. split; [lia|]. split; [|right; exact Hfound].
        apply scan_inv_update; (assumption || lia).
      * destruct (IH (i + 1) (update_extrema (width cloud) i e))
          as (e' & k & Hrun & Hk & Hinv' & Hend);
          [lia | lia | apply scan_inv_update; (assumption || lia) |].
        exists e', k. split; [exact Hrun|]. split; [lia|]. split; [exact Hinv'|].
        destruct Hend as [->|Hf]; [left; lia | right; exact Hf].
    + destruct (IH (i + 1) e) as (e' & k & Hrun & Hk & Hinv' & Hend);
        [lia | lia | apply scan_inv_skip; assumption |].
      exists e', k. split; [exact Hrun|]. split; [lia|]. split; [exact Hinv'|].
      destruct Hend as [->|Hf]; [left; lia | right; exact Hf].
Qed.

(** What the scan of the whole buffer leaves. *)
Lemma fit_fast_scan_result (cloud : PointCloud2) (x_begin : Z) :
  cloud_ok cloud x_begin ->
  exists e,
    fit_fast_scan cloud x_begin (Z.to_nat (num_points cloud)) 0 no_extrema = Ret e
    /\ ((e = no_extrema /\ no_valid_point cloud x_begin)
        \/ seen cloud x_begin (num_points cloud) e)
    /\ (one_column cloud x_begin -> i_c0 e = i_c1 e)
    /\ (one_row cloud x_begin -> i_r0 e = i_r1 e).
Proof.
  intros Hok.
  assert (Hn : 0 <= num_points cloud).
  { destruct Hok as [Hh Hw _ _ _ _]. unfold num_points. nia. }
  destruct (fit_fast_scan_spec cloud x_begin Hok (Z.to_nat (num_points cloud)) 0 no_extrema)
    as (e & k & Hrun & Hk & (Hstate & Hcol & Hrow) & Hend);
    [lia | lia | apply scan_inv_init |].
  exists e. split; [exact Hrun|]. split; [|split; assumption].
  destruct Hstate as [[-> Hnone]|Hseen].
  - left. split; [reflexivity|].
    destruct Hend as [->|Hf]; [|discriminate Hf].
    intros j Hj. apply Hnone. lia.
  - right. eapply seen_mono; [|exact Hseen]. lia.
Qed.

Lemma seen_not_invalid (cloud : PointCloud2) (x_begin : Z) (e : Extrema) :
  cloud_ok cloud x_begin -> seen cloud x_begin (num_points cloud) e ->
  (i_r0 e =? INVALID_INDEX) = false.
Proof.
  intros Hok ([Hi _] & _). apply Z.eqb_neq.
  pose proof (index_not_invalid cloud x_begin (i_r0 e) Hok Hi). lia.
Qed.

(** [fit_fast] in terms of its scan. *)
Lemma fit_fast_run (cloud : PointCloud2) (x_begin : Z) (self : SphericalProjection)
    (e : Extrema) :
  cloud_ok cloud x_begin ->
  fit_fast_scan cloud x_begin (Z.to_nat (num_points cloud)) 0 no_extrema = Ret e ->
  (e = no_extrema -> fit_fast cloud self = Ret (false, self, []))
  /\ (seen cloud x_begin (num_points cloud) e ->
      exists log, fit_fast cloud self = Ret (true, fit_fast_model cloud x_begin e, log)).
Proof.
  intros Hok Hscan.
  destruct (asserts_ok cloud x_begin Hok) as [Hah Haw].
  split.
  - intros ->.
    unfold fit_fast, m_bind, m_assert, m_lift.
    rewrite Hah, Haw. cbn [obind].
    rewrite (iterator_ok cloud x_begin Hok). cbn [obind].
    rewrite (n_points_of_ok cloud x_begin Hok), Hscan. cbn [obind].
    reflexivity.
  - intros Hseen.
    pose proof (seen_not_invalid cloud x_begin e Hok Hseen) as Hinv.
    destruct Hseen as ([H0 _] & [H1 _] & [H2 _] & [H3 _]).
    unfold fit_fast, m_bind, m_assert, m_lift.
    rewrite Hah, Haw. cbn [obind].
    rewrite (iterator_ok cloud x_begin Hok). cbn [obind].
    rewrite (n_points_of_ok cloud x_begin Hok), Hscan. cbn [obind].
    rewrite Hinv.
    unfold set_height_, set_width_, set_elevation_step_, set_elevation_start_,
      set_azimuth_step_, set_azimuth_start_, m_get, m_log, m_ret.
    cbn [obind].
    rewrite !(xyz_at_ok cloud x_begin) by assumption. cbn [obind].
    rewrite !(xy_at_ok cloud x_begin) by assumption. cbn [obind].
    eexists. reflexivity.
Qed.

End FitFast.

(* ================================================================== *)
(** * fit_robust *)
(* ================================================================== *)

(** ** Sorting *)

Lemma sort_insert_perm (lt : Model -> Model -> bool) (x : Model) (l : list Model) :
  sort_insert lt x l ≡ₚ x :: l.
Proof.
  induction l as [|y l IH]; cbn [sort_insert].
  - reflexivity.
  - destruct (lt x y); [reflexivity|].
    rewrite IH. apply Permutation_swap.
Qed.

Lemma insertion_sort_perm (lt : Model -> Model -> bool) (l : list Model) :
  insertion_sort lt l ≡ₚ l.
Proof.
  unfold insertion_sort.
  assert (Hgen : forall acc, fold_left (fun sorted x => sort_insert lt x sorted) l acc
                             ≡ₚ l ++ acc).
  { induction l as [|x l IH]; intros acc; cbn [fold_left].
    - reflexivity.
    - rewrite IH, sort_insert_perm. cbn [app].
      symmetry. apply Permutation_middle. }
  rewrite Hgen, app_nil_r. reflexivity.
Qed.

(** Whatever order [std::sort] leaves, it holds the elements it was
    given. *)
Lemma std_sort_perm `{Extern} (lt : Model -> Model -> bool) (l : list Model) :
  std_sort lt l ≡ₚ l.
Proof.
  unfold std_sort.
  destruct (bool_decide (sort_result l ≡ₚ l)) eqn:Hp; cbn [andb].
  - apply bool_decide_eq_true in Hp.
    destruct (is_sorted lt (sort_result l)); [exact Hp | apply insertion_sort_perm].
  - apply insertion_sort_perm.
Qed.

Lemma std_sort_length `{Extern} (lt : Model -> Model -> bool) (l : list Model) :
  length (std_sort lt l) = length l.
Proof. apply Permutation_length, std_sort_perm. Qed.

(** Every sorted order of the elements can be the one [std::sort]
    leaves. *)
Lemma std_sort_takes_result `{Extern} (lt : Model -> Model -> bool) (l : list Model) :
  sort_result l ≡ₚ l -> is_sorted lt (sort_result l) = true ->
  std_sort lt l = sort_result l.
Proof.
  intros Hp Hs. unfold std_sort.
  rewrite (bool_decide_eq_true_2 _ Hp), Hs. reflexivity.
Qed.

(** The middle element of a vector that is not empty is there. *)
Lemma middle_ok (l : list Model) :
  l <> [] -> exists m, middle l = Ret m /\ l !! (length l / 2)%nat = Some m.
Proof.
  intros Hne. unfold middle.
  destruct (l !! (length l / 2)%nat) as [m|] eqn:Hm.
  - exists m. split; reflexivity.
  - apply lookup_ge_None in Hm.
    destruct l as [|x l]; [contradiction|].
    cbn [length] in Hm.
    pose proof (Nat.div_lt (S (length l)) 2). lia.
Qed.

Lemma middle_inv (l : list Model) (m : Model) :
  middle l = Ret m -> l !! (length l / 2)%nat = Some m.
Proof.
  unfold middle. destruct (l !! (length l / 2)%nat); [|discriminate].
  intros [= ->]. reflexivity.
Qed.

(** ** The order of floats that are numbers *)

Lemma SFltb_key (x y : Value) :
  isnan x = false -> isnan y = false ->
  (SFltb x y = true <-> lex_lt (fkey x) (fkey y)).
Proof.
  unfold SFltb.
  destruct x as [sx|sx| |sx mx ex], y as [sy|sy| |sy my ey];
    cbn [isnan SFcompare fkey]; intros Hx Hy;
    try discriminate Hx; try discriminate Hy; clear Hx Hy;
    repeat match goal with s : bool |- _ => destruct s end;
    cbn [lex_lt];
    try (split; intros; (lia || discriminate || reflexivity)).
  all: change (Pos.compare_cont Eq mx my) with (mx ?= my)%positive.
  all: destruct (Z.compare_spec ex ey); destruct (Pos.compare_spec mx my);
    cbn [CompOpp]; split; intros; (lia || discriminate || reflexivity).
Qed.

(** [x <= y] on numbers: not [y < x]. *)
Lemma SFleb_key (x y : Value) :
  isnan x = false -> isnan y = false ->
  (SFleb x y = true <-> ~ lex_lt (fkey y) (fkey x)).
Proof.
  unfold SFleb.
  destruct x as [sx|sx| |sx mx ex], y as [sy|sy| |sy my ey];
    cbn [isnan SFcompare fkey]; intros Hx Hy;
    try discriminate Hx; try discriminate Hy; clear Hx Hy;
    repeat match goal with s : bool |- _ => destruct s end;
    cbn [lex_lt];
    try (split; [intros; lia | intros Hn; first [reflexivity | exfalso; apply Hn; lia]]).
  all: change (Pos.compare_cont Eq mx my) with (mx ?= my)%positive.
  all: destruct (Z.compare_spec ex ey); destruct (Pos.compare_spec mx my);
    cbn [CompOpp];
    (split; [intros; first [lia | discriminate]
            | intros Hn; first [reflexivity | exfalso; apply Hn; lia]]).
Qed.

Lemma comp_asym (a b : Model) : comp a b = true -> comp b a = false.
Proof.
  unfold comp, F32.ltb. intros Hlt.
  destruct (isnan (snd a)) eqn:Ha; [destruct (snd a); discriminate|].
  destruct (isnan (snd b)) eqn:Hb;
    [destruct (snd b); try discriminate; destruct (snd a); discriminate|].
  apply (SFltb_key _ _ Ha Hb) in Hlt.
  destruct (SFltb (snd b) (snd a)) eqn:Hgt; [|reflexivity].
  apply (SFltb_key _ _ Hb Ha) in Hgt.
  destruct (fkey (snd a)) as [[a1 a2] a3], (fkey (snd b)) as [[b1 b2] b3].
  cbn [lex_lt] in *. lia.
Qed.

Lemma comp_le_trans (a b c : Model) :
  isnan (snd a) = false -> isnan (snd b) = false -> isnan (snd c) = false ->
  comp b a = false -> comp c b = false -> comp c a = false.
Proof.
  unfold comp, F32.ltb. intros Ha Hb Hc Hab Hbc.
  destruct (SFltb (snd c) (snd a)) eqn:Hca; [|reflexivity].
  apply (SFltb_key _ _ Hc Ha) in Hca.
  assert (Hab' : ~ lex_lt (fkey (snd b)) (fkey (snd a))).
  { intros Hlt. apply (SFltb_key _ _ Hb Ha) in Hlt. congruence. }
  assert (Hbc' : ~ lex_lt (fkey (snd c)) (fkey (snd b))).
  { intros Hlt. apply (SFltb_key _ _ Hc Hb) in Hlt. congruence. }
  destruct (fkey (snd a)) as [[a1 a2] a3], (fkey (snd b)) as [[b1 b2] b3],
    (fkey (snd c)) as [[c1 c2] c3].
  cbn [lex_lt] in *. lia.
Qed.

(** On steps that are numbers, what [comp] does not put before is at
    least as large. *)
Lemma comp_step_le (a b : Model) :
  isnan (snd a) = false -> isnan (snd b) = false ->
  comp b a = false -> step_le a b.
Proof.
  unfold comp, F32.ltb, step_le. intros Ha Hb Hba.
  apply (SFleb_key _ _ Ha Hb). intros Hlt.
  apply (SFltb_key _ _ Hb Ha) in Hlt. congruence.
Qed.

Lemma comp_sorted_cons (x : Model) (l : list Model) :
  comp_sorted (x :: l) <-> Forall (fun y => comp y x = false) l /\ comp_sorted l.
Proof.
  unfold comp_sorted. split.
  - intros Hs. split.
    + apply Forall_lookup. intros j b Hb.
      apply (Hs 0%nat (S j) x b); [lia | reflexivity | exact Hb].
    + intros i j a b Hij Ha Hb. apply (Hs (S i) (S j) a b); [lia | exact Ha | exact Hb].
  - intros [Hx Hs] i j a b Hij Ha Hb.
    destruct j as [|j]; [lia|]. cbn in Hb.
    destruct i as [|i]; cbn in Ha.
    + injection Ha as <-.
      apply (Forall_lookup_1 (fun y => comp y x = false) l j b Hx Hb).
    + apply (Hs i j a b); [lia | exact Ha | exact Hb].
Qed.

Lemma sort_insert_sorted (x : Model) (l : list Model) :
  isnan (snd x) = false -> Forall (fun m => isnan (snd m) = false) l ->
  comp_sorted l -> comp_sorted (sort_insert comp x l).
Proof.
  intros Hx Hl. induction l as [|y l IH]; intros Hs; cbn [sort_insert].
  - apply comp_sorted_cons. split; [constructor|]. intros i j a b _ Ha. discriminate.
  - apply Forall_cons in Hl as [Hy Hl].
    apply comp_sorted_cons in Hs as [Hyl Hs].
    destruct (comp x y) eqn:Hxy.
    + apply comp_sorted_cons. split.
      * assert (Hle : comp y x = false) by (apply comp_asym, Hxy).
        constructor; [exact Hle|].
        apply Forall_forall. intros z Hz.
        apply (comp_le_trans x y z); try assumption.
        -- apply (proj1 (Forall_forall _ _) Hl z Hz).
        -- apply (proj1 (Forall_forall _ _) Hyl z Hz).
      * apply comp_sorted_cons. split; assumption.
    + apply comp_sorted_cons. split.
      * rewrite sort_insert_perm. constructor; [exact Hxy | exact Hyl].
      * apply IH; assumption.
Qed.

Lemma insertion_sort_sorted (l : list Model) :
  Forall (fun m => isnan (snd m) = false) l -> comp_sorted (insertion_sort comp l).
Proof.
  unfold insertion_sort. intros Hl.
  assert (Hgen : forall acc,
            Forall (fun m => isnan (snd m) = false) acc -> comp_sorted acc ->
            comp_sorted (fold_left (fun sorted x => sort_insert comp x sorted) l acc)).
  { induction Hl as [|x l Hx Hl IH]; intros acc Hacc Hs; cbn [fold_left].
    - exact Hs.
    - apply IH.
      + rewrite sort_insert_perm. constructor; assumption.
      + apply sort_insert_sorted; assumption. }
  apply Hgen; [constructor|]. intros i j a b _ Ha. discriminate.
Qed.

(** On steps that are numbers, a list in which no element is less than
    the one before it has none that is less than an earlier one. *)
Lemma is_sorted_comp_sorted (l : list Model) :
  Forall (fun m => isnan (snd m) = false) l ->
  is_sorted comp l = true -> comp_sorted l.
Proof.
  induction l as [|a l IH]; intros Hl Hs.
  - intros i j x y _ Hx. discriminate.
  - apply Forall_cons in Hl as [Ha Hl].
    destruct l as [|b l].
    + apply comp_sorted_cons. split; [constructor|]. intros i j x y _ Hx. discriminate.
    + cbn [is_sorted] in Hs. apply andb_true_iff in Hs as [Hba Hs].
      apply negb_true_iff in Hba.
      specialize (IH Hl Hs).
      apply comp_sorted_cons. split; [|exact IH].
      apply comp_sorted_cons in IH as [Hbl _].
      pose proof Hl as Hl'. apply Forall_cons in Hl' as [Hb Hl'].
      constructor; [exact Hba|].
      apply Forall_forall. intros z Hz.
      apply (comp_le_trans a b z); try assumption.
      * apply (proj1 (Forall_forall _ _) Hl' z Hz).
      * apply (proj1 (Forall_forall _ _) Hbl z Hz).
Qed.

Lemma comp_sorted_step_sorted (l : list Model) :
  Forall (fun m => isnan (snd m) = false) l -> comp_sorted l -> step_sorted l.
Proof.
  intros Hl Hs i j a b Hij Ha Hb.
  apply comp_step_le.
  - apply (Forall_lookup_1 _ l i a Hl Ha).
  - apply (Forall_lookup_1 _ l j b Hl Hb).
  - apply (Hs i j a b Hij Ha Hb).
Qed.

(** On steps that are numbers, [std::sort] leaves the candidates in
    ascending order of step. *)
Lemma std_sort_sorted `{Extern} (l : list Model) :
  Forall (fun m => isnan (snd m) = false) l -> step_sorted (std_sort comp l).
Proof.
  intros Hl. apply comp_sorted_step_sorted.
  { rewrite std_sort_perm. exact Hl. }
  unfold std_sort.
  destruct (bool_decide (sort_result l ≡ₚ l)) eqn:Hp; cbn [andb].
  - apply bool_decide_eq_true in Hp.
    destruct (is_sorted comp (sort_result l)) eqn:Hs.
    + apply is_sorted_comp_sorted; [rewrite Hp; exact Hl | exact Hs].
    + apply insertion_sort_sorted, Hl.
  - apply insertion_sort_sorted, Hl.
Qed.

(** ** The candidates *)

Section FitRobust.
Context {ext : Extern}.

(** The indices of the valid points, in storage order. *)
Lemma collect_valid_spec (cloud : PointCloud2) (x_begin : Z) :
  cloud_ok cloud x_begin ->
  forall (n : nat) (i : Z) (acc : list Z),
  0 <= i -> i + Z.of_nat n <= num_points cloud ->
  exists l,
    collect_valid cloud x_begin n i acc = Ret (acc ++ l)
    /\ forall v, v ∈ l <-> (i <= v < i + Z.of_nat n /\ point_valid cloud x_begin v = true).
Proof.
  intros Hok. induction n as [|n IH]; intros i acc Hi Hn.
  - exists []. cbn [collect_valid]. rewrite app_nil_r. split; [reflexivity|].
    intros v. split; [intros Hv; apply elem_of_nil in Hv; contradiction | lia].
  - cbn [collect_valid].
    rewrite (finite_at_ok cloud x_begin i) by (assumption || lia). cbn [obind].
    destruct (point_valid cloud x_begin i) eqn:Hv; cbn [negb].
    + destruct (IH (i + 1) (acc ++ [i])) as (l & Hrun & Hl); [lia | lia |].
      exists (i :: l). rewrite Hrun, <- app_assoc. split; [reflexivity|].
      intros v. rewrite elem_of_cons, Hl. split.
      * intros [-> | [Hr Hvv]]; split; (lia || assumption).
      * intros [Hr Hvv]. destruct (decide (v = i)) as [->|Hne]; [left; reflexivity|].
        right. split; [lia | exact Hvv].
    + destruct (IH (i + 1) acc) as (l & Hrun & Hl); [lia | lia |].
      exists l. split; [exact Hrun|].
      intros v. rewrite Hl. split.
      * intros [Hr Hvv]. split; [lia | exact Hvv].
      * intros [Hr Hvv]. split; [|exact Hvv].
        destruct (decide (v = i)) as [->|Hne]; [congruence | lia].
Qed.

Lemma az_candidate_ok (cloud : PointCloud2) (x_begin : Z) (v0 v1 : Z) :
  cloud_ok cloud x_begin ->
  0 <= v0 < num_points cloud -> 0 <= v1 < num_points cloud ->
  exists m, az_candidate cloud x_begin v0 v1 = Ret m
    /\ (m = None <-> col_of cloud v0 = col_of cloud v1).
Proof.
  intros Hok H0 H1. unfold az_candidate.
  destruct (umod_col cloud x_begin v0 Hok H0) as [-> ->].
  destruct (umod_col cloud x_begin v1 Hok H1) as [-> ->].
  destruct (col_of cloud v0 =? col_of cloud v1) eqn:Hc.
  - exists None. split; [reflexivity|]. split; [intros _; apply Z.eqb_eq, Hc | reflexivity].
  - rewrite !(xy_at_ok cloud x_begin) by assumption. cbn [obind].
    eexists. split; [reflexivity|].
    split; [discriminate | intros Heq; apply Z.eqb_neq in Hc; contradiction].
Qed.

Lemma el_candidate_ok (cloud : PointCloud2) (x_begin : Z) (v0 v1 : Z) :
  cloud_ok cloud x_begin ->
  0 <= v0 < num_points cloud -> 0 <= v1 < num_points cloud ->
  exists m, el_candidate cloud x_begin v0 v1 = Ret m
    /\ (m = None <-> row_of cloud v0 = row_of cloud v1).
Proof.
  intros Hok H0 H1. unfold el_candidate.
  destruct (udiv_row cloud x_begin v0 Hok H0) as [-> ->].
  destruct (udiv_row cloud x_begin v1 Hok H1) as [-> ->].
  destruct (row_of cloud v0 =? row_of cloud v1) eqn:Hc.
  - exists None. split; [reflexivity|]. split; [intros _; apply Z.eqb_eq, Hc | reflexivity].
  - rewrite !(xyz_at_ok cloud x_begin) by assumption. cbn [obind].
    eexists. split; [reflexivity|].
    split; [discriminate | intros Heq; apply Z.eqb_neq in Hc; contradiction].
Qed.

Lemma all_same_cons2 (f : Z -> Z) (a b : Z) (l : list Z) :
  all_same f (a :: b :: l) <-> f a = f b /\ all_same f (b :: l).
Proof.
  unfold all_same. split.
  - intros Hs. split.
    + apply Hs; [left | right; left].
    + intros c d Hc Hd. apply Hs; right; assumption.
  - intros [Hab Hs] c d Hc Hd.
    assert (Hto_b : forall c, c ∈ a :: b :: l -> f c = f b).
    { intros c' Hc'. apply elem_of_cons in Hc' as [->|Hc']; [exact Hab|].
      apply Hs; [exact Hc' | left]. }
    rewrite (Hto_b c Hc), (Hto_b d Hd). reflexivity.
Qed.

Lemma all_same_perm (f : Z -> Z) (l l' : list Z) :
  l ≡ₚ l' -> all_same f l -> all_same f l'.
Proof.
  unfold all_same. intros Hp Hs a b Ha Hb.
  apply Hs; rewrite Hp; assumption.
Qed.

Lemma push_candidate_nil (models : list Model) (m : option Model) :
  push_candidate models m = [] <-> models = [] /\ m = None.
Proof.
  destruct m as [m|]; cbn [push_candidate].
  - split; [|intros [_ Hm]; discriminate].
    intros Hnil. destruct models; discriminate.
  - split; [intros ->; split; reflexivity | intros [-> _]; reflexivity].
Qed.

(** The pair loop returns; a candidate list stays empty exactly when it
    was empty and no two points of the list differ in column (in row). *)
Lemma collect_models_spec (cloud : PointCloud2) (x_begin : Z) :
  cloud_ok cloud x_begin ->
  forall (valid : list Z) (az0 el0 : list Model),
  Forall (fun v => 0 <= v < num_points cloud) valid ->
  exists az el,
    collect_models cloud x_begin valid az0 el0 = Ret (az, el)
    /\ (az = [] <-> az0 = [] /\ all_same (col_of cloud) valid)
    /\ (el = [] <-> el0 = [] /\ all_same (row_of cloud) valid).
Proof.
  intros Hok valid.
  assert (Hshort : forall l, (length l <= 1)%nat -> forall f, all_same f l).
  { intros [|a [|b l]] Hl f c d Hc Hd; cbn in Hl; try lia.
    - apply elem_of_nil in Hc. contradiction.
    - apply list_elem_of_singleton in Hc, Hd. congruence. }
  induction valid as [|v0 valid IH]; intros az0 el0 Hin.
  - exists az0, el0. split; [reflexivity|].
    split; (split; [intros ->; split; [reflexivity | apply Hshort; cbn; lia] | tauto]).
  - destruct valid as [|v1 rest].
    + exists az0, el0. split; [reflexivity|].
      split; (split; [intros ->; split; [reflexivity | apply Hshort; cbn; lia] | tauto]).
    + apply Forall_cons in Hin as [H0 Hin].
      pose proof Hin as Hin'. apply Forall_cons in Hin' as [H1 _].
      cbn [collect_models].
      destruct (az_candidate_ok cloud x_begin v0 v1 Hok H0 H1) as (ma & Hma & Haz).
      destruct (el_candidate_ok cloud x_begin v0 v1 Hok H0 H1) as (me & Hme & Hel).
      rewrite Hma. cbn [obind]. rewrite Hme. cbn [obind].
      pose proof (push_candidate_nil az0 ma) as Hpa.
      pose proof (push_candidate_nil el0 me) as Hpe.
      pose proof (all_same_cons2 (col_of cloud) v0 v1 rest) as Hc2.
      pose proof (all_same_cons2 (row_of cloud) v0 v1 rest) as Hr2.
      destruct ((25 <=? Z.of_nat (length (push_candidate az0 ma)))
                && (25 <=? Z.of_nat (length (push_candidate el0 me)))) eqn:Hbrk.
      * apply andb_true_iff in Hbrk as [Ba Be].
        apply Z.leb_le in Ba, Be.
        exists (push_candidate az0 ma), (push_candidate el0 me).
        split; [reflexivity|].
        split; (split; [intros Hnil; rewrite Hnil in *; cbn in *; lia |]).
        -- intros (Hz & Hs). apply Hc2 in Hs as [Hc _].
           assert (Hnil : push_candidate az0 ma = []) by (apply Hpa; tauto).
           rewrite Hnil in Ba. cbn in Ba. lia.
        -- intros (Hz & Hs). apply Hr2 in Hs as [Hc _].
           assert (Hnil : push_candidate el0 me = []) by (apply Hpe; tauto).
           rewrite Hnil in Be. cbn in Be. lia.
      * destruct (IH (push_candidate az0 ma) (push_candidate el0 me) Hin)
          as (az & el & Hrun & Haz' & Hel').
        exists az, el. split; [exact Hrun|].
        split.
        -- rewrite Haz', Hpa, Hc2. tauto.
        -- rewrite Hel', Hpe, Hr2. tauto.
Qed.

Lemma vector_reserve_ok (n : Z) : 0 <= n -> vector_reserve n = Ret tt.
Proof.
  intros Hn. unfold vector_reserve.
  replace (n <? 0) with false by (symmetry; apply Z.ltb_ge; exact Hn). reflexivity.
Qed.

(** [fit_robust] in terms of its loops: what a call that returned went
    through. *)
Lemma fit_robust_inv (shuffle : list Z -> list Z) (cloud : PointCloud2)
    (self self' : SphericalProjection) (b : bool) (log : list LogRecord) :
  fit_robust shuffle cloud self = Ret (b, self', log) ->
  exists x_begin valid az el,
    PointCloud2ConstIterator cloud "x" = Ret x_begin
    /\ collect_valid cloud x_begin (Z.to_nat (n_points_of cloud)) 0 [] = Ret valid
    /\ collect_models cloud x_begin (shuffle valid) [] [] = Ret (az, el)
    /\ ((b = false /\ (az = [] \/ el = []) /\ self' = self /\ log = [])
        \/ (b = true /\ az <> [] /\ el <> []
            /\ exists ma me,
                 middle (std_sort comp az) = Ret ma
                 /\ middle (std_sort comp el) = Ret me
                 /\ self' = fit_robust_model cloud ma me)).
Proof.
  unfold fit_robust, m_bind, m_assert, m_lift. intros Hrun.
  destruct (NDEBUG || (1 <=? height cloud)); [|discriminate Hrun].
  cbn [obind] in Hrun.
  destruct (NDEBUG || (1 <=? width cloud)); [|discriminate Hrun].
  cbn [obind] in Hrun.
  destruct (PointCloud2ConstIterator cloud "x") as [x_begin| | |] eqn:Hit;
    try discriminate Hrun.
  cbn [obind] in Hrun.
  destruct (vector_reserve (n_points_of cloud)) as [[]| | |]; try discriminate Hrun.
  cbn [obind] in Hrun.
  destruct (collect_valid cloud x_begin (Z.to_nat (n_points_of cloud)) 0 [])
    as [valid| | |] eqn:Hvalid; try discriminate Hrun.
  cbn [obind] in Hrun.
  destruct (collect_models cloud x_begin (shuffle valid) [] [])
    as [[az el]| | |] eqn:Hmodels; try discriminate Hrun.
  cbn [obind] in Hrun.
  exists x_begin, valid, az, el.
  split; [reflexivity|]. split; [exact Hvalid|]. split; [exact Hmodels|].
  unfold set_height_, set_width_, set_elevation_step_, set_elevation_start_,
    set_azimuth_step_, set_azimuth_start_, m_get, m_log, m_ret in Hrun.
  destruct az as [|a az]; [|destruct el as [|e el]]; cbn [orb obind app] in Hrun.
  - left. injection Hrun as <- <- <-.
    split; [reflexivity|]. split; [left; reflexivity|]. split; reflexivity.
  - left. injection Hrun as <- <- <-.
    split; [reflexivity|]. split; [right; reflexivity|]. split; reflexivity.
  - right.
    destruct (middle (std_sort comp (a :: az))) as [ma| | |]; try discriminate Hrun.
    cbn [obind] in Hrun.
    destruct (middle (std_sort comp (e :: el))) as [me| | |]; try discriminate Hrun.
    cbn [obind] in Hrun.
    injection Hrun as <- <- _.
    split; [reflexivity|]. split; [discriminate|]. split; [discriminate|].
    exists ma, me. split; [reflexivity|]. split; reflexivity.
Qed.

(** [fit_robust] on a buffer it can read returns. *)
Lemma fit_robust_run (shuffle : list Z -> list Z) (cloud : PointCloud2) (x_begin : Z)
    (self : SphericalProjection) :
  cloud_ok cloud x_begin ->
  (forall l, shuffle l ≡ₚ l) ->
  exists valid az el,
    collect_valid cloud x_begin (Z.to_nat (num_points cloud)) 0 [] = Ret valid
    /\ (forall v, v ∈ valid <->
          (0 <= v < num_points cloud /\ point_valid cloud x_begin v = true))
    /\ collect_models cloud x_begin (shuffle valid) [] [] = Ret (az, el)
    /\ (az = [] <-> all_same (col_of cloud) valid)
    /\ (el = [] <-> all_same (row_of cloud) valid)
    /\ ((az = [] \/ el = [] -> fit_robust shuffle cloud self = Ret (false, self, []))
        /\ (az <> [] -> el <> [] ->
            exists ma me log,
              middle (std_sort comp az) = Ret ma
              /\ middle (std_sort comp el) = Ret me
              /\ fit_robust shuffle cloud self
                 = Ret (true, fit_robust_model cloud ma me, log))).
Proof.
  intros Hok Hperm.
  assert (Hn : 0 <= num_points cloud).
  { destruct Hok as [Hh Hw _ _ _ _]. unfold num_points. nia. }
  destruct (collect_valid_spec cloud x_begin Hok (Z.to_nat (num_points cloud)) 0 [])
    as (valid & Hvalid & Hmem); [lia | lia |].
  cbn [app] in Hvalid.
  assert (Hmem' : forall v, v ∈ valid <->
            (0 <= v < num_points cloud /\ point_valid cloud x_begin v = true)).
  { intros v. rewrite Hmem. replace (0 + Z.of_nat (Z.to_nat (num_points cloud)))
      with (num_points cloud) by lia. reflexivity. }
  assert (Hrange : Forall (fun v => 0 <= v < num_points cloud) (shuffle valid)).
  { apply Forall_forall. intros v Hv. rewrite Hperm in Hv. apply Hmem' in Hv. tauto. }
  destruct (collect_models_spec cloud x_begin Hok (shuffle valid) [] [] Hrange)
    as (az & el & Hmodels & Haz & Hel).
  exists valid, az, el.
  split; [exact Hvalid|]. split; [exact Hmem'|]. split; [exact Hmodels|].
  split.
  { rewrite Haz. split.
    - intros [_ Hs]. eapply all_same_perm; [apply Hperm | exact Hs].
    - intros Hs. split; [reflexivity|].
      eapply all_same_perm; [symmetry; apply Hperm | exact Hs]. }
  split.
  { rewrite Hel. split.
    - intros [_ Hs]. eapply all_same_perm; [apply Hperm | exact Hs].
    - intros Hs. split; [reflexivity|].
      eapply all_same_perm; [symmetry; apply Hperm | exact Hs]. }
  destruct (asserts_ok cloud x_begin Hok) as [Hah Haw].
  assert (Hhead : forall k : list Model -> list Model -> Method bool,
            m_bind (m_assert (1 <=? height cloud)) (fun _ =>
            m_bind (m_assert (1 <=? width cloud)) (fun _ =>
            m_bind (m_lift (PointCloud2ConstIterator cloud "x")) (fun x =>
            m_bind (m_lift (vector_reserve (n_points_of cloud))) (fun _ =>
            m_bind (m_lift (collect_valid cloud x (Z.to_nat (n_points_of cloud)) 0 []))
              (fun valid =>
            m_bind (m_lift (vector_reserve (n_points_of cloud))) (fun _ =>
            m_bind (m_lift (vector_reserve (n_points_of cloud))) (fun _ =>
            m_bind (m_lift (collect_models cloud x (shuffle valid) [] []))
              (fun '(a, e) => k a e)))))))) self
            = obind (k az el self) (fun '(r, s, l) => Ret (r, s, l))).
  { intros k. unfold m_bind, m_assert, m_lift.
    rewrite Hah, Haw. cbn [obind].
    rewrite (iterator_ok cloud x_begin Hok). cbn [obind].
    rewrite (n_points_of_ok cloud x_begin Hok), (vector_reserve_ok _ Hn).
    cbn [obind]. rewrite Hvalid. cbn [obind].
    rewrite Hmodels. cbn [obind].
    destruct (k az el self) as [[[r s] l]| | |]; reflexivity. }
  unfold fit_robust. rewrite Hhead. clear Hhead.
  split.
  - intros Hnil.
    assert (Hcond : (match az with [] => true | _ => false end
                     || match el with [] => true | _ => false end) = true).
    { destruct Hnil as [-> | ->]; [reflexivity|]. destruct az; reflexivity. }
    rewrite Hcond. reflexivity.
  - intros Haz_ne Hel_ne.
    destruct az as [|a az']; [contradiction|].
    destruct el as [|e el']; [contradiction|].
    cbn [orb].
    destruct (middle_ok (std_sort comp (a :: az'))) as (ma & Hma & _).
    { intros Hnil. apply (f_equal length) in Hnil.
      rewrite std_sort_length in Hnil. discriminate Hnil. }
    destruct (middle_ok (std_sort comp (e :: el'))) as (me & Hme & _).
    { intros Hnil. apply (f_equal length) in Hnil.
      rewrite std_sort_length in Hnil. discriminate Hnil. }
    exists ma, me.
    unfold m_bind, m_lift, set_height_, set_width_, set_elevation_step_,
      set_elevation_start_, set_azimuth_step_, set_azimuth_start_, m_get, m_log, m_ret.
    rewrite Hma, Hme. cbn [obind].
    eexists. split; [reflexivity|]. split; reflexivity.
Qed.

End FitRobust.

(* ================================================================== *)
(** * The fits: what the calls return *)
(* ================================================================== *)

Section Fits.
Context {ext : Extern}.

(** A call of [fit_fast] that returned false found no valid point and
    changed nothing; one that returned true found one. *)
Lemma fit_fast_inv (cloud : PointCloud2) (self self' : SphericalProjection)
    (b : bool) (log : list LogRecord) :
  fit_fast cloud self = Ret (b, self', log) ->
  exists x_begin e,
    PointCloud2ConstIterator cloud "x" = Ret x_begin
    /\ fit_fast_scan cloud x_begin (Z.to_nat (n_points_of cloud)) 0 no_extrema = Ret e
    /\ ((b = false /\ i_r0 e = INVALID_INDEX /\ self' = self /\ log = [])
        \/ (b = true /\ i_r0 e <> INVALID_INDEX
            /\ height_ self' = height cloud /\ width_ self' = width cloud)).
Proof.
  unfold fit_fast, m_bind, m_assert, m_lift. intros Hrun.
  destruct (NDEBUG || (1 <=? height cloud)); [|discriminate Hrun].
  cbn [obind] in Hrun.
  destruct (NDEBUG || (1 <=? width cloud)); [|discriminate Hrun].
  cbn [obind] in Hrun.
  destruct (PointCloud2ConstIterator cloud "x") as [x_begin| | |] eqn:Hit;
    try discriminate Hrun.
  cbn [obind] in Hrun.
  destruct (fit_fast_scan cloud x_begin (Z.to_nat (n_points_of cloud)) 0 no_extrema)
    as [e| | |] eqn:Hscan; try discriminate Hrun.
  cbn [obind] in Hrun.
  exists x_begin, e. split; [reflexivity|]. split; [exact Hscan|].
  unfold set_height_, set_width_, set_elevation_step_, set_elevation_start_,
    set_azimuth_step_, set_azimuth_start_, m_get, m_log, m_ret in Hrun.
  destruct (i_r0 e =? INVALID_INDEX) eqn:Hinv; cbn [obind app] in Hrun.
  - left. injection Hrun as <- <- <-. apply Z.eqb_eq in Hinv.
    split; [reflexivity|]. split; [exact Hinv|]. split; reflexivity.
  - right. apply Z.eqb_neq in Hinv.
    destruct (xyz_at cloud (it_add cloud x_begin (i_r0 e))) as [[[x0 y0] z0]| | |];
      try discriminate Hrun.
    cbn [obind] in Hrun.
    destruct (xyz_at cloud (it_add cloud x_begin (i_r1 e))) as [[[x1 y1] z1]| | |];
      try discriminate Hrun.
    cbn [obind] in Hrun.
    destruct (xy_at cloud (it_add cloud x_begin (i_c0 e))) as [[x2 y2]| | |];
      try discriminate Hrun.
    cbn [obind] in Hrun.
    destruct (xy_at cloud (it_add cloud x_begin (i_c1 e))) as [[x3 y3]| | |];
      try discriminate Hrun.
    cbn [obind] in Hrun.
    injection Hrun as <- <- _.
    split; [reflexivity|]. split; [exact Hinv|]. split; reflexivity.
Qed.

(** [fit_fast] on a buffer it can read returns: false and the model as it
    was when no point is valid, true otherwise. *)
Lemma fit_fast_total (cloud : PointCloud2) (x_begin : Z) (self : SphericalProjection) :
  cloud_ok cloud x_begin ->
  (no_valid_point cloud x_begin /\ fit_fast cloud self = Ret (false, self, []))
  \/ (exists e log,
        seen cloud x_begin (num_points cloud) e
        /\ (one_column cloud x_begin -> i_c0 e = i_c1 e)
        /\ (one_row cloud x_begin -> i_r0 e = i_r1 e)
        /\ fit_fast cloud self = Ret (true, fit_fast_model cloud x_begin e, log)).
Proof.
  intros Hok.
  destruct (fit_fast_scan_result cloud x_begin Hok) as (e & Hscan & Hstate & Hcol & Hrow).
  destruct (fit_fast_run cloud x_begin self e Hok Hscan) as [Hfalse Htrue].
  destruct Hstate as [[He Hnone]|Hseen].
  - left. split; [exact Hnone | apply Hfalse, He].
  - right. destruct (Htrue Hseen) as (log & Hrun).
    exists e, log.
    split; [exact Hseen|]. split; [exact Hcol|]. split; [exact Hrow | exact Hrun].
Qed.

(** A point that was seen refutes [no_valid_point]. *)
Lemma seen_valid_point (cloud : PointCloud2) (x_begin : Z) (e : Extrema) :
  seen cloud x_begin (num_points cloud) e -> ~ no_valid_point cloud x_begin.
Proof.
  intros ([Hi Hv] & _) Hnone. rewrite (Hnone _ Hi) in Hv. discriminate Hv.
Qed.

(** With no valid point no two indices are collected. *)
Lemma no_valid_all_same (cloud : PointCloud2) (x_begin : Z) (valid : list Z)
    (f : Z -> Z) :
  no_valid_point cloud x_begin ->
  (forall v, v ∈ valid <->
     (0 <= v < num_points cloud /\ point_valid cloud x_begin v = true)) ->
  all_same f valid.
Proof.
  intros Hnone Hmem a b Ha _. apply Hmem in Ha as [Hr Hv].
  rewrite (Hnone a Hr) in Hv. discriminate Hv.
Qed.

(** Where y and z follow x in the record, the three floats the fits read
    at the field x are the position of the point. *)
Lemma packed_position_finite (cloud : PointCloud2) (x_begin : Z) (i : Z) :
  (exists f, find_field cloud "x" = Some f /\ offset f = x_begin) ->
  position_packed cloud x_begin ->
  position_finite cloud i = point_valid cloud x_begin i.
Proof.
  intros (fx & Hx & Hox) [(fy & Hy & Hoy) (fz & Hz & Hoz)].
  unfold position_finite, field_float, point_valid, it_add.
  rewrite Hx, Hy, Hz. cbn [mbind option_bind]. rewrite Hox, Hoy, Hoz.
  replace (x_begin + 4 + i * point_step cloud)
    with (x_begin + i * point_step cloud + 4) by lia.
  replace (x_begin + 8 + i * point_step cloud)
    with (x_begin + i * point_step cloud + 8) by lia.
  reflexivity.
Qed.

(** C5 (as amended). A point is valid when the three [float]s the fits
    read at its field x, [x[0]], [x[1]] and [x[2]], are finite; they are
    its x, y and z where y and z follow x in the record. On a buffer the
    fits can read, [fit_fast] returns false exactly when no point of the
    buffer is valid, and [fit_robust] returns false exactly when the
    azimuth candidate list or the elevation candidate list is empty after
    the pair loop; when no point is valid (every position is NaN, say)
    both return false. *)
Theorem fit_returns_false_iff (shuffle : list Z -> list Z) (cloud : PointCloud2)
    (x_begin : Z) (self : SphericalProjection) :
  cloud_ok cloud x_begin ->
  (forall l, shuffle l ≡ₚ l) ->
  (exists b self' log,
     fit_fast cloud self = Ret (b, self', log)
     /\ (b = false <-> no_valid_point cloud x_begin))
  /\ (exists valid az_models el_models b self' log,
        collect_valid cloud x_begin (Z.to_nat (num_points cloud)) 0 [] = Ret valid
        /\ collect_models cloud x_begin (shuffle valid) [] [] = Ret (az_models, el_models)
        /\ fit_robust shuffle cloud self = Ret (b, self', log)
        /\ (b = false <-> (az_models = [] \/ el_models = [])))
  /\ (no_valid_point cloud x_begin ->
      fit_fast cloud self = Ret (false, self, [])
      /\ fit_robust shuffle cloud self = Ret (false, self, []))
  /\ (position_packed cloud x_begin ->
      forall i, point_valid cloud x_begin i = position_finite cloud i).
Proof.
  intros Hok Hperm.
  destruct (fit_robust_run shuffle cloud x_begin self Hok Hperm)
    as (valid & az & el & Hvalid & Hmem & Hmodels & Haz & Hel & Hfalse & Htrue).
  split; [|split; [|split]]; cycle 3.
  { intros Hpacked i. symmetry.
    apply packed_position_finite; [apply (ok_field _ _ Hok) | exact Hpacked]. }
  - destruct (fit_fast_total cloud x_begin self Hok)
      as [[Hnone Hrun]|(e & log & Hseen & _ & _ & Hrun)].
    + exists false, self, []. split; [exact Hrun|]. tauto.
    + eexists true, _, log. split; [exact Hrun|].
      split; [discriminate|]. intros Hnone.
      destruct (seen_valid_point cloud x_begin e Hseen Hnone).
  - exists valid, az, el.
    destruct az as [|a az]; [|destruct el as [|e el]].
    + exists false, self, [].
      split; [exact Hvalid|]. split; [exact Hmodels|].
      split; [apply Hfalse; auto|]. split; auto.
    + exists false, self, [].
      split; [exact Hvalid|]. split; [exact Hmodels|].
      split; [apply Hfalse; auto|]. split; auto.
    + destruct Htrue as (ma & me & log & _ & _ & Hrun); try discriminate.
      eexists true, _, log.
      split; [exact Hvalid|]. split; [exact Hmodels|]. split; [exact Hrun|].
      split; [discriminate|]. intros [Hnil|Hnil]; discriminate Hnil.
  - intros Hnone. split.
    + destruct (fit_fast_total cloud x_begin self Hok)
        as [[_ Hrun]|(e & log & Hseen & _)]; [exact Hrun|].
      destruct (seen_valid_point cloud x_begin e Hseen Hnone).
    + apply Hfalse. left. apply Haz.
      eapply no_valid_all_same; eassumption.
Qed.

(** C6. A call of [fit_fast] or [fit_robust] that returns false leaves the
    object as it was: the six data members have the values they had before
    the call. *)
Theorem failed_fit_keeps_model (shuffle : list Z -> list Z) (cloud : PointCloud2)
    (self self' : SphericalProjection) (log : list LogRecord) :
  (fit_fast cloud self = Ret (false, self', log) -> self' = self)
  /\ (fit_robust shuffle cloud self = Ret (false, self', log) -> self' = self).
Proof.
  split; intros Hrun.
  - destruct (fit_fast_inv cloud self self' false log Hrun)
      as (x_begin & e & _ & _ & [(_ & _ & Hself & _)|(Hb & _)]);
      [exact Hself | discriminate Hb].
  - destruct (fit_robust_inv shuffle cloud self self' false log Hrun)
      as (x_begin & valid & az & el & _ & _ & _ & [(_ & _ & Hself & _)|(Hb & _)]);
      [exact Hself | discriminate Hb].
Qed.


(** C1. When [fit_robust] returns true, the azimuth start and step it has
    set are the candidate at index [size / 2] of the azimuth candidates as
    [std::sort] with [comp] leaves them, and the elevation start and step
    are the candidate at index [size / 2] of the sorted elevation
    candidates. Whatever [std::sort] is in use, the sorted list holds the
    candidates of the pair loop, and is in ascending order of step when no
    step is NaN. *)
Theorem fit_robust_takes_median (shuffle : list Z -> list Z) (cloud : PointCloud2)
    (self self' : SphericalProjection) (log : list LogRecord) :
  fit_robust shuffle cloud self = Ret (true, self', log) ->
  exists x_begin valid az_models el_models,
    PointCloud2ConstIterator cloud "x" = Ret x_begin
    /\ collect_valid cloud x_begin (Z.to_nat (n_points_of cloud)) 0 [] = Ret valid
    /\ collect_models cloud x_begin (shuffle valid) [] [] = Ret (az_models, el_models)
    /\ std_sort comp az_models !! (length az_models / 2)%nat
       = Some (azimuth_start_ self', azimuth_step_ self')
    /\ std_sort comp el_models !! (length el_models / 2)%nat
       = Some (elevation_start_ self', elevation_step_ self')
    /\ std_sort comp az_models ≡ₚ az_models
    /\ std_sort comp el_models ≡ₚ el_models
    /\ (Forall (fun m => isnan (snd m) = false) az_models ->
        step_sorted (std_sort comp az_models))
    /\ (Forall (fun m => isnan (snd m) = false) el_models ->
        step_sorted (std_sort comp el_models)).
Proof.
  intros Hrun.
  destruct (fit_robust_inv shuffle cloud self self' true log Hrun)
    as (x_begin & valid & az & el & Hit & Hvalid & Hmodels & Hcase).
  destruct Hcase as [(Hb & _)|(_ & _ & _ & ma & me & Hma & Hme & ->)];
    [discriminate Hb|].
  exists x_begin, valid, az, el.
  split; [exact Hit|]. split; [exact Hvalid|]. split; [exact Hmodels|].
  apply middle_inv in Hma, Hme. rewrite std_sort_length in Hma, Hme.
  cbn [fit_robust_model azimuth_start_ azimuth_step_ elevation_start_ elevation_step_].
  rewrite <- !surjective_pairing.
  split; [exact Hma|]. split; [exact Hme|].
  split; [apply std_sort_perm|]. split; [apply std_sort_perm|].
  split; apply std_sort_sorted.
Qed.

(** The valid indices are in one column exactly when the valid points
    are. *)
Lemma all_same_one_column (cloud : PointCloud2) (x_begin : Z) (valid : list Z) :
  (forall v, v ∈ valid <->
     (0 <= v < num_points cloud /\ point_valid cloud x_begin v = true)) ->
  (all_same (col_of cloud) valid <-> one_column cloud x_begin)
  /\ (all_same (row_of cloud) valid <-> one_row cloud x_begin).
Proof.
  intros Hmem. unfold all_same, one_column, one_row.
  split; split.
  - intros Hs i j Hi Hj Hvi Hvj. apply Hs; apply Hmem; split; assumption.
  - intros Hone a b Ha Hb. apply Hmem in Ha as [? ?], Hb as [? ?]. apply Hone; assumption.
  - intros Hs i j Hi Hj Hvi Hvj. apply Hs; apply Hmem; split; assumption.
  - intros Hone a b Ha Hb. apply Hmem in Ha as [? ?], Hb as [? ?]. apply Hone; assumption.
Qed.

(** On a buffer it can read, [fit_robust] fails exactly when the valid
    points do not span two columns and two rows: when they all lie in one
    column or all lie in one row (fewer than two valid points included),
    whatever the shuffle. *)
Theorem fit_robust_fails_iff_degenerate (shuffle : list Z -> list Z)
    (cloud : PointCloud2) (x_begin : Z) (self : SphericalProjection) :
  cloud_ok cloud x_begin ->
  (forall l, shuffle l ≡ₚ l) ->
  exists b self' log,
    fit_robust shuffle cloud self = Ret (b, self', log)
    /\ (b = false <-> (one_column cloud x_begin \/ one_row cloud x_begin)).
Proof.
  intros Hok Hperm.
  destruct (fit_robust_run shuffle cloud x_begin self Hok Hperm)
    as (valid & az & el & _ & Hmem & _ & Haz & Hel & Hfalse & Htrue).
  destruct (all_same_one_column cloud x_begin valid Hmem) as [Hc Hr].
  rewrite Hc in Haz. rewrite Hr in Hel.
  destruct (decide (az = [])) as [Ha|Ha].
  { exists false, self, []. split; [apply Hfalse; auto|].
    split; [|reflexivity]. intros _. left. apply Haz, Ha. }
  destruct (decide (el = [])) as [He|He].
  { exists false, self, []. split; [apply Hfalse; auto|].
    split; [|reflexivity]. intros _. right. apply Hel, He. }
  destruct (Htrue Ha He) as (ma & me & log & _ & _ & Hrun).
  eexists true, _, log. split; [exact Hrun|].
  split; [discriminate|].
  intros [Hone|Hone]; [apply Haz in Hone | apply Hel in Hone]; contradiction.
Qed.

(** A fit that returns true has set the extent of the model to the extent
    of the buffer. *)
Theorem successful_fit_sets_extent (shuffle : list Z -> list Z) (cloud : PointCloud2)
    (self self' : SphericalProjection) (log : list LogRecord) :
  (fit_fast cloud self = Ret (true, self', log) \/
   fit_robust shuffle cloud self = Ret (true, self', log)) ->
  height_ self' = height cloud /\ width_ self' = width cloud.
Proof.
  intros [Hrun|Hrun].
  - destruct (fit_fast_inv cloud self self' true log Hrun)
      as (x_begin & e & _ & _ & [(Hb & _)|(_ & _ & Hh & Hw)]);
      [discriminate Hb | split; assumption].
  - destruct (fit_robust_inv shuffle cloud self self' true log Hrun)
      as (x_begin & valid & az & el & _ & _ & _ &
          [(Hb & _)|(_ & _ & _ & ma & me & _ & _ & ->)]);
      [discriminate Hb | split; reflexivity].
Qed.

(** [fit_robust] reads [shuffle] on the list of valid indices only. *)
Lemma fit_robust_ext (s1 s2 : list Z -> list Z) (cloud : PointCloud2) (x_begin : Z)
    (self : SphericalProjection) (valid : list Z) :
  cloud_ok cloud x_begin ->
  collect_valid cloud x_begin (Z.to_nat (num_points cloud)) 0 [] = Ret valid ->
  s1 valid = s2 valid ->
  fit_robust s1 cloud self = fit_robust s2 cloud self.
Proof.
  intros Hok Hvalid Heq.
  destruct (asserts_ok cloud x_begin Hok) as [Hah Haw].
  unfold fit_robust, m_bind, m_assert, m_lift.
  rewrite Hah, Haw. cbn [obind].
  rewrite (iterator_ok cloud x_begin Hok). cbn [obind].
  rewrite (n_points_of_ok cloud x_begin Hok).
  destruct (vector_reserve (num_points cloud)) as [[]| | |]; cbn [obind];
    try reflexivity.
  rewrite Hvalid. cbn [obind].
  rewrite Heq. reflexivity.
Qed.

(** C9 (as amended). [fit_robust] takes the buffer only: the generator
    that shuffles is made and seeded inside the call. On a buffer it can
    read, two runs return the same boolean whatever their shuffles, and the
    same model and log records when their shuffles leave the valid indices
    in the same order. *)
Theorem fit_robust_runs_agree (s1 s2 : list Z -> list Z) (cloud : PointCloud2)
    (x_begin : Z) (self : SphericalProjection) :
  cloud_ok cloud x_begin ->
  (forall l, s1 l ≡ₚ l) -> (forall l, s2 l ≡ₚ l) ->
  exists valid b self1 log1 self2 log2,
    collect_valid cloud x_begin (Z.to_nat (num_points cloud)) 0 [] = Ret valid
    /\ fit_robust s1 cloud self = Ret (b, self1, log1)
    /\ fit_robust s2 cloud self = Ret (b, self2, log2)
    /\ (s1 valid = s2 valid -> self1 = self2 /\ log1 = log2).
Proof.
  intros Hok Hp1 Hp2.
  destruct (fit_robust_run s1 cloud x_begin self Hok Hp1)
    as (valid & az1 & el1 & Hvalid & _ & _ & Haz1 & Hel1 & Hfalse1 & Htrue1).
  destruct (fit_robust_run s2 cloud x_begin self Hok Hp2)
    as (valid2 & az2 & el2 & Hvalid2 & _ & _ & Haz2 & Hel2 & Hfalse2 & Htrue2).
  assert (valid2 = valid) as -> by congruence.
  exists valid.
  assert (Hagree : forall b m1 l1 m2 l2,
            fit_robust s1 cloud self = Ret (b, m1, l1) ->
            fit_robust s2 cloud self = Ret (b, m2, l2) ->
            s1 valid = s2 valid -> m1 = m2 /\ l1 = l2).
  { intros b m1 l1 m2 l2 H1 H2 Heq.
    rewrite (fit_robust_ext s1 s2 cloud x_begin self valid Hok Hvalid Heq) in H1.
    rewrite H1 in H2. injection H2 as -> ->. split; reflexivity. }
  destruct (decide (az1 = [])) as [Ha|Ha].
  - exists false, self, [], self, [].
    split; [exact Hvalid|].
    assert (H1 : fit_robust s1 cloud self = Ret (false, self, [])) by (apply Hfalse1; auto).
    assert (H2 : fit_robust s2 cloud self = Ret (false, self, [])).
    { apply Hfalse2. left. apply Haz2, Haz1, Ha. }
    split; [exact H1|]. split; [exact H2|]. intros _. split; reflexivity.
  - destruct (decide (el1 = [])) as [He|He].
    + exists false, self, [], self, [].
      split; [exact Hvalid|].
      assert (H1 : fit_robust s1 cloud self = Ret (false, self, []))
        by (apply Hfalse1; auto).
      assert (H2 : fit_robust s2 cloud self = Ret (false, self, [])).
      { apply Hfalse2. right. apply Hel2, Hel1, He. }
      split; [exact H1|]. split; [exact H2|]. intros _. split; reflexivity.
    + destruct (Htrue1 Ha He) as (ma1 & me1 & log1 & _ & _ & H1).
      assert (Ha2 : az2 <> []) by (intros Hn; apply Ha, Haz1, Haz2, Hn).
      assert (He2 : el2 <> []) by (intros Hn; apply He, Hel1, Hel2, Hn).
      destruct (Htrue2 Ha2 He2) as (ma2 & me2 & log2 & _ & _ & H2).
      eexists true, _, log1, _, log2.
      split; [exact Hvalid|]. split; [exact H1|]. split; [exact H2|].
      apply (Hagree true _ _ _ _ H1 H2).
Qed.

End Fits.

(* ================================================================== *)
(** * check *)
(* ================================================================== *)

Section Check.
Context {ext : Extern}.

(** The body of the loops returns for a point of the buffer. *)
Lemma check_point_ok (cloud : PointCloud2) (x_begin : Z) (self : SphericalProjection)
    (r c : Z) (k : Z) (acc : Double * Z) :
  cloud_ok cloud x_begin -> 0 <= k < num_points cloud ->
  exists acc', check_point cloud self r c (it_add cloud x_begin k) acc = Ret acc'.
Proof.
  intros Hok Hk. unfold check_point.
  rewrite (finite_at_ok cloud x_begin k Hok Hk). cbn [obind].
  destruct (point_valid cloud x_begin k); cbn [negb]; [|eexists; reflexivity].
  rewrite (xyz_at_ok cloud x_begin k Hok Hk). cbn [obind].
  destruct (project self _ _ _) as [r_model c_model].
  destruct (_ && _); [eexists; reflexivity|].
  destruct (isfinite _); eexists; reflexivity.
Qed.

Lemma it_add_next (cloud : PointCloud2) (x_begin : Z) (k : Z) :
  it_add cloud (it_add cloud x_begin k) 1 = it_add cloud x_begin (k + 1).
Proof. unfold it_add. lia. Qed.

Lemma check_row_ok (cloud : PointCloud2) (x_begin : Z) (self : SphericalProjection)
    (r : Z) :
  cloud_ok cloud x_begin ->
  forall (n : nat) (c k : Z) (acc : Double * Z),
  0 <= k -> k + Z.of_nat n <= num_points cloud ->
  exists acc',
    check_row cloud self r n c (it_add cloud x_begin k) acc
    = Ret (it_add cloud x_begin (k + Z.of_nat n), acc').
Proof.
  intros Hok. induction n as [|n IH]; intros c k acc Hk Hn.
  - exists acc. cbn [check_row]. rewrite Z.add_0_r. reflexivity.
  - cbn [check_row].
    destruct (check_point_ok cloud x_begin self r c k acc Hok) as (acc1 & Hpt); [lia|].
    rewrite Hpt. cbn [obind]. rewrite it_add_next.
    destruct (IH (c + 1) (k + 1) acc1) as (acc' & Hrow); [lia | lia |].
    exists acc'. rewrite Hrow.
    replace (k + Z.of_nat (S n)) with (k + 1 + Z.of_nat n) by lia. reflexivity.
Qed.

Lemma check_rows_ok (cloud : PointCloud2) (x_begin : Z) (self : SphericalProjection) :
  cloud_ok cloud x_begin -> width_ self = width cloud ->
  forall (n : nat) (r k : Z) (acc : Double * Z),
  0 <= k -> k + Z.of_nat n * width cloud <= num_points cloud ->
  exists acc', check_rows cloud self n r (it_add cloud x_begin k) acc = Ret acc'.
Proof.
  intros Hok Hw. induction n as [|n IH]; intros r k acc Hk Hn.
  - exists acc. reflexivity.
  - cbn [check_rows]. rewrite Hw.
    assert (Hwpos : 1 <= width cloud) by (destruct Hok as [_ Hwd _ _ _ _]; lia).
    destruct (check_row_ok cloud x_begin self r Hok (Z.to_nat (width cloud)) 0 k acc)
      as (acc1 & Hrow); [lia | nia |].
    rewrite Hrow. cbn [obind].
    apply IH; nia.
Qed.

(** C8. Whenever [check] returns, it returns true and the object is as it
    was before the call. On a buffer it can read whose height and width
    are those of the model it does return, and all it does besides is log
    one record, the mean angular error. *)
Theorem check_returns_true (cloud : PointCloud2) (x_begin : Z)
    (self : SphericalProjection) :
  (forall b self' log, check cloud self = Ret (b, self', log) -> b = true /\ self' = self)
  /\ (cloud_ok cloud x_begin ->
      height_ self = height cloud -> width_ self = width cloud ->
      exists r, check cloud self = Ret (true, self, [r]) /\ mean_error_record r).
Proof.
  split.
  - intros b self' log. unfold check, m_bind, m_get, m_assert, m_lift, m_log, m_ret.
    cbn [obind]. intros Hrun.
    destruct (NDEBUG || (height_ self =? height cloud)); [|discriminate Hrun].
    cbn [obind] in Hrun.
    destruct (NDEBUG || (width_ self =? width cloud)); [|discriminate Hrun].
    cbn [obind] in Hrun.
    destruct (negb (height cloud =? height_ self) || negb (width cloud =? width_ self));
      cbn [obind] in Hrun;
      (destruct (PointCloud2ConstIterator cloud "x") as [x_it| | |];
         try discriminate Hrun; cbn [obind] in Hrun;
       destruct (check_rows cloud self (Z.to_nat (height_ self)) 0 x_it (F64.of_int 0, 0))
         as [[residual_sum n]| | |]; try discriminate Hrun; cbn [obind] in Hrun;
       destruct (F64.ltb _ _); cbn [obind] in Hrun;
       injection Hrun as <- <- _; split; reflexivity).
  - intros Hok Hh Hw.
    assert (Hhpos : 1 <= height cloud) by (destruct Hok as [Hhd _ _ _ _ _]; lia).
    destruct (check_rows_ok cloud x_begin self Hok Hw (Z.to_nat (height_ self)) 0 0
                (F64.of_int 0, 0)) as ([residual_sum n] & Hrows).
    { lia. }
    { rewrite Hh. unfold num_points. lia. }
    unfold check, m_bind, m_get, m_assert, m_lift, m_log, m_ret. cbn [obind].
    rewrite Hh, Hw, !Z.eqb_refl, !orb_true_r. cbn [obind negb orb].
    rewrite (iterator_ok cloud x_begin Hok). cbn [obind].
    assert (Hit0 : it_add cloud x_begin 0 = x_begin) by (unfold it_add; lia).
    rewrite Hh, Hit0 in Hrows. rewrite Hrows. cbn [obind].
    destruct (F64.ltb _ _); cbn [obind app]; eexists; (split; [reflexivity|]);
      (split; [reflexivity|]); (split; [auto|]); eexists; reflexivity.
Qed.

End Check.

(* ================================================================== *)
(** * project after unproject *)
(* ================================================================== *)

Section RoundTrip.
Context {ext : Extern}.



End RoundTrip.



(* ================================================================== *)
(** * std::shuffle permutes *)
(* ================================================================== *)

Lemma swap_perm {A : Type} (l : list A) (i j : nat) : swap l i j ≡ₚ l.
Proof.
  unfold swap.
  destruct (l !! i) as [a|] eqn:Hi; [|reflexivity].
  destruct (l !! j) as [b|] eqn:Hj; [|reflexivity].
  apply Permutation_insert_swap; assumption.
Qed.

Lemma std_shuffle_perm {A : Type} (draws : nat -> nat) (l : list A) :
  std_shuffle draws l ≡ₚ l.
Proof.
  unfold std_shuffle. generalize (seq 1 (length l - 1)). intros steps.
  revert l. induction steps as [|i steps IH]; intros l; cbn [fold_left].
  - reflexivity.
  - rewrite IH. apply swap_perm.
Qed.

(* ================================================================== *)
(** * The theorems on concrete buffers *)
(* ================================================================== *)

Section Examples.
Import Fixtures.
#[local] Existing Instance axis_extern.

Lemma xyz_cloud_ok (bytes : list byte) :
  length bytes = 48%nat -> cloud_ok (xyz_cloud 2 2 bytes) 0.
Proof.
  intros Hlen. constructor.
  - change (height (xyz_cloud 2 2 bytes)) with 2. lia.
  - change (width (xyz_cloud 2 2 bytes)) with 2. lia.
  - eexists. split; reflexivity.
  - change (point_step (xyz_cloud 2 2 bytes)) with 12. lia.
  - change (num_points (xyz_cloud 2 2 bytes)) with 4.
    change (point_step (xyz_cloud 2 2 bytes)) with 12.
    change (data (xyz_cloud 2 2 bytes)) with bytes. rewrite Hlen. lia.
  - change (num_points (xyz_cloud 2 2 bytes)) with 4. unfold INT_MAX. lia.
Qed.

Lemma four_points (i : Z) : 0 <= i < 4 -> i = 0 \/ i = 1 \/ i = 2 \/ i = 3.
Proof. lia. Qed.

Lemma nan_cloud_no_valid_point : no_valid_point nan_cloud 0.
Proof.
  intros i Hi. change (num_points nan_cloud) with 4 in Hi.
  destruct (four_points i Hi) as [-> | [-> | [-> | ->]]]; vm_compute; reflexivity.
Qed.

Lemma column_cloud_one_column : one_column column_cloud 0.
Proof.
  intros i j Hi Hj. change (num_points column_cloud) with 4 in Hi, Hj.
  destruct (four_points i Hi) as [-> | [-> | [-> | ->]]];
    destruct (four_points j Hj) as [-> | [-> | [-> | ->]]];
    vm_compute; congruence.
Qed.

(** Which candidate is in the middle depends on the order [std::sort]
    gives to equal steps: of two candidates of one step, a sort that keeps
    their order leaves the second in the middle, and one that reverses it
    the first. *)
Lemma std_sort_tie_order :
  middle (@std_sort axis_extern comp [(f_zero, f_pi); (f_half_pi, f_pi)])
  = Ret (f_half_pi, f_pi)
  /\ middle (@std_sort flip_extern comp [(f_zero, f_pi); (f_half_pi, f_pi)])
     = Ret (f_zero, f_pi).
Proof. split; vm_compute; reflexivity. Qed.

(** C1 on the buffer of the axes, the valid indices left in storage order:
    the azimuth step is the middle one of three candidates. *)
Lemma fit_robust_takes_median_witness :
  exists self' log az_models,
    fit_robust (fun valid => valid) axes_cloud model0 = Ret (true, self', log)
    /\ length az_models = 3%nat
    /\ std_sort comp az_models !! 1%nat = Some (f_zero, f_half_pi)
    /\ azimuth_step_ self' = f_half_pi.
Proof.
  assert (exists self' log,
            fit_robust (fun valid => valid) axes_cloud model0 = Ret (true, self', log))
    as (self' & log & Hrun).
  { eexists _, _. vm_compute. reflexivity. }
  destruct (fit_robust_takes_median (fun valid => valid) axes_cloud model0 self' log Hrun)
    as (x_begin & valid & az & el & Hit & Hvalid & Hmodels & Haz & _).
  injection Hit as <-.
  vm_compute in Hvalid. injection Hvalid as <-.
  vm_compute in Hmodels. injection Hmodels as <- <-.
  match type of Haz with
  | std_sort comp ?l !! _ = _ => exists self', log, l
  end.
  split; [exact Hrun|]. split; [reflexivity|].
  vm_compute in Haz. injection Haz as Hstart Hstep.
  split; [vm_compute; reflexivity|]. symmetry. exact Hstep.
Defined.

(** C5 on the buffer without valid points. *)
Lemma fit_returns_false_iff_witness :
  fit_fast nan_cloud model0 = Ret (false, model0, [])
  /\ fit_robust (std_shuffle draws_a) nan_cloud model0 = Ret (false, model0, []).
Proof.
  destruct (fit_returns_false_iff (std_shuffle draws_a) nan_cloud 0 model0)
    as (_ & _ & Hnan & _).
  - apply xyz_cloud_ok. reflexivity.
  - apply std_shuffle_perm.
  - apply Hnan, nan_cloud_no_valid_point.
Defined.

(** C5, as stated, fails: in the buffer with the fields x, intensity, y
    and z the z of both points is NaN, so no point has a finite position;
    the floats after x that [fit_fast] reads are the intensity and y,
    which are finite, and it returns true. *)
Lemma fit_fast_reads_after_x :
  cloud_ok spread_cloud 0
  /\ (forall i, 0 <= i < num_points spread_cloud ->
        position_finite spread_cloud i = false)
  /\ exists self' log, fit_fast spread_cloud model0 = Ret (true, self', log).
Proof.
  split; [|split].
  - constructor.
    + change (height spread_cloud) with 1. lia.
    + change (width spread_cloud) with 2. lia.
    + eexists. split; reflexivity.
    + change (point_step spread_cloud) with 16. lia.
    + vm_compute. congruence.
    + vm_compute. congruence.
  - intros i Hi. change (num_points spread_cloud) with 2 in Hi.
    assert (Hcase : i = 0 \/ i = 1) by lia.
    destruct Hcase as [-> | ->]; vm_compute; reflexivity.
  - eexists _, _. vm_compute. reflexivity.
Qed.

(** C6 on the buffer without valid points. *)
Lemma failed_fit_keeps_model_witness :
  exists self' log,
    fit_fast nan_cloud model0 = Ret (false, self', log) /\ self' = model0.
Proof.
  assert (exists self' log, fit_fast nan_cloud model0 = Ret (false, self', log))
    as (self' & log & Hrun).
  { eexists _, _. vm_compute. reflexivity. }
  exists self', log. split; [exact Hrun|].
  apply (proj1 (failed_fit_keeps_model (fun valid => valid) nan_cloud model0 self' log)).
  exact Hrun.
Defined.

(** C8 on the buffer of the axes and a model of its size. *)
Lemma check_returns_true_witness :
  let model := {| azimuth_start_ := f_zero; azimuth_step_ := f_half_pi;
                  elevation_start_ := f_zero; elevation_step_ := f_half_pi;
                  height_ := 2; width_ := 2 |} in
  exists r, check axes_cloud model = Ret (true, model, [r]).
Proof.
  intros model.
  destruct (check_returns_true axes_cloud 0 model) as [_ Hret].
  destruct Hret as (r & Hrun & _).
  - apply xyz_cloud_ok. reflexivity.
  - reflexivity.
  - reflexivity.
  - exists r. exact Hrun.
Defined.

(** C9, as stated, fails: two runs on the buffer of the axes in which the
    generator gives different numbers return different azimuth steps
    (pi/2 and pi, which are no tie of the sort), and the caller has no
    argument to make the runs the same. *)
Lemma fit_robust_not_reproducible :
  exists self1 log1 self2 log2,
    fit_robust (std_shuffle draws_a) axes_cloud model0 = Ret (true, self1, log1)
    /\ fit_robust (std_shuffle draws_b) axes_cloud model0 = Ret (true, self2, log2)
    /\ azimuth_step_ self1 = f_half_pi
    /\ azimuth_step_ self2 = f_pi
    /\ azimuth_step_ self1 <> azimuth_step_ self2.
Proof.
  eexists _, _, _, _.
  split; [vm_compute; reflexivity|].
  split; [vm_compute; reflexivity|].
  split; [vm_compute; reflexivity|].
  split; [vm_compute; reflexivity|].
  vm_compute. congruence.
Qed.

(** The amended C9 on the same two runs: the same boolean. *)
Lemma fit_robust_runs_agree_witness :
  exists b self1 log1 self2 log2,
    fit_robust (std_shuffle draws_a) axes_cloud model0 = Ret (b, self1, log1)
    /\ fit_robust (std_shuffle draws_b) axes_cloud model0 = Ret (b, self2, log2).
Proof.
  destruct (fit_robust_runs_agree (std_shuffle draws_a) (std_shuffle draws_b)
              axes_cloud 0 model0)
    as (valid & b & self1 & log1 & self2 & log2 & _ & H1 & H2 & _).
  - apply xyz_cloud_ok. reflexivity.
  - apply std_shuffle_perm.
  - apply std_shuffle_perm.
  - exists b, self1, log1, self2, log2. split; assumption.
Defined.

(** [fit_robust] on the buffer whose valid points are in column 0: it
    fails. *)
Lemma fit_robust_fails_iff_degenerate_witness :
  exists self' log,
    fit_robust (std_shuffle draws_a) column_cloud model0 = Ret (false, self', log).
Proof.
  destruct (fit_robust_fails_iff_degenerate (std_shuffle draws_a) column_cloud 0 model0)
    as (b & self' & log & Hrun & Hiff).
  - apply xyz_cloud_ok. reflexivity.
  - apply std_shuffle_perm.
  - assert (Hb : b = false) by (apply Hiff; left; apply column_cloud_one_column).
    subst b. exists self', log. exact Hrun.
Defined.

(** The extent after [fit_fast] on the buffer of the axes. *)
Lemma successful_fit_sets_extent_witness :
  exists self' log,
    fit_fast axes_cloud model0 = Ret (true, self', log)
    /\ height_ self' = 2 /\ width_ self' = 2.
Proof.
  assert (exists self' log, fit_fast axes_cloud model0 = Ret (true, self', log))
    as (self' & log & Hrun).
  { eexists _, _. vm_compute. reflexivity. }
  exists self', log. split; [exact Hrun|].
  apply (successful_fit_sets_extent (fun valid => valid) axes_cloud model0 self' log).
  left. exact Hrun.
Defined.


End Examples.

(* ================================================================== *)
(** * Looking fields up *)
(* ================================================================== *)

Lemma find_first {A : Type} (p : A -> bool) (l : list A) :
  (forall x, List.find p l = Some x <->
     exists l1 l2, l = l1 ++ x :: l2 /\ p x = true /\ Forall (fun y => p y = false) l1)
  /\ (List.find p l = None <-> Forall (fun y => p y = false) l).
Proof.
  induction l as [|a l [IHs IHn]]; cbn [List.find].
  - split.
    + intros x. split; [discriminate|].
      intros (l1 & l2 & Heq & _). destruct l1; discriminate Heq.
    + split; [constructor | reflexivity].
  - destruct (p a) eqn:Hpa.
    + split.
      * intros x. split.
        -- intros [= <-]. exists [], l. repeat split; [exact Hpa | constructor].
        -- intros (l1 & l2 & Heq & Hx & Hl1).
           destruct l1 as [|b l1]; cbn in Heq.
           ++ congruence.
           ++ injection Heq as <- _. apply Forall_cons in Hl1 as [Hb _]. congruence.
      * split; [discriminate|].
        intros Hall. apply Forall_cons in Hall as [Ha _]. congruence.
    + split.
      * intros x. rewrite IHs. split.
        -- intros (l1 & l2 & -> & Hx & Hl1).
           exists (a :: l1), l2. repeat split; [exact Hx | constructor; assumption].
        -- intros (l1 & l2 & Heq & Hx & Hl1).
           destruct l1 as [|b l1]; cbn in Heq.
           ++ injection Heq as -> _. congruence.
           ++ injection Heq as <- ->. apply Forall_cons in Hl1 as [_ Hl1].
              exists l1, l2. repeat split; assumption.
      * rewrite IHn. split.
        -- intros Hall. constructor; assumption.
        -- intros Hall. apply Forall_cons in Hall as [_ Hall]. exact Hall.
Qed.

Lemma find_snoc {A : Type} (p : A -> bool) (l : list A) (a : A) :
  List.find p (l ++ [a]) =
  match List.find p l with
  | Some x => Some x
  | None => if p a then Some a else None
  end.
Proof.
  induction l as [|b l IH]; cbn [List.find app].
  - reflexivity.
  - destruct (p b); [reflexivity | exact IH].
Qed.

(** A name that the buffer has keeps its field when a field is appended. *)
Lemma find_field_append_old (T : Datatype) (n : string) (cnt : Z) (cloud : PointCloud2)
    (m : string) (f : PointField) :
  find_field cloud m = Some f -> find_field (append_field T n cnt cloud) m = Some f.
Proof.
  unfold find_field. cbn [fields append_field]. intros Hf.
  rewrite find_snoc, Hf. reflexivity.
Qed.

(** A name that the buffer does not have is found after it is appended. *)
Lemma find_field_append_new (T : Datatype) (n : string) (cnt : Z) (cloud : PointCloud2) :
  find_field cloud n = None ->
  find_field (append_field T n cnt cloud) n
  = Some {| name := n; offset := point_step cloud; datatype := T; count := cnt |}.
Proof.
  unfold find_field. cbn [fields append_field]. intros Hf.
  rewrite find_snoc, Hf. cbn [name]. rewrite String.eqb_refl. reflexivity.
Qed.

Lemma find_field_append_other (T : Datatype) (n : string) (cnt : Z) (cloud : PointCloud2)
    (m : string) :
  n <> m -> find_field cloud m = None ->
  find_field (append_field T n cnt cloud) m = None.
Proof.
  unfold find_field. cbn [fields append_field]. intros Hne Hf.
  rewrite find_snoc, Hf. cbn [name].
  destruct (String.eqb_spec n m) as [Heq|_]; [contradiction | reflexivity].
Qed.

(** X3. [find_field] returns the first field of the given name, and
    nothing exactly when no field has that name. *)
Theorem find_field_first_match (cloud : PointCloud2) (n : string) :
  (forall f, find_field cloud n = Some f <->
     exists before after,
       fields cloud = before ++ f :: after
       /\ name f = n
       /\ Forall (fun g => name g <> n) before)
  /\ (find_field cloud n = None <-> Forall (fun g => name g <> n) (fields cloud)).
Proof.
  unfold find_field.
  destruct (find_first (fun f => String.eqb (name f) n) (fields cloud)) as [Hs Hn].
  assert (Hneq : forall l, Forall (fun g => String.eqb (name g) n = false) l
                           <-> Forall (fun g => name g <> n) l).
  { intros l. apply Forall_iff. intros g. apply String.eqb_neq. }
  split.
  - intros f. rewrite Hs. split.
    + intros (l1 & l2 & Heq & Hf & Hl1). exists l1, l2.
      split; [exact Heq|]. split; [apply String.eqb_eq, Hf | apply Hneq, Hl1].
    + intros (l1 & l2 & Heq & Hf & Hl1). exists l1, l2.
      split; [exact Heq|]. split; [apply String.eqb_eq, Hf | apply Hneq, Hl1].
  - rewrite Hn. apply Hneq.
Qed.

(** X4. Looking a name up after [append_field]: a field that was there is
    still the one that is found, also when the appended field has the same
    name; a name that was not there is found only if it is the appended
    one, at the stride before the call. *)
Theorem find_field_after_append (T : Datatype) (n : string) (cnt : Z)
    (cloud : PointCloud2) (m : string) :
  find_field (append_field T n cnt cloud) m =
  match find_field cloud m with
  | Some f => Some f
  | None =>
      if String.eqb n m
      then Some {| name := n; offset := point_step cloud; datatype := T; count := cnt |}
      else None
  end.
Proof.
  destruct (find_field cloud m) as [f|] eqn:Hf.
  - apply find_field_append_old, Hf.
  - destruct (String.eqb_spec n m) as [<-|Hne].
    + apply find_field_append_new, Hf.
    + apply find_field_append_other; assumption.
Qed.

(* ================================================================== *)
(** * The layout the helpers give *)
(* ================================================================== *)

Lemma total_size_take_S (decls : list FieldDecl) (k : nat) (d : FieldDecl) :
  decls !! k = Some d ->
  total_size (take (S k) decls) = total_size (take k decls) + decl_size d.
Proof.
  intros Hk. rewrite (take_S_r decls k d Hk). apply total_size_snoc.
Qed.

Lemma total_size_take_mono (decls : list FieldDecl) (j k : nat) :
  Forall (fun d => 0 <= decl_size d) decls -> (j <= k)%nat ->
  total_size (take j decls) <= total_size (take k decls).
Proof.
  intros Hpos Hjk.
  replace (take j decls) with (take j (take k decls))
    by (rewrite take_take; f_equal; lia).
  apply total_size_take_le. apply Forall_take, Hpos.
Qed.

(** The stride after appending to any buffer. *)
Lemma append_fields_step_from (decls : list FieldDecl) (cloud : PointCloud2) :
  point_step (append_fields decls cloud) = 
  match decls with
  | [] => point_step cloud
  | _ => wrap32 (point_step cloud + total_size decls)
  end.
Proof.
  induction decls as [|d decls IH] using rev_ind.
  - reflexivity.
  - rewrite append_fields_snoc, total_size_snoc.
    destruct d as [[T n] cnt]. cbn [append_field point_step decl_size].
    rewrite IH.
    destruct decls as [|d' decls]; cbn [app].
    + cbn [total_size fold_right]. f_equal; lia.
    + rewrite wrap32_add_l. f_equal; lia.
Qed.

Lemma append_fields_names (decls : list FieldDecl) (cloud : PointCloud2) :
  name <$> fields (append_fields decls cloud)
  = (name <$> fields cloud) ++ ((fun d : FieldDecl => snd (fst d)) <$> decls).
Proof.
  induction decls as [|d decls IH] using rev_ind.
  - cbn. rewrite app_nil_r. reflexivity.
  - rewrite append_fields_snoc. destruct d as [[T n] cnt].
    cbn [append_field fields]. rewrite !fmap_app, IH, <- app_assoc. reflexivity.
Qed.

Section Layout.
Context {ext : Extern}.

(** X5. On a buffer without fields x, y and z, [append_position_fields<T>]
    puts x at the stride the buffer had, y and z one and two elements
    further, and raises the stride by three elements; for [float] the
    second and third float at an iterator over x are the y and the z of the
    point. *)
Theorem position_fields_layout (T : Datatype) (cloud : PointCloud2) :
  find_field cloud "x" = None -> find_field cloud "y" = None ->
  find_field cloud "z" = None ->
  0 <= point_step cloud -> point_step cloud + 3 * value_size T < 2 ^ 32 ->
  let c := append_position_fields T cloud in
  let x_it := point_step cloud in
  let y_it := point_step cloud + value_size T in
  let z_it := point_step cloud + 2 * value_size T in
  PointCloud2ConstIterator c "x" = Ret x_it
  /\ PointCloud2ConstIterator c "y" = Ret y_it
  /\ PointCloud2ConstIterator c "z" = Ret z_it
  /\ point_step c = point_step cloud + 3 * value_size T
  /\ (T = FLOAT32 -> forall i,
        it_get c (it_add c x_it i) 1 = it_get c (it_add c y_it i) 0
        /\ it_get c (it_add c x_it i) 2 = it_get c (it_add c z_it i) 0).
Proof.
  intros Hx Hy Hz Hps Hfit c x_it y_it z_it.
  assert (Hs : 1 <= value_size T) by (destruct T; cbn; lia).
  set (c1 := append_field T "x" 1 cloud).
  set (c2 := append_field T "y" 1 c1).
  assert (Hp1 : point_step c1 = point_step cloud + value_size T).
  { subst c1. cbn [append_field point_step]. rewrite wrap32_small; lia. }
  assert (Hp2 : point_step c2 = point_step cloud + 2 * value_size T).
  { subst c2. cbn [append_field point_step]. fold c1. rewrite Hp1, wrap32_small; lia. }
  assert (Hp3 : point_step c = point_step cloud + 3 * value_size T).
  { subst c. unfold append_position_fields. fold c1. fold c2.
    cbn [append_field point_step]. rewrite Hp2, wrap32_small; lia. }
  assert (Hfx : find_field c "x"
                = Some {| name := "x"; offset := x_it; datatype := T; count := 1 |}).
  { subst c. unfold append_position_fields.
    do 2 apply find_field_append_old. apply find_field_append_new, Hx. }
  assert (Hfy : find_field c "y"
                = Some {| name := "y"; offset := y_it; datatype := T; count := 1 |}).
  { subst c. unfold append_position_fields. fold c1.
    apply find_field_append_old.
    rewrite find_field_append_new.
    - rewrite Hp1. reflexivity.
    - apply find_field_append_other; [discriminate | exact Hy]. }
  assert (Hfz : find_field c "z"
                = Some {| name := "z"; offset := z_it; datatype := T; count := 1 |}).
  { subst c. unfold append_position_fields. fold c1. fold c2.
    rewrite find_field_append_new.
    - rewrite Hp2. reflexivity.
    - apply find_field_append_other; [discriminate|].
      apply find_field_append_other; [discriminate | exact Hz]. }
  unfold PointCloud2ConstIterator. rewrite Hfx, Hfy, Hfz. cbn [offset].
  repeat split; try exact Hp3.
  - unfold it_get, it_add. subst y_it x_it. subst T. cbn [value_size]. f_equal. lia.
  - unfold it_get, it_add. subst z_it x_it. subst T. cbn [value_size]. f_equal. lia.
Qed.

End Layout.

(** X6. The other helpers on a buffer with room for their fields: the
    normal takes three elements, the occupancy 2 bytes, the traversability
    8 bytes and the planning costs 12 bytes of every record, and each puts
    its fields after the ones the buffer has. *)
Theorem helper_fields_sizes (T : Datatype) (cloud : PointCloud2) :
  0 <= point_step cloud -> point_step cloud + 24 < 2 ^ 32 ->
  (point_step (append_normal_fields T cloud) = point_step cloud + 3 * value_size T
   /\ name <$> fields (append_normal_fields T cloud)
      = (name <$> fields cloud) ++ ["nx"; "ny"; "nz"])
  /\ (point_step (append_occupancy_fields cloud) = point_step cloud + 2
      /\ name <$> fields (append_occupancy_fields cloud)
         = (name <$> fields cloud) ++ ["seen_thru"; "hit"])
  /\ (point_step (append_traversability_fields cloud) = point_step cloud + 8
      /\ name <$> fields (append_traversability_fields cloud)
         = (name <$> fields cloud)
           ++ ["normal_pts"; "obs_pts"; "gnd_diff_std"; "gnd_diff_min"; "gnd_diff_max";
               "gnd_abs_diff_mean"; "nz_lbl"; "final_lbl"])
  /\ (point_step (append_planning_fields cloud) = point_step cloud + 12
      /\ name <$> fields (append_planning_fields cloud)
         = (name <$> fields cloud) ++ ["path_cost"; "utility"; "final_cost"]).
Proof.
  intros Hps Hfit.
  assert (Hs : 1 <= value_size T <= 8) by (destruct T; cbn; lia).
  change (append_normal_fields T cloud)
    with (append_fields [(T, "nx", 1); (T, "ny", 1); (T, "nz", 1)] cloud).
  change (append_occupancy_fields cloud)
    with (append_fields [(UINT8, "seen_thru", 1); (UINT8, "hit", 1)] cloud).
  change (append_traversability_fields cloud)
    with (append_fields [(UINT8, "normal_pts", 1); (UINT8, "obs_pts", 1);
                         (UINT8, "gnd_diff_std", 1); (INT8, "gnd_diff_min", 1);
                         (INT8, "gnd_diff_max", 1); (UINT8, "gnd_abs_diff_mean", 1);
                         (UINT8, "nz_lbl", 1); (UINT8, "final_lbl", 1)] cloud).
  change (append_planning_fields cloud)
    with (append_fields [(FLOAT32, "path_cost", 1); (FLOAT32, "utility", 1);
                         (FLOAT32, "final_cost", 1)] cloud).
  rewrite !append_fields_step_from, !append_fields_names.
  cbn [total_size fold_right decl_size value_size fmap list_fmap fst snd].
  repeat split; rewrite wrap32_small; lia.
Qed.

(** X7. The fields appended after [reset_fields] do not overlap: when no
    count is negative and the sizes add up to less than 2^32, every field
    ends where the next one begins or before, and the last one ends inside
    the record. *)
Theorem appended_fields_disjoint (decls : list FieldDecl) (cloud : PointCloud2) :
  Forall (fun d => 0 <= decl_size d) decls ->
  total_size decls < 2 ^ 32 ->
  let schema := append_fields decls (reset_fields cloud) in
  (forall k f, fields schema !! k = Some f ->
     0 <= offset f /\ offset f + field_size f <= point_step schema)
  /\ (forall j k f g, (j < k)%nat ->
        fields schema !! j = Some f -> fields schema !! k = Some g ->
        offset f + field_size f <= offset g).
Proof.
  intros Hpos Hlt schema. subst schema.
  pose proof (total_size_nonneg decls Hpos) as Htot.
  assert (Hfield : forall k f,
            fields (append_fields decls (reset_fields cloud)) !! k = Some f ->
            exists d, decls !! k = Some d
              /\ offset f = total_size (take k decls)
              /\ field_size f = decl_size d).
  { intros k f Hf. rewrite append_fields_fields, list_lookup_imap in Hf.
    destruct (decls !! k) as [[[T n] cnt]|] eqn:Hk; cbn in Hf; [|discriminate].
    injection Hf as <-. exists (T, n, cnt). split; [reflexivity|].
    cbn [offset]. split; [|reflexivity].
    rewrite append_fields_point_step. apply wrap32_small.
    pose proof (total_size_take_le decls k Hpos). lia. }
  rewrite append_fields_point_step, (wrap32_small (total_size decls)) by lia.
  split.
  - intros k f Hf. destruct (Hfield k f Hf) as (d & Hk & -> & ->).
    pose proof (total_size_take_le decls k Hpos).
    pose proof (total_size_take_le decls (S k) Hpos).
    rewrite (total_size_take_S decls k d Hk) in *. lia.
  - intros j k f g Hjk Hf Hg.
    destruct (Hfield j f Hf) as (d & Hj & -> & ->).
    destruct (Hfield k g Hg) as (d' & Hk & -> & _).
    rewrite <- (total_size_take_S decls j d Hj).
    apply total_size_take_mono; [exact Hpos | lia].
Qed.

(* ================================================================== *)
(** * Sizing a buffer *)
(* ================================================================== *)

(** X8. [resize_cloud] sets the row stride to [width * point_step] and the
    number of bytes to [height * row_step], both modulo 2^32; it keeps the
    bytes the buffer had, as far as the new size reaches, and every byte
    after them is zero. When the products fit 32 bits, the bytes are the
    records of [height * width] points. *)
Theorem resize_cloud_layout (cloud : PointCloud2) (h w : Z) :
  let c := resize_cloud cloud h w in
  height c = h /\ width c = w
  /\ fields c = fields cloud /\ point_step c = point_step cloud
  /\ row_step c = wrap32 (w * point_step cloud)
  /\ Z.of_nat (length (data c)) = wrap32 (h * row_step c)
  /\ (forall i, (i < length (data cloud))%nat -> (i < length (data c))%nat ->
        data c !! i = data cloud !! i)
  /\ (forall i, (length (data cloud) <= i < length (data c))%nat ->
        data c !! i = Some x00)
  /\ (0 <= h -> 0 <= w -> 0 <= point_step cloud ->
      w * point_step cloud < 2 ^ 32 -> h * (w * point_step cloud) < 2 ^ 32 ->
      row_step c = width c * point_step c
      /\ Z.of_nat (length (data c)) = num_points c * point_step c).
Proof.
  intros c. subst c. unfold resize_cloud, num_points.
  cbn [height width fields point_step row_step data].
  pose proof (wrap32_range (h * wrap32 (w * point_step cloud))) as Hr.
  repeat split.
  - rewrite length_resize. lia.
  - intros i Hold Hnew. rewrite length_resize in Hnew.
    apply lookup_resize; assumption.
  - intros i [Hold Hnew]. rewrite length_resize in Hnew.
    apply lookup_resize_new; assumption.
  - apply wrap32_small. nia.
  - rewrite length_resize.
    rewrite (wrap32_small (w * point_step cloud)) by nia.
    rewrite wrap32_small by nia. nia.
Qed.

Lemma position_schema (decls : list FieldDecl) (cloud : PointCloud2) :
  append_fields decls (append_position_fields FLOAT32 (reset_fields cloud))
  = append_fields ([(FLOAT32, "x", 1); (FLOAT32, "y", 1); (FLOAT32, "z", 1)] ++ decls)
      (reset_fields cloud).
Proof. unfold append_fields. rewrite fold_left_app. reflexivity. Qed.

Lemma position_schema_step (decls : list FieldDecl) (cloud : PointCloud2) :
  Forall (fun d => 0 <= decl_size d) decls ->
  12 + total_size decls < 2 ^ 32 ->
  point_step (append_fields decls (append_position_fields FLOAT32 (reset_fields cloud)))
  = 12 + total_size decls.
Proof.
  intros Hpos Hfit. rewrite position_schema, append_fields_point_step.
  pose proof (total_size_nonneg decls Hpos).
  cbn [app total_size fold_right decl_size value_size].
  fold (total_size decls).
  rewrite wrap32_small; lia.
Qed.

Lemma position_schema_x (decls : list FieldDecl) (cloud : PointCloud2) :
  exists f,
    find_field (append_fields decls (append_position_fields FLOAT32 (reset_fields cloud))) "x"
    = Some f /\ offset f = 0.
Proof.
  rewrite position_schema. unfold find_field. rewrite append_fields_fields.
  cbn [app imap List.find name String.eqb Ascii.eqb Bool.eqb andb].
  eexists. split; reflexivity.
Qed.

(** A buffer whose records start with x, y, z as [float] and that was
    sized to [h] rows and [w] columns is one the fits can read. *)
Lemma built_cloud_readable (decls : list FieldDecl) (cloud : PointCloud2) (h w : Z) :
  Forall (fun d => 0 <= decl_size d) decls ->
  1 <= h -> 1 <= w -> h * w <= INT_MAX ->
  h * w * (12 + total_size decls) < 2 ^ 32 ->
  cloud_ok (resize_cloud
              (append_fields decls (append_position_fields FLOAT32 (reset_fields cloud)))
              h w) 0.
Proof.
  intros Hpos Hh Hw Hn Hfit.
  pose proof (total_size_nonneg decls Hpos) as Htot.
  assert (Hhw : 1 <= h * w) by nia.
  assert (Hps32 : 12 + total_size decls < 2 ^ 32) by nia.
  pose proof (position_schema_step decls cloud Hpos Hps32) as Hps.
  unfold INT_MAX in Hn.
  constructor; unfold resize_cloud, num_points;
    cbn [height width fields point_step row_step data find_field].
  - lia.
  - lia.
  - apply position_schema_x.
  - rewrite Hps. lia.
  - rewrite length_resize, Hps.
    assert (w * (12 + total_size decls) <= h * w * (12 + total_size decls)) by nia.
    rewrite (wrap32_small (w * _)) by nia.
    rewrite wrap32_small by nia. nia.
  - unfold INT_MAX. exact Hn.
Qed.

Section Fresh.
Context {ext : Extern}.


(** X9. A buffer built by the helpers can be read by the fits: after
    [reset_fields], [append_position_fields<float>], any further
    [append_field] calls and [resize_cloud] to [h] rows and [w] columns,
    where the point count fits an [Index] and the byte count 32 bits, the
    field x is at offset 0, every record has room for the three floats, the
    bytes hold the records of all [h * w] points, and [fit_fast] returns
    whatever bytes the buffer had before. *)
Theorem built_cloud_ok (decls : list FieldDecl) (cloud : PointCloud2) (h w : Z)
    (self : SphericalProjection) :
  Forall (fun d => 0 <= decl_size d) decls ->
  1 <= h -> 1 <= w -> h * w <= INT_MAX ->
  h * w * (12 + total_size decls) < 2 ^ 32 ->
  let c := resize_cloud
             (append_fields decls (append_position_fields FLOAT32 (reset_fields cloud)))
             h w in
  cloud_ok c 0
  /\ PointCloud2ConstIterator c "x" = Ret 0
  /\ point_step c = 12 + total_size decls
  /\ Z.of_nat (length (data c)) = h * w * point_step c
  /\ exists b self' log, fit_fast c self = Ret (b, self', log).
Proof.
  intros Hpos Hh Hw Hn Hfit c.
  pose proof (built_cloud_readable decls cloud h w Hpos Hh Hw Hn Hfit) as Hok.
  fold c in Hok.
  pose proof (total_size_nonneg decls Hpos) as Htot.
  assert (Hps : point_step c = 12 + total_size decls).
  { subst c. cbn [resize_cloud point_step]. apply position_schema_step; [exact Hpos | nia]. }
  split; [exact Hok|]. split; [apply iterator_ok, Hok|]. split; [exact Hps|]. split.
  - rewrite Hps. subst c. unfold resize_cloud. cbn [data point_step].
    rewrite length_resize, position_schema_step by (assumption || nia).
    assert (w * (12 + total_size decls) <= h * w * (12 + total_size decls)) by nia.
    rewrite (wrap32_small (w * _)) by nia.
    rewrite wrap32_small by nia. nia.
  - destruct (fit_fast_total c 0 self Hok) as [[_ Hrun]|(e & log & _ & _ & _ & Hrun)];
      eauto.
Qed.


End Fresh.

(* ================================================================== *)
(** * copy_points and copy_cloud_metadata *)
(* ================================================================== *)




(** X11. [copy_points] is [copy_cloud_metadata], then [resize_cloud] to
    one row of as many points as there are indices, then the copy of the
    records, when the number of indices and of their bytes fit 32 bits. *)
Theorem copy_points_by_parts (input : PointCloud2) (indices : list Index)
    (output : PointCloud2) :
  0 <= point_step input ->
  Z.of_nat (length indices) < 2 ^ 32 ->
  Z.of_nat (length indices) * point_step input < 2 ^ 32 ->
  let sized := resize_cloud (copy_cloud_metadata input output) 1
                 (Z.of_nat (length indices)) in
  copy_points input indices output
  = obind (copy_loop input (point_step input) indices 0 (data sized))
          (fun bytes => Ret (with_data sized bytes)).
Proof.
  intros Hps Hn Hfit sized. subst sized.
  unfold copy_points, resize_cloud, copy_cloud_metadata, with_data.
  rewrite (copy_points_resize (Z.of_nat (length indices)) (point_step input))
    by (assumption || lia).
  cbn [obind header height width fields is_bigendian point_step row_step data is_dense].
  rewrite (wrap32_small (Z.of_nat (length indices))) by lia.
  rewrite (wrap32_small (Z.of_nat (length indices) * point_step input)) by nia.
  rewrite Z.mul_1_l.
  rewrite (wrap32_small (Z.of_nat (length indices) * point_step input)) by nia.
  reflexivity.
Qed.




(* ================================================================== *)
(** * The fits at the edges *)
(* ================================================================== *)

Section FitEdges.
Context {ext : Extern}.

Lemma iterator_missing (cloud : PointCloud2) :
  find_field cloud "x" = None ->
  PointCloud2ConstIterator cloud "x" = Throw (runtime_error "Field x does not exist").
Proof. intros Hf. unfold PointCloud2ConstIterator. rewrite Hf. reflexivity. Qed.

Lemma assert_true (c : bool) (self : SphericalProjection) :
  NDEBUG = true \/ c = true -> m_assert c self = Ret (tt, self, []).
Proof.
  intros [Hn|Hc]; unfold m_assert.
  - rewrite Hn. reflexivity.
  - rewrite Hc, orb_true_r. reflexivity.
Qed.

Lemma assert_false (c : bool) (self : SphericalProjection) :
  NDEBUG = false -> c = false -> m_assert c self = AssertionFailed.
Proof. intros Hn Hc. unfold m_assert. rewrite Hn, Hc. reflexivity. Qed.

(** X15. Without a field called x the fits and [check] throw
    [std::runtime_error], once their assertions are passed or compiled
    out. *)
Theorem fits_throw_without_x (shuffle : list Index -> list Index) (cloud : PointCloud2)
    (self : SphericalProjection) :
  find_field cloud "x" = None ->
  let missing := Throw (runtime_error "Field x does not exist") in
  (NDEBUG = true \/ (1 <= height cloud /\ 1 <= width cloud) ->
   fit_fast cloud self = missing
   /\ fit_robust shuffle cloud self = missing
   /\ fit shuffle cloud self = missing)
  /\ (NDEBUG = true \/ (height_ self = height cloud /\ width_ self = width cloud) ->
      check cloud self = missing).
Proof.
  intros Hf missing. subst missing.
  pose proof (iterator_missing cloud Hf) as Hit.
  split.
  - intros Hassert.
    assert (Hah : m_assert (1 <=? height cloud) self = Ret (tt, self, [])).
    { apply assert_true. destruct Hassert as [Hn|[Hh _]]; [left; exact Hn|].
      right. apply Z.leb_le, Hh. }
    assert (Haw : m_assert (1 <=? width cloud) self = Ret (tt, self, [])).
    { apply assert_true. destruct Hassert as [Hn|[_ Hw]]; [left; exact Hn|].
      right. apply Z.leb_le, Hw. }
    assert (Hrobust : fit_robust shuffle cloud self
                      = Throw (runtime_error "Field x does not exist")).
    { unfold fit_robust, m_bind, m_lift. rewrite Hah. cbn [obind].
      rewrite Haw. cbn [obind]. rewrite Hit. reflexivity. }
    split; [|split; [exact Hrobust | exact Hrobust]].
    unfold fit_fast, m_bind, m_lift. rewrite Hah. cbn [obind].
    rewrite Haw. cbn [obind]. rewrite Hit. reflexivity.
  - intros Hassert.
    assert (Hah : m_assert (height_ self =? height cloud) self = Ret (tt, self, [])).
    { apply assert_true. destruct Hassert as [Hn|[Hh _]]; [left; exact Hn|].
      right. apply Z.eqb_eq, Hh. }
    assert (Haw : m_assert (width_ self =? width cloud) self = Ret (tt, self, [])).
    { apply assert_true. destruct Hassert as [Hn|[_ Hw]]; [left; exact Hn|].
      right. apply Z.eqb_eq, Hw. }
    unfold check, m_bind, m_get, m_lift. cbn [obind].
    rewrite Hah. cbn [obind]. rewrite Haw. cbn [obind].
    destruct (negb (height cloud =? height_ self) || negb (width cloud =? width_ self));
      unfold m_log, m_ret; cbn [obind]; rewrite Hit; reflexivity.
Qed.

Lemma n_points_of_empty (cloud : PointCloud2) :
  height cloud = 0 \/ width cloud = 0 -> n_points_of cloud = 0.
Proof.
  intros Hz. unfold n_points_of.
  replace (height cloud * width cloud) with 0 by nia. reflexivity.
Qed.

(** The fits of a buffer that has the field x and whose count of points,
    as an [Index], is not positive, past the assertions. *)
Lemma fit_fast_no_points (cloud : PointCloud2) (x_begin : Z) (self : SphericalProjection) :
  PointCloud2ConstIterator cloud "x" = Ret x_begin ->
  m_assert (1 <=? height cloud) self = Ret (tt, self, []) ->
  m_assert (1 <=? width cloud) self = Ret (tt, self, []) ->
  n_points_of cloud <= 0 ->
  fit_fast cloud self = Ret (false, self, []).
Proof.
  intros Hit Hah Haw Hn.
  unfold fit_fast, m_bind, m_lift. rewrite Hah. cbn [obind].
  rewrite Haw. cbn [obind]. rewrite Hit. cbn [obind].
  replace (Z.to_nat (n_points_of cloud)) with 0%nat by lia.
  cbn [fit_fast_scan obind]. reflexivity.
Qed.

Lemma fit_robust_no_points (shuffle : list Index -> list Index) (cloud : PointCloud2)
    (x_begin : Z) (self : SphericalProjection) :
  PointCloud2ConstIterator cloud "x" = Ret x_begin ->
  m_assert (1 <=? height cloud) self = Ret (tt, self, []) ->
  m_assert (1 <=? width cloud) self = Ret (tt, self, []) ->
  (forall l, shuffle l ≡ₚ l) ->
  (n_points_of cloud = 0 -> fit_robust shuffle cloud self = Ret (false, self, []))
  /\ (n_points_of cloud < 0 ->
      fit_robust shuffle cloud self = Throw (length_error "vector::reserve")).
Proof.
  intros Hit Hah Haw Hperm. split.
  - intros Hn.
    unfold fit_robust, m_bind, m_lift. rewrite Hah. cbn [obind].
    rewrite Haw. cbn [obind]. rewrite Hit. cbn [obind].
    rewrite Hn. cbn [vector_reserve Z.ltb Z.compare obind].
    change (Z.to_nat 0) with 0%nat. cbn [collect_valid obind].
    rewrite (proj1 (Permutation_nil_r _) (Hperm [])).
    cbn [collect_models obind]. reflexivity.
  - intros Hn.
    unfold fit_robust, m_bind, m_lift. rewrite Hah. cbn [obind].
    rewrite Haw. cbn [obind]. rewrite Hit. cbn [obind].
    unfold vector_reserve.
    replace (n_points_of cloud <? 0) with true by (symmetry; apply Z.ltb_lt, Hn).
    reflexivity.
Qed.

(** X16. On a buffer without rows or without columns the fits fail their
    assertion in a build that has assertions; in a build without, when the
    field x is there, both return false and leave the model as it was. *)
Theorem empty_cloud_fits (shuffle : list Index -> list Index) (cloud : PointCloud2)
    (self : SphericalProjection) :
  height cloud = 0 \/ width cloud = 0 ->
  (NDEBUG = false ->
   fit_fast cloud self = AssertionFailed
   /\ fit_robust shuffle cloud self = AssertionFailed)
  /\ (NDEBUG = true -> find_field cloud "x" <> None ->
      (forall l, shuffle l ≡ₚ l) ->
      fit_fast cloud self = Ret (false, self, [])
      /\ fit_robust shuffle cloud self = Ret (false, self, [])).
Proof.
  intros Hempty. split.
  - intros Hn.
    destruct (Z.leb_spec 1 (height cloud)) as [Hh|Hh].
    + assert (Hw : (1 <=? width cloud) = false) by (apply Z.leb_gt; lia).
      assert (Hah : m_assert (1 <=? height cloud) self = Ret (tt, self, [])).
      { apply assert_true. right. apply Z.leb_le, Hh. }
      pose proof (assert_false _ self Hn Hw) as Haw.
      split.
      * unfold fit_fast, m_bind. rewrite Hah. cbn [obind]. rewrite Haw. reflexivity.
      * unfold fit_robust, m_bind. rewrite Hah. cbn [obind]. rewrite Haw. reflexivity.
    + assert (Hh' : (1 <=? height cloud) = false) by (apply Z.leb_gt; lia).
      pose proof (assert_false _ self Hn Hh') as Hah.
      split.
      * unfold fit_fast, m_bind. rewrite Hah. reflexivity.
      * unfold fit_robust, m_bind. rewrite Hah. reflexivity.
  - intros Hn Hf Hperm.
    assert (Hit : exists x_begin, PointCloud2ConstIterator cloud "x" = Ret x_begin).
    { unfold PointCloud2ConstIterator.
      destruct (find_field cloud "x") as [f|]; [eauto | contradiction]. }
    destruct Hit as [x_begin Hit].
    pose proof (n_points_of_empty cloud Hempty) as Hzero.
    split.
    + apply (fit_fast_no_points cloud x_begin); try (apply assert_true; left; exact Hn).
      * exact Hit.
      * lia.
    + apply (fit_robust_no_points shuffle cloud x_begin self Hit); try assumption;
        apply assert_true; left; exact Hn.
Qed.

(** X17. The fits count the points in an [Index]: the count is
    [height * width] modulo 2^32, taken as a signed number. On a buffer
    with rows, columns and the field x where that number is not positive,
    [fit_fast] reads no point and returns false; [fit_robust] returns false
    when it is 0 and throws [std::length_error] when it is negative. *)
Theorem fits_count_in_index (shuffle : list Index -> list Index) (cloud : PointCloud2)
    (self : SphericalProjection) :
  1 <= height cloud -> 1 <= width cloud ->
  find_field cloud "x" <> None ->
  (forall l, shuffle l ≡ₚ l) ->
  n_points_of cloud <= 0 ->
  n_points_of cloud = to_int (num_points cloud mod 2 ^ 32)
  /\ fit_fast cloud self = Ret (false, self, [])
  /\ (n_points_of cloud = 0 -> fit_robust shuffle cloud self = Ret (false, self, []))
  /\ (n_points_of cloud < 0 ->
      fit_robust shuffle cloud self = Throw (length_error "vector::reserve")).
Proof.
  intros Hh Hw Hf Hperm Hn.
  assert (Hit : exists x_begin, PointCloud2ConstIterator cloud "x" = Ret x_begin).
  { unfold PointCloud2ConstIterator.
    destruct (find_field cloud "x") as [f|]; [eauto | contradiction]. }
  destruct Hit as [x_begin Hit].
  assert (Hah : m_assert (1 <=? height cloud) self = Ret (tt, self, [])).
  { apply assert_true. right. apply Z.leb_le, Hh. }
  assert (Haw : m_assert (1 <=? width cloud) self = Ret (tt, self, [])).
  { apply assert_true. right. apply Z.leb_le, Hw. }
  split; [reflexivity|].
  split; [apply (fit_fast_no_points cloud x_begin); assumption|].
  apply (fit_robust_no_points shuffle cloud x_begin self); assumption.
Qed.

End FitEdges.

(* ================================================================== *)
(** * What fit_fast reads *)
(* ================================================================== *)

Section Dense.
Context {ext : Extern}.




End Dense.

(* ================================================================== *)
(** * The candidates of fit_robust *)
(* ================================================================== *)

Section Candidates.
Context {ext : Extern}.

Lemma push_candidate_length (models : list Model) (m : option Model) :
  (length models <= length (push_candidate models m) <= S (length models))%nat.
Proof.
  destruct m as [m|]; cbn [push_candidate]; [rewrite length_app; cbn|]; lia.
Qed.

Lemma collect_models_lengths (cloud : PointCloud2) (x_begin : Z) :
  forall (valid : list Index) (az0 el0 az el : list Model),
  collect_models cloud x_begin valid az0 el0 = Ret (az, el) ->
  (length az0 < 25 \/ length el0 < 25)%nat ->
  (length az <= 25 \/ length el <= 25)%nat
  /\ (length az0 <= length az <= length az0 + (length valid - 1))%nat
  /\ (length el0 <= length el <= length el0 + (length valid - 1))%nat.
Proof.
  induction valid as [|v0 valid IH]; intros az0 el0 az el Hrun Hlt.
  - injection Hrun as <- <-. lia.
  - destruct valid as [|v1 valid].
    + injection Hrun as <- <-. cbn. lia.
    + cbn [collect_models] in Hrun.
      destruct (az_candidate cloud x_begin v0 v1) as [ma| | |]; try discriminate Hrun.
      cbn [obind] in Hrun.
      destruct (el_candidate cloud x_begin v0 v1) as [me| | |]; try discriminate Hrun.
      cbn [obind] in Hrun.
      pose proof (push_candidate_length az0 ma) as Ha.
      pose proof (push_candidate_length el0 me) as He.
      destruct ((25 <=? Z.of_nat (length (push_candidate az0 ma)))
                && (25 <=? Z.of_nat (length (push_candidate el0 me)))) eqn:Hfull.
      * injection Hrun as <- <-. cbn [length]. lia.
      * apply IH in Hrun.
        -- cbn [length] in *. lia.
        -- apply andb_false_iff in Hfull as [Hf|Hf]; apply Z.leb_gt in Hf; lia.
Qed.

(** X19. [fit_robust] stops collecting as soon as both lists have 25
    candidates: after the loop the shorter list has at most 25, and neither
    has more than one candidate per pair of neighbours in the shuffled
    indices. *)
Theorem collect_models_bounded (cloud : PointCloud2) (x_begin : Z) (valid : list Index)
    (az el : list Model) :
  collect_models cloud x_begin valid [] [] = Ret (az, el) ->
  (length az <= 25 \/ length el <= 25)%nat
  /\ (length az <= length valid - 1)%nat
  /\ (length el <= length valid - 1)%nat.
Proof.
  intros Hrun.
  destruct (collect_models_lengths cloud x_begin valid [] [] az el Hrun) as (H25 & Ha & He).
  - left. cbn. lia.
  - cbn [length] in *. repeat split; lia.
Qed.

End Candidates.

(* ================================================================== *)
(** * check at the edges *)
(* ================================================================== *)

Section CheckEdges.
Context {ext : Extern}.

Lemma check_point_invalid (cloud : PointCloud2) (x_begin : Z) (self : SphericalProjection)
    (r c : Z) (k : Z) (acc : Double * Z) :
  cloud_ok cloud x_begin -> 0 <= k < num_points cloud ->
  point_valid cloud x_begin k = false ->
  check_point cloud self r c (it_add cloud x_begin k) acc = Ret acc.
Proof.
  intros Hok Hk Hv. unfold check_point.
  rewrite (finite_at_ok cloud x_begin k Hok Hk), Hv. reflexivity.
Qed.

Lemma check_row_invalid (cloud : PointCloud2) (x_begin : Z) (self : SphericalProjection)
    (r : Z) :
  cloud_ok cloud x_begin -> no_valid_point cloud x_begin ->
  forall (n : nat) (c k : Z) (acc : Double * Z),
  0 <= k -> k + Z.of_nat n <= num_points cloud ->
  check_row cloud self r n c (it_add cloud x_begin k) acc
  = Ret (it_add cloud x_begin (k + Z.of_nat n), acc).
Proof.
  intros Hok Hnone. induction n as [|n IH]; intros c k acc Hk Hn.
  - cbn [check_row]. rewrite Z.add_0_r. reflexivity.
  - cbn [check_row].
    rewrite (check_point_invalid cloud x_begin) by (assumption || (apply Hnone; lia) || lia).
    cbn [obind]. rewrite it_add_next, IH by lia.
    replace (k + Z.of_nat (S n)) with (k + 1 + Z.of_nat n) by lia. reflexivity.
Qed.

Lemma check_rows_invalid (cloud : PointCloud2) (x_begin : Z) (self : SphericalProjection) :
  cloud_ok cloud x_begin -> no_valid_point cloud x_begin ->
  width_ self = width cloud ->
  forall (n : nat) (r k : Z) (acc : Double * Z),
  0 <= k -> k + Z.of_nat n * width cloud <= num_points cloud ->
  check_rows cloud self n r (it_add cloud x_begin k) acc = Ret acc.
Proof.
  intros Hok Hnone Hw. induction n as [|n IH]; intros r k acc Hk Hn.
  - reflexivity.
  - cbn [check_rows]. rewrite Hw.
    assert (Hwpos : 1 <= width cloud) by (destruct Hok as [_ Hwd _ _ _ _]; lia).
    rewrite (check_row_invalid cloud x_begin self r Hok Hnone) by nia.
    cbn [obind]. apply IH; nia.
Qed.

Lemma F64_ltb_nan (x : Double) : F64.ltb x S754_nan = false.
Proof. destruct x; reflexivity. Qed.

(** X20. On a buffer of the model's size without a valid point, [check]
    has no residual to average: the mean is 0 / 0, not a number, it is not
    above the bound, and the one record logged is the debug record with
    that mean. *)
Theorem check_without_valid_point (cloud : PointCloud2) (x_begin : Z)
    (self : SphericalProjection) :
  cloud_ok cloud x_begin ->
  height_ self = height cloud -> width_ self = width cloud ->
  no_valid_point cloud x_begin ->
  check cloud self
  = Ret (true, self,
         [{| severity := DEBUG;
             format := "Mean angular error: %.3f [deg].";
             args := [ArgDouble S754_nan] |}]).
Proof.
  intros Hok Hh Hw Hnone.
  assert (Hhpos : 1 <= height cloud) by (destruct Hok as [Hhd _ _ _ _ _]; lia).
  pose proof (check_rows_invalid cloud x_begin self Hok Hnone Hw
                (Z.to_nat (height_ self)) 0 0 (F64.of_int 0, 0)) as Hrows.
  assert (Hit0 : it_add cloud x_begin 0 = x_begin) by (unfold it_add; lia).
  rewrite Hit0 in Hrows.
  unfold check, m_bind, m_get, m_assert, m_lift, m_log, m_ret. cbn [obind].
  rewrite Hh, Hw, !Z.eqb_refl, !orb_true_r. cbn [obind negb orb].
  rewrite (iterator_ok cloud x_begin Hok). cbn [obind].
  rewrite Hh in Hrows. rewrite Hrows by (unfold num_points; lia).
  cbn [obind].
  change (F64.div (F64.of_int 0) (F64.of_int 0)) with S754_nan.
  rewrite F64_ltb_nan. reflexivity.
Qed.

(** X21. [check] on a buffer that has not the size of the model: a build
    with assertions stops at the assertion; a build without goes on, and
    whatever it returns then starts with the warning about the sizes. *)
Theorem check_size_mismatch (cloud : PointCloud2) (self : SphericalProjection) :
  height_ self <> height cloud \/ width_ self <> width cloud ->
  (NDEBUG = false -> check cloud self = AssertionFailed)
  /\ (NDEBUG = true ->
      forall b self' log, check cloud self = Ret (b, self', log) ->
      exists rest,
        log = {| severity := WARN;
                 format := "Cloud size (%i, %i) inconsistent with model size (%i, %i).";
                 args := [ArgInt (height cloud); ArgInt (width cloud);
                          ArgInt (height_ self); ArgInt (width_ self)] |} :: rest).
Proof.
  intros Hdiff. split.
  - intros Hn. unfold check, m_bind, m_get, m_assert. cbn [obind]. rewrite Hn.
    cbn [orb].
    destruct (Z.eqb_spec (height_ self) (height cloud)) as [Hh|Hh]; [|reflexivity].
    cbn [obind].
    destruct (Z.eqb_spec (width_ self) (width cloud)) as [Hw|Hw]; [|reflexivity].
    destruct Hdiff; contradiction.
  - intros Hn b self' log.
    assert (Hcond : negb (height cloud =? height_ self) || negb (width cloud =? width_ self)
                    = true).
    { apply orb_true_iff. destruct Hdiff as [Hh|Hw]; [left|right];
        apply negb_true_iff, Z.eqb_neq; congruence. }
    unfold check, m_bind, m_get, m_assert, m_lift, m_log, m_ret.
    cbn [obind]. rewrite Hn, Hcond. cbn [orb obind]. intros Hrun.
    destruct (PointCloud2ConstIterator cloud "x") as [x_it| | |];
      try discriminate Hrun; cbn [obind] in Hrun.
    destruct (check_rows cloud self (Z.to_nat (height_ self)) 0 x_it (F64.of_int 0, 0))
      as [[residual_sum n]| | |]; try discriminate Hrun; cbn [obind] in Hrun.
    destruct (F64.ltb _ _); cbn [obind app] in Hrun;
      injection Hrun as _ _ <-; eexists; reflexivity.
Qed.

End CheckEdges.

(* ================================================================== *)
(** * Projecting with a degenerate model *)
(* ================================================================== *)

Lemma F32_div_nan (x : Value) : F32.div x S754_nan = S754_nan.
Proof. destruct x; reflexivity. Qed.

Lemma F32_mul_nan (x : Value) : F32.mul x S754_nan = S754_nan.
Proof. destruct x; reflexivity. Qed.

Lemma F32_sub_nan (x : Value) : F32.sub x S754_nan = S754_nan.
Proof. destruct x; reflexivity. Qed.

Lemma F32_add_nan (x : Value) : F32.add S754_nan x = S754_nan.
Proof. reflexivity. Qed.

Section Degenerate.
Context {ext : Extern}.

Lemma project_nan_column (self : SphericalProjection) (x y z : Value) :
  azimuth_step_ self = S754_nan -> snd (project self x y z) = S754_nan.
Proof.
  intros Hstep. unfold project.
  destruct (cartesian_to_spherical x y z) as [[az el] radius]. cbn [snd].
  rewrite Hstep. apply F32_div_nan.
Qed.

Lemma project_nan_row (self : SphericalProjection) (x y z : Value) :
  elevation_step_ self = S754_nan -> fst (project self x y z) = S754_nan.
Proof.
  intros Hstep. unfold project.
  destruct (cartesian_to_spherical x y z) as [[az el] radius]. cbn [fst].
  rewrite Hstep. apply F32_div_nan.
Qed.

(** X22. A model that [fit_fast] took from valid points of one column
    alone is of no use: its azimuth start and step are not numbers,
    [project] gives every point a column that is not a number, and
    [unproject] hands an azimuth that is not a number to the conversion;
    likewise for the rows and the elevation when the valid points are in
    one row. *)
Theorem degenerate_fit_projects_nan (cloud : PointCloud2) (x_begin : Z)
    (self : SphericalProjection) :
  cloud_ok cloud x_begin ->
  (exists i, 0 <= i < num_points cloud /\ point_valid cloud x_begin i = true) ->
  exists self' log,
    fit_fast cloud self = Ret (true, self', log)
    /\ (one_column cloud x_begin ->
        azimuth_start_ self' = S754_nan
        /\ (forall x y z, snd (project self' x y z) = S754_nan)
        /\ (forall r c, exists el,
              unproject self' r c = spherical_to_cartesian S754_nan el (F32.of_int 1)))
    /\ (one_row cloud x_begin ->
        elevation_start_ self' = S754_nan
        /\ (forall x y z, fst (project self' x y z) = S754_nan)
        /\ (forall r c, exists az,
              unproject self' r c = spherical_to_cartesian az S754_nan (F32.of_int 1))).
Proof.
  intros Hok (i & Hi & Hv).
  destruct (fit_fast_total cloud x_begin self Hok)
    as [[Hnone _]|(e & log & _ & Hcol & Hrow & Hrun)].
  { rewrite (Hnone i Hi) in Hv. discriminate. }
  exists (fit_fast_model cloud x_begin e), log. split; [exact Hrun|]. split.
  - intros Hone. specialize (Hcol Hone).
    assert (Hstep : azimuth_step_ (fit_fast_model cloud x_begin e) = S754_nan).
    { unfold fit_fast_model. cbn [azimuth_step_]. rewrite Hcol. apply F32_self_step. }
    assert (Hstart : azimuth_start_ (fit_fast_model cloud x_begin e) = S754_nan).
    { unfold fit_fast_model. cbn [azimuth_start_]. rewrite Hcol, F32_self_step.
      rewrite F32_mul_nan. apply F32_sub_nan. }
    split; [exact Hstart|]. split.
    + intros x y z. apply project_nan_column, Hstep.
    + intros r c. unfold unproject. rewrite Hstart, Hstep. eexists. reflexivity.
  - intros Hone. specialize (Hrow Hone).
    assert (Hstep : elevation_step_ (fit_fast_model cloud x_begin e) = S754_nan).
    { unfold fit_fast_model. cbn [elevation_step_]. rewrite Hrow. apply F32_self_step. }
    assert (Hstart : elevation_start_ (fit_fast_model cloud x_begin e) = S754_nan).
    { unfold fit_fast_model. cbn [elevation_start_]. rewrite Hrow, F32_self_step.
      rewrite F32_mul_nan. apply F32_sub_nan. }
    split; [exact Hstart|]. split.
    + intros x y z. apply project_nan_row, Hstep.
    + intros r c. unfold unproject. rewrite Hstart, Hstep. eexists. reflexivity.
Qed.

End Degenerate.

(* ================================================================== *)
(** * fill_field and fill_const_field *)
(* ================================================================== *)

Lemma store_object_ok (T : Datatype) (value bytes : list byte) (pos : Z) :
  0 <= pos -> pos + value_size T <= Z.of_nat (length bytes) ->
  length value = Z.to_nat (value_size T) ->
  store_object T value bytes pos = Ret (list_inserts (Z.to_nat pos) value bytes).
Proof.
  intros H0 H1 Hv. unfold store_object.
  replace (0 <=? pos) with true by (symmetry; apply Z.leb_le; lia).
  replace (pos + value_size T <=? Z.of_nat (length bytes)) with true
    by (symmetry; apply Z.leb_le; lia).
  cbn [andb]. rewrite <- Hv, resize_all. reflexivity.
Qed.

Lemma store_object_length (T : Datatype) (value bytes bytes' : list byte) (pos : Z) :
  store_object T value bytes pos = Ret bytes' -> length bytes' = length bytes.
Proof.
  unfold store_object. destruct (_ && _); [|discriminate].
  intros [= <-]. apply length_inserts.
Qed.

Lemma value_size_pos (T : Datatype) : 1 <= value_size T.
Proof. destruct T; cbn; lia. Qed.

(** The loop of [fill_field] over a buffer that holds the records it
    writes to: element [k] of the array goes to the field of point
    [i + k], and no other byte changes. *)
Lemma fill_field_loop_spec (T : Datatype) (cloud : PointCloud2) (pos : Z) :
  0 <= pos -> pos + value_size T <= point_step cloud ->
  forall (vals rest : list (list byte)) (i : Z) (bytes : list byte),
  Forall (fun v => length v = Z.to_nat (value_size T)) vals ->
  0 <= i ->
  (i + Z.of_nat (length vals)) * point_step cloud <= Z.of_nat (length bytes) ->
  exists bytes',
    fill_field_loop T cloud (length vals) (vals ++ rest) (it_add cloud pos i) bytes
    = Ret bytes'
    /\ length bytes' = length bytes
    /\ (forall k v, vals !! k = Some v ->
          take (Z.to_nat (value_size T))
               (drop (Z.to_nat (it_add cloud pos (i + Z.of_nat k))) bytes') = v)
    /\ (forall j : nat,
          (forall k, (k < length vals)%nat ->
             ~ (it_add cloud pos (i + Z.of_nat k) <= Z.of_nat j
                < it_add cloud pos (i + Z.of_nat k) + value_size T)) ->
          bytes' !! j = bytes !! j).
Proof.
  intros Hpos Hslot.
  pose proof (value_size_pos T) as Hsz.
  set (ps := point_step cloud) in *.
  induction vals as [|v vals IH]; intros rest i bytes Hvals Hi Hlen.
  - exists bytes. cbn [length fill_field_loop].
    split; [reflexivity|]. split; [reflexivity|].
    split; [intros k v Hk; discriminate Hk | reflexivity].
  - apply Forall_cons in Hvals as [Hv Hvals].
    cbn [length] in Hlen. rewrite Nat2Z.inj_succ in Hlen.
    assert (Hn : 0 <= Z.of_nat (length vals)) by lia.
    assert (Hp : it_add cloud pos i = pos + i * ps) by reflexivity.
    assert (Hi1 : (i + 1) * ps <= (i + Z.succ (Z.of_nat (length vals))) * ps) by nia.
    assert (Hips : 0 <= i * ps) by nia.
    cbn [length fill_field_loop app].
    rewrite store_object_ok by (rewrite ?Hp; (lia || exact Hv)).
    cbn [obind]. rewrite it_add_next.
    set (bytes1 := list_inserts (Z.to_nat (it_add cloud pos i)) v bytes).
    assert (Hlen1 : length bytes1 = length bytes) by apply length_inserts.
    destruct (IH rest (i + 1) bytes1 Hvals) as (bytes' & Hrun & Hlen' & Hslots & Hout);
      [lia | rewrite Hlen1; lia |].
    exists bytes'. split; [exact Hrun|]. split; [congruence|]. split.
    + intros [|k] v' Hk.
      * injection Hk as <-. rewrite Nat2Z.inj_0, Z.add_0_r.
        apply list_eq. intros m.
        destruct (decide (m < Z.to_nat (value_size T))%nat) as [Hm|Hm].
        -- rewrite lookup_take_drop by exact Hm.
           rewrite Hout.
           ++ unfold bytes1. rewrite list_lookup_inserts by (rewrite ?Hp; lia).
              f_equal. lia.
           ++ intros k Hk. unfold it_add. fold ps.
              assert (0 <= Z.of_nat k * ps) by nia. nia.
        -- rewrite lookup_take_ge by lia. symmetry. apply lookup_ge_None. lia.
      * cbn in Hk. specialize (Hslots k v' Hk).
        replace (i + Z.of_nat (S k)) with (i + 1 + Z.of_nat k) by lia.
        exact Hslots.
    + intros j Hj. rewrite Hout.
      * specialize (Hj 0%nat ltac:(cbn; lia)).
        rewrite Nat2Z.inj_0, Z.add_0_r in Hj.
        unfold bytes1.
        destruct (decide (Z.of_nat j < it_add cloud pos i)) as [Hlt|Hge].
        -- apply list_lookup_inserts_lt. lia.
        -- apply list_lookup_inserts_ge. lia.
      * intros k Hk. specialize (Hj (S k) ltac:(cbn; lia)).
        replace (i + Z.of_nat (S k)) with (i + 1 + Z.of_nat k) in Hj by lia.
        exact Hj.
Qed.

(** With a stride that is not 0, the loop of [fill_const_field] over [m]
    points is the loop of [fill_field] over an array of [m] copies of the
    value. *)
Lemma fill_const_as_field (T : Datatype) (cloud : PointCloud2) (value : list byte)
    (pos : Z) :
  0 < point_step cloud ->
  forall (m fuel : nat) (i : Z) (bytes : list byte),
  (m <= fuel)%nat ->
  fill_const_loop T cloud value fuel (it_add cloud pos i)
    (it_add cloud pos (i + Z.of_nat m)) bytes
  = fill_field_loop T cloud m (replicate m value) (it_add cloud pos i) bytes.
Proof.
  intros Hps. induction m as [|m IH]; intros fuel i bytes Hfuel.
  - rewrite Nat2Z.inj_0, Z.add_0_r.
    destruct fuel; cbn [fill_const_loop fill_field_loop]; rewrite Z.eqb_refl; reflexivity.
  - destruct fuel as [|fuel]; [lia|].
    cbn [fill_const_loop fill_field_loop replicate].
    replace (it_add cloud pos i =? it_add cloud pos (i + Z.of_nat (S m))) with false
      by (symmetry; apply Z.eqb_neq; unfold it_add; nia).
    destruct (store_object T value bytes (it_add cloud pos i)) as [bytes1| | |];
      cbn [obind]; try reflexivity.
    rewrite it_add_next.
    replace (i + Z.of_nat (S m)) with (i + 1 + Z.of_nat m) by lia.
    apply IH. lia.
Qed.

(** The loop of [fill_const_field] is over before its fuel: from
    [length bytes - field_it + 1] on, more fuel changes nothing. *)
Lemma fill_const_loop_fuel (T : Datatype) (cloud : PointCloud2) (value : list byte)
    (end_ : Z) :
  0 < point_step cloud ->
  forall (fuel fuel' : nat) (field_it : Z) (bytes : list byte),
  (fuel <= fuel')%nat ->
  Z.of_nat (length bytes) - field_it < Z.of_nat fuel ->
  fill_const_loop T cloud value fuel field_it end_ bytes
  = fill_const_loop T cloud value fuel' field_it end_ bytes.
Proof.
  intros Hps. pose proof (value_size_pos T) as Hsz.
  induction fuel as [|fuel IH]; intros fuel' field_it bytes Hle Hfuel.
  - destruct fuel' as [|fuel']; [reflexivity|].
    cbn [fill_const_loop].
    destruct (field_it =? end_); [reflexivity|].
    unfold store_object.
    replace (field_it + value_size T <=? Z.of_nat (length bytes)) with false
      by (symmetry; apply Z.leb_gt; lia).
    rewrite andb_false_r. reflexivity.
  - destruct fuel' as [|fuel']; [lia|].
    cbn [fill_const_loop].
    destruct (field_it =? end_); [reflexivity|].
    destruct (store_object T value bytes field_it) as [bytes1| | |] eqn:Hstore;
      cbn [obind]; try reflexivity.
    apply IH; [lia|].
    rewrite (store_object_length _ _ _ _ _ Hstore). unfold it_add. lia.
Qed.

Section Fill.
Context {ext : Extern}.

(** The iterator of a field that is there. *)
Lemma iterator_found (cloud : PointCloud2) (n : string) (f : PointField) :
  find_field cloud n = Some f -> PointCloud2Iterator cloud n = Ret (offset f).
Proof. intros Hf. unfold PointCloud2Iterator. rewrite Hf. reflexivity. Qed.

Lemma fill_count_ok (cloud : PointCloud2) :
  0 <= num_points cloud <= INT_MAX ->
  fill_count cloud = num_points cloud /\ to_int (fill_count cloud) = num_points cloud.
Proof.
  unfold fill_count, num_points, INT_MAX. intros Hn.
  rewrite wrap32_small by lia. split; [reflexivity|]. apply to_int_small. lia.
Qed.

(** [fill_field] where it is defined: what it returns. *)
Lemma fill_field_ok (T : Datatype) (n : string) (it : list (list byte))
    (cloud : PointCloud2) (f : PointField) :
  find_field cloud n = Some f ->
  0 <= offset f -> offset f + value_size T <= point_step cloud ->
  0 <= num_points cloud < 2 ^ 32 ->
  num_points cloud * point_step cloud <= Z.of_nat (length (data cloud)) ->
  num_points cloud <= Z.of_nat (length it) ->
  Forall (fun v => length v = Z.to_nat (value_size T)) it ->
  exists bytes,
    fill_field T n it cloud = Ret (with_data cloud bytes)
    /\ length bytes = length (data cloud)
    /\ (forall i v, 0 <= i < num_points cloud -> it !! Z.to_nat i = Some v ->
          field_at (with_data cloud bytes) (offset f) (value_size T) i = v)
    /\ (forall j : nat,
          (forall i, 0 <= i < num_points cloud ->
             ~ (it_add cloud (offset f) i <= Z.of_nat j
                < it_add cloud (offset f) i + value_size T)) ->
          bytes !! j = data cloud !! j).
Proof.
  intros Hf Hpos Hslot Hn Hdata Hit Hvals.
  set (m := Z.to_nat (num_points cloud)).
  assert (Hcount : fill_count cloud = num_points cloud).
  { unfold fill_count, num_points in *. apply wrap32_small. lia. }
  assert (Hsplit : it = take m it ++ drop m it) by (symmetry; apply take_drop).
  assert (Hm : length (take m it) = m) by (rewrite length_take; lia).
  destruct (fill_field_loop_spec T cloud (offset f) Hpos Hslot (take m it) (drop m it) 0
              (data cloud)) as (bytes & Hrun & Hlen & Hslots & Hout).
  { apply Forall_take, Hvals. }
  { lia. }
  { rewrite Hm. lia. }
  rewrite Hm, <- Hsplit in Hrun.
  exists bytes. split; [|split; [exact Hlen|split]].
  - unfold fill_field. rewrite (iterator_found cloud n f Hf). cbn [obind].
    rewrite Hcount. fold m.
    assert (H0 : it_add cloud (offset f) 0 = offset f) by (unfold it_add; lia).
    rewrite H0 in Hrun. rewrite Hrun. reflexivity.
  - intros i v Hi Hv. unfold field_at. cbn [with_data data].
    specialize (Hslots (Z.to_nat i) v).
    rewrite lookup_take_lt in Hslots by lia.
    specialize (Hslots Hv).
    replace (0 + Z.of_nat (Z.to_nat i)) with i in Hslots by lia.
    exact Hslots.
  - intros j Hj. apply Hout. intros k Hk.
    rewrite Hm in Hk. specialize (Hj (Z.of_nat k) ltac:(lia)).
    rewrite Z.add_0_l. exact Hj.
Qed.

(** [fill_const_field] where it is defined: what it returns, which is
    what [fill_field] returns for an array of copies of the value. *)
Lemma fill_const_field_ok (T : Datatype) (n : string) (value : list byte)
    (cloud : PointCloud2) (f : PointField) :
  find_field cloud n = Some f ->
  0 <= offset f -> offset f + value_size T <= point_step cloud ->
  0 <= num_points cloud <= INT_MAX ->
  num_points cloud * point_step cloud <= Z.of_nat (length (data cloud)) ->
  length value = Z.to_nat (value_size T) ->
  exists bytes,
    fill_const_field T n value cloud = Ret (with_data cloud bytes)
    /\ fill_field T n (replicate (Z.to_nat (num_points cloud)) value) cloud
       = Ret (with_data cloud bytes)
    /\ length bytes = length (data cloud)
    /\ (forall i, 0 <= i < num_points cloud ->
          field_at (with_data cloud bytes) (offset f) (value_size T) i = value)
    /\ (forall j : nat,
          (forall i, 0 <= i < num_points cloud ->
             ~ (it_add cloud (offset f) i <= Z.of_nat j
                < it_add cloud (offset f) i + value_size T)) ->
          bytes !! j = data cloud !! j).
Proof.
  intros Hf Hpos Hslot Hn Hdata Hv.
  pose proof (value_size_pos T) as Hsz.
  assert (Hps : 0 < point_step cloud) by lia.
  set (m := Z.to_nat (num_points cloud)).
  destruct (fill_field_ok T n (replicate m value) cloud f Hf Hpos Hslot)
    as (bytes & Hrun & Hlen & Hslots & Hout).
  { unfold INT_MAX in Hn. lia. }
  { exact Hdata. }
  { rewrite length_replicate. lia. }
  { apply Forall_replicate, Hv. }
  destruct (fill_count_ok cloud Hn) as [Hcount Hint].
  exists bytes. split; [|split; [exact Hrun|split; [exact Hlen|split]]].
  - unfold fill_const_field. unfold fill_field in Hrun.
    rewrite (iterator_found cloud n f Hf) in *. cbn [obind] in *.
    rewrite Hint. rewrite Hcount in Hrun. fold m in Hrun.
    assert (H0 : offset f = it_add cloud (offset f) 0) by (unfold it_add; lia).
    rewrite H0 at 1.
    replace (num_points cloud) with (0 + Z.of_nat m) by lia.
    rewrite (fill_const_as_field T cloud value (offset f) Hps m).
    + rewrite <- H0. exact Hrun.
    + assert (Z.of_nat m <= Z.of_nat (length (data cloud))) by nia. lia.
  - intros i Hi. apply Hslots; [exact Hi|].
    apply lookup_replicate_2. lia.
  - exact Hout.
Qed.

(** What a const iterator over [float] reads where a writing iterator
    stored a [float]. *)
Lemma float_at_field (cloud : PointCloud2) (pos : Z) (i : Z) :
  float_at (data cloud) (it_add cloud pos i)
  = F32.of_bits (le_bits (if host_bigendian then rev (field_at cloud pos 4 i)
                          else field_at cloud pos 4 i)).
Proof. reflexivity. Qed.

Lemma with_data_ok (cloud : PointCloud2) (x_begin : Z) (bytes : list byte) :
  cloud_ok cloud x_begin -> length bytes = length (data cloud) ->
  cloud_ok (with_data cloud bytes) x_begin.
Proof.
  intros [Hh Hw Hf Hx Hd Hn] Hlen.
  constructor; unfold num_points in *; cbn [with_data height width point_step data];
    try assumption.
  rewrite Hlen. exact Hd.
Qed.

(** The float at the field of a point, as a const iterator reads it. *)
Lemma field_read (cloud : PointCloud2) (pos : Z) (i : Z) (v : list byte) :
  0 <= it_add cloud pos i ->
  it_add cloud pos i + 4 <= Z.of_nat (length (data cloud)) ->
  field_at cloud pos 4 i = v ->
  it_get cloud (it_add cloud pos i) 0
  = Ret (F32.of_bits (le_bits (if host_bigendian then rev v else v))).
Proof.
  intros H0 H1 <-. unfold it_get. rewrite Z.mul_0_r, Z.add_0_r.
  rewrite load_float_ok by assumption. rewrite float_at_field. reflexivity.
Qed.

Lemma field_in_data (cloud : PointCloud2) (pos size : Z) (i : Z) (bytes : list byte) :
  0 <= pos -> 0 <= size -> pos + size <= point_step cloud ->
  0 <= i < num_points cloud ->
  num_points cloud * point_step cloud <= Z.of_nat (length (data cloud)) ->
  length bytes = length (data cloud) ->
  0 <= it_add cloud pos i /\ it_add cloud pos i + size <= Z.of_nat (length bytes).
Proof.
  intros Hpos Hsize Hslot Hi Hdata Hlen. unfold it_add. rewrite Hlen.
  assert (0 <= i * point_step cloud) by nia.
  assert ((i + 1) * point_step cloud <= num_points cloud * point_step cloud) by nia.
  lia.
Qed.

(** X23. [fill_field] on a buffer that holds the records of its points,
    fewer than 2^32 of them, for a field whose element lies inside the
    record, and an array of at least as many elements as there are points:
    it returns, the field of point [i] holds element [i] of the array, and
    every other byte and the rest of the buffer are as before. A [float]
    written this way is the one a const iterator over the field reads
    back. *)
Theorem fill_field_spec (T : Datatype) (n : string) (it : list (list byte))
    (cloud : PointCloud2) (f : PointField) :
  find_field cloud n = Some f ->
  0 <= offset f -> offset f + value_size T <= point_step cloud ->
  0 <= num_points cloud < 2 ^ 32 ->
  num_points cloud * point_step cloud <= Z.of_nat (length (data cloud)) ->
  num_points cloud <= Z.of_nat (length it) ->
  Forall (fun v => length v = Z.to_nat (value_size T)) it ->
  exists filled,
    fill_field T n it cloud = Ret filled
    /\ filled = with_data cloud (data filled)
    /\ length (data filled) = length (data cloud)
    /\ (forall i v, 0 <= i < num_points cloud -> it !! Z.to_nat i = Some v ->
          field_at filled (offset f) (value_size T) i = v)
    /\ (forall j : nat,
          (forall i, 0 <= i < num_points cloud ->
             ~ (it_add cloud (offset f) i <= Z.of_nat j
                < it_add cloud (offset f) i + value_size T)) ->
          data filled !! j = data cloud !! j)
    /\ (T = FLOAT32 ->
        forall i v, 0 <= i < num_points cloud -> it !! Z.to_nat i = Some v ->
        PointCloud2ConstIterator filled n = Ret (offset f)
        /\ it_get filled (it_add filled (offset f) i) 0
           = Ret (F32.of_bits (le_bits (if host_bigendian then rev v else v)))).
Proof.
  intros Hf Hpos Hslot Hn Hdata Hit Hvals.
  destruct (fill_field_ok T n it cloud f Hf Hpos Hslot Hn Hdata Hit Hvals)
    as (bytes & Hrun & Hlen & Hslots & Hout).
  exists (with_data cloud bytes).
  split; [exact Hrun|]. split; [reflexivity|]. split; [exact Hlen|].
  split; [exact Hslots|]. split; [exact Hout|].
  intros -> i v Hi Hv. split.
  - unfold PointCloud2ConstIterator.
    change (find_field (with_data cloud bytes) n) with (find_field cloud n).
    rewrite Hf. reflexivity.
  - destruct (field_in_data cloud (offset f) 4 i bytes Hpos ltac:(lia) Hslot Hi Hdata Hlen)
      as [H0 H1].
    apply field_read; [exact H0 | exact H1 |].
    apply (Hslots i v Hi Hv).
Qed.

(** X24. [fill_const_field] on a buffer that holds the records of its
    points, at most [INT_MAX] of them, for a field whose element lies
    inside the record: it returns what [fill_field] returns for an array
    of copies of the value, so that the field of every point holds the
    value and every other byte is as before. The type of the field is not
    looked at: the element may be longer than the field, and then runs
    into the bytes after it. *)
Theorem fill_const_field_spec (T : Datatype) (n : string) (value : list byte)
    (cloud : PointCloud2) (f : PointField) :
  find_field cloud n = Some f ->
  0 <= offset f -> offset f + value_size T <= point_step cloud ->
  0 <= num_points cloud <= INT_MAX ->
  num_points cloud * point_step cloud <= Z.of_nat (length (data cloud)) ->
  length value = Z.to_nat (value_size T) ->
  exists filled,
    fill_const_field T n value cloud = Ret filled
    /\ fill_field T n (replicate (Z.to_nat (num_points cloud)) value) cloud = Ret filled
    /\ filled = with_data cloud (data filled)
    /\ length (data filled) = length (data cloud)
    /\ (forall i, 0 <= i < num_points cloud ->
          field_at filled (offset f) (value_size T) i = value)
    /\ (forall j : nat,
          (forall i, 0 <= i < num_points cloud ->
             ~ (it_add cloud (offset f) i <= Z.of_nat j
                < it_add cloud (offset f) i + value_size T)) ->
          data filled !! j = data cloud !! j).
Proof.
  intros Hf Hpos Hslot Hn Hdata Hv.
  destruct (fill_const_field_ok T n value cloud f Hf Hpos Hslot Hn Hdata Hv)
    as (bytes & Hrun & Hfield & Hlen & Hslots & Hout).
  exists (with_data cloud bytes).
  split; [exact Hrun|]. split; [exact Hfield|]. split; [reflexivity|].
  split; [exact Hlen|]. split; [exact Hslots | exact Hout].
Qed.

(** X25. Writing a value that is not finite into x makes the buffer one
    without valid points: after [fill_const_field<float>] with such a
    value on a buffer the fits can read, every point has a first float that
    is not finite, and both fits return false and leave the model as it
    was. *)
Theorem fill_invalidates (shuffle : list Index -> list Index) (value : list byte)
    (cloud : PointCloud2) (x_begin : Z) (self : SphericalProjection) :
  cloud_ok cloud x_begin ->
  length value = 4%nat ->
  isfinite (F32.of_bits (le_bits (if host_bigendian then rev value else value))) = false ->
  (forall l, shuffle l ≡ₚ l) ->
  exists filled,
    fill_const_field FLOAT32 "x" value cloud = Ret filled
    /\ cloud_ok filled x_begin
    /\ no_valid_point filled x_begin
    /\ fit_fast filled self = Ret (false, self, [])
    /\ fit_robust shuffle filled self = Ret (false, self, []).
Proof.
  intros Hok Hv Hnan Hperm.
  pose proof Hok as [Hh Hw (f & Hf & Hoff) Hx Hd Hn].
  assert (Hnum : 0 <= num_points cloud) by (unfold num_points; nia).
  destruct (fill_const_field_ok FLOAT32 "x" value cloud f Hf)
    as (bytes & Hrun & _ & Hlen & Hslots & _);
    [rewrite Hoff; lia | rewrite Hoff; cbn; lia | lia | exact Hd | exact Hv |].
  rewrite Hoff in Hslots.
  pose proof (with_data_ok cloud x_begin bytes Hok Hlen) as Hok'.
  assert (Hnone : no_valid_point (with_data cloud bytes) x_begin).
  { intros i Hi. unfold point_valid.
    change (it_add (with_data cloud bytes) x_begin i) with (it_add cloud x_begin i).
    change (float_at (data (with_data cloud bytes)) (it_add cloud x_begin i))
      with (float_at (data (with_data cloud bytes))
              (it_add (with_data cloud bytes) x_begin i)).
    rewrite float_at_field. change 4 with (value_size FLOAT32) at 1 2.
    rewrite (Hslots i Hi), Hnan. reflexivity. }
  exists (with_data cloud bytes). split; [exact Hrun|]. split; [exact Hok'|].
  split; [exact Hnone|].
  destruct (fit_fast_total (with_data cloud bytes) x_begin self Hok')
    as [[_ Hfast]|(e & log & Hseen & _)].
  - split; [exact Hfast|].
    destruct (fit_robust_run shuffle (with_data cloud bytes) x_begin self Hok' Hperm)
      as (valid & az & el & _ & Hmem & _ & Haz & _ & Hfalse & _).
    apply Hfalse. left. apply Haz.
    apply (no_valid_all_same (with_data cloud bytes) x_begin valid); assumption.
  - exfalso. eapply seen_valid_point; eassumption.
Qed.

(** X26. Without a field of the given name, and without a packed colour
    field that could stand in for it, [fill_field] and [fill_const_field]
    throw [std::runtime_error] before they write anything. *)
Theorem fill_throws_without_field (T : Datatype) (n : string) (it : list (list byte))
    (value : list byte) (cloud : PointCloud2) :
  find_field cloud n = None ->
  find_field cloud "rgb" = None -> find_field cloud "rgba" = None ->
  let missing := Throw (runtime_error ("Field " +:+ n +:+ " does not exist")) in
  fill_field T n it cloud = missing
  /\ fill_const_field T n value cloud = missing.
Proof.
  intros Hf Hrgb Hrgba missing. subst missing.
  assert (Hit : PointCloud2Iterator cloud n
                = Throw (runtime_error ("Field " +:+ n +:+ " does not exist"))).
  { unfold PointCloud2Iterator. rewrite Hf.
    destruct (channel_offset _ n); [|reflexivity].
    destruct (List.find _ (fields cloud)) as [g|] eqn:Hg; [|reflexivity].
    exfalso.
    apply find_first in Hg as (l1 & l2 & Heq & Hname & _).
    unfold find_field in Hrgb, Hrgba.
    apply find_first in Hrgb, Hrgba. rewrite Heq in Hrgb, Hrgba.
    apply Forall_app in Hrgb as [_ Hrgb]. apply Forall_cons in Hrgb as [Hrgb _].
    apply Forall_app in Hrgba as [_ Hrgba]. apply Forall_cons in Hrgba as [Hrgba _].
    rewrite Hrgb, Hrgba in Hname. discriminate. }
  unfold fill_field, fill_const_field. rewrite Hit. split; reflexivity.
Qed.

End Fill.

(* ================================================================== *)
(** * The summaries *)
(* ================================================================== *)

Lemma to_int_range (z : Z) : - 2 ^ 31 <= to_int z < 2 ^ 31.
Proof.
  unfold to_int. pose proof (Z.mod_pos_bound (z + 2 ^ 31) (2 ^ 32)). lia.
Qed.

(** An [int] that, taken as [unsigned], is below a bound that an [int]
    can hold is not negative. *)
Lemma wrap32_int_lt (c w : Z) :
  - 2 ^ 31 <= c < 2 ^ 31 -> w <= INT_MAX -> wrap32 c < w -> 0 <= c < w.
Proof.
  unfold INT_MAX, wrap32. intros Hc Hw Hlt.
  destruct (Z_lt_le_dec c 0) as [Hneg|Hpos].
  - replace (c mod 2 ^ 32) with (c + 2 ^ 32) in Hlt; [lia|].
    apply Z.mod_unique with (q := -1); lia.
  - rewrite Z.mod_small in Hlt; lia.
Qed.

(** The loops take between 8 and 15 samples of [n >= 8] rows or columns:
    the last one is inside, the next one would be outside. *)
Lemma samples_spec (n : Z) :
  8 <= n ->
  1 <= n / 8
  /\ 8 <= samples n <= 15
  /\ (samples n - 1) * (n / 8) < n <= samples n * (n / 8).
Proof.
  intros Hn. unfold samples.
  set (s := n / 8).
  assert (Hs : 1 <= s) by (apply Z.div_le_lower_bound; lia).
  assert (Hn8 : 8 * s <= n < 8 * s + 8).
  { subst s. pose proof (Z.div_mod n 8 ltac:(lia)).
    pose proof (Z.mod_pos_bound n 8 ltac:(lia)). lia. }
  pose proof (Z.div_mod (n + s - 1) s ltac:(lia)) as Hq.
  pose proof (Z.mod_pos_bound (n + s - 1) s ltac:(lia)) as Hr.
  set (q := (n + s - 1) / s) in *.
  split; [exact Hs|]. split; nia.
Qed.

Lemma bind_fmap_list {A B C : Type} (f : A -> B) (g : B -> list C) (l : list A) :
  (f <$> l) ≫= g = l ≫= (fun a => g (f a)).
Proof.
  induction l as [|a l IH]; [reflexivity|].
  rewrite fmap_cons, !bind_cons, IH. reflexivity.
Qed.

Section Summaries.
Context {ext : Extern}.

(** With fewer than 8 columns the column never moves on. *)
Lemma summary_row_stuck (sample : Index -> Outcome (Value * Value)) (w : Z) :
  1 <= w < 8 -> (exists v, sample 0 = Ret v) ->
  forall (fuel : nat) (az_ss el_ss : list Token),
  summary_row sample w fuel 0 az_ss el_ss = None.
Proof.
  intros Hw [[az el] Hs]. induction fuel as [|fuel IH]; intros az_ss el_ss.
  - reflexivity.
  - cbn [summary_row]. change (wrap32 0) with 0.
    replace (0 <? w) with true by (symmetry; apply Z.ltb_lt; lia).
    rewrite Hs. cbn [run_bind].
    rewrite (Z.div_small w 8) by lia. change (to_int (0 + 0)) with 0.
    apply IH.
Qed.

(** A row whose samples can all be taken is over without an error, or not
    over. *)
Lemma summary_row_safe (sample : Index -> Outcome (Value * Value)) (w : Z) :
  (forall c, - 2 ^ 31 <= c < 2 ^ 31 -> wrap32 c < w -> exists v, sample c = Ret v) ->
  forall (fuel : nat) (c : Index) (az_ss el_ss : list Token),
  - 2 ^ 31 <= c < 2 ^ 31 ->
  summary_row sample w fuel c az_ss el_ss = None
  \/ exists res, summary_row sample w fuel c az_ss el_ss = Some (Ret res).
Proof.
  intros Hsample. induction fuel as [|fuel IH]; intros c az_ss el_ss Hc.
  - left. reflexivity.
  - cbn [summary_row].
    destruct (Z.ltb_spec (wrap32 c) w) as [Hlt|Hge].
    + destruct (Hsample c Hc Hlt) as [[az el] Hs]. rewrite Hs. cbn [run_bind].
      apply IH, to_int_range.
    + right. eexists. reflexivity.
Qed.

(** With fewer than 8 rows the row never moves on. *)
Lemma summary_rows_stuck (sample : Index -> Index -> Outcome (Value * Value)) (h w : Z) :
  1 <= h < 8 ->
  (forall c, - 2 ^ 31 <= c < 2 ^ 31 -> wrap32 c < w -> exists v, sample 0 c = Ret v) ->
  forall (fuel : nat) (az_ss el_ss : list Token),
  summary_rows sample h w fuel 0 az_ss el_ss = None.
Proof.
  intros Hh Hsample. induction fuel as [|fuel IH]; intros az_ss el_ss.
  - reflexivity.
  - cbn [summary_rows]. change (wrap32 0) with 0.
    replace (0 <? h) with true by (symmetry; apply Z.ltb_lt; lia).
    rewrite Z.ltb_irrefl.
    destruct (summary_row_safe (sample 0) w Hsample fuel 0 (az_ss ++ []) (el_ss ++ []))
      as [Hrow|[[az' el'] Hrow]]; [lia | |]; rewrite Hrow; cbn [run_bind].
    + reflexivity.
    + rewrite (Z.div_small h 8) by lia. change (to_int (0 + 0)) with 0.
      apply IH.
Qed.

Lemma summary_rows_stuck_columns (sample : Index -> Index -> Outcome (Value * Value))
    (h w : Z) :
  1 <= h -> 1 <= w < 8 -> (exists v, sample 0 0 = Ret v) ->
  forall (fuel : nat) (az_ss el_ss : list Token),
  summary_rows sample h w fuel 0 az_ss el_ss = None.
Proof.
  intros Hh Hw Hs [|fuel] az_ss el_ss.
  - reflexivity.
  - cbn [summary_rows]. change (wrap32 0) with 0.
    replace (0 <? h) with true by (symmetry; apply Z.ltb_lt; lia).
    rewrite (summary_row_stuck (sample 0) w Hw Hs). reflexivity.
Qed.

(** A row of at least 8 columns: the samples at the multiples of
    [w / 8]. *)
Lemma summary_row_done (sample : Index -> Outcome (Value * Value)) (w : Z)
    (fa fe : Z -> Value) :
  8 <= w -> w + w / 8 < 2 ^ 31 ->
  (forall c, 0 <= c < w -> sample c = Ret (fa c, fe c)) ->
  forall (m : nat) (k : Z) (fuel : nat) (az_ss el_ss : list Token),
  0 <= k -> k + Z.of_nat m = samples w -> (m < fuel)%nat ->
  summary_row sample w fuel (k * (w / 8)) az_ss el_ss
  = Some (Ret (az_ss ++ (j ← seqZ k (Z.of_nat m);
                         cell_text Space (j * (w / 8))
                           [Num (degrees_float (fa (j * (w / 8))))]),
               el_ss ++ (j ← seqZ k (Z.of_nat m);
                         cell_text Space (j * (w / 8))
                           [Num (degrees_float (fe (j * (w / 8))))]))).
Proof.
  intros Hw Hfit Hsample.
  destruct (samples_spec w Hw) as (Hs & Hcnt & Hlast & Hnext).
  set (s := w / 8) in *.
  induction m as [|m IH]; intros k fuel az_ss el_ss Hk Hkm Hfuel.
  - destruct fuel as [|fuel]; [lia|]. cbn [summary_row].
    assert (k = samples w) by lia. subst k.
    rewrite wrap32_small by nia.
    replace (samples w * s <? w) with false by (symmetry; apply Z.ltb_ge; lia).
    cbn. rewrite !app_nil_r. reflexivity.
  - destruct fuel as [|fuel]; [lia|]. cbn [summary_row]. fold s.
    assert (Hin : 0 <= k * s < w) by nia.
    rewrite wrap32_small by lia.
    replace (k * s <? w) with true by (symmetry; apply Z.ltb_lt; lia).
    rewrite (Hsample _ Hin). cbn [run_bind].
    replace (to_int (k * s + s)) with ((k + 1) * s) by (rewrite to_int_small; lia).
    rewrite IH by lia.
    rewrite (seqZ_cons k) by lia. rewrite !bind_cons.
    replace (Z.succ k) with (k + 1) by lia.
    replace (Z.pred (Z.of_nat (S m))) with (Z.of_nat m) by lia.
    unfold cell_text. rewrite <- !app_assoc. reflexivity.
Qed.

Lemma summary_row_text (sample : Index -> Outcome (Value * Value)) (w : Z)
    (fa fe : Z -> Value) :
  8 <= w -> w + w / 8 < 2 ^ 31 ->
  (forall c, 0 <= c < w -> sample c = Ret (fa c, fe c)) ->
  forall (fuel : nat) (az_ss el_ss : list Token),
  (Z.to_nat (samples w) < fuel)%nat ->
  summary_row sample w fuel 0 az_ss el_ss
  = Some (Ret (az_ss ++ row_text (fun c => degrees_float (fa c)) w,
               el_ss ++ row_text (fun c => degrees_float (fe c)) w)).
Proof.
  intros Hw Hfit Hsample fuel az_ss el_ss Hfuel.
  destruct (samples_spec w Hw) as (_ & Hcnt & _).
  pose proof (summary_row_done sample w fa fe Hw Hfit Hsample
                (Z.to_nat (samples w)) 0 fuel az_ss el_ss) as Hrow.
  rewrite Z.mul_0_l, Z2Nat.id in Hrow by lia.
  rewrite Hrow by lia.
  unfold row_text, ticks. rewrite !bind_fmap_list. reflexivity.
Qed.

(** A grid of at least 8 rows and 8 columns. *)
Lemma summary_rows_done (sample : Index -> Index -> Outcome (Value * Value)) (h w : Z)
    (fa fe : Z -> Z -> Value) :
  8 <= h -> h + h / 8 < 2 ^ 31 -> 8 <= w -> w + w / 8 < 2 ^ 31 ->
  (forall r c, 0 <= r < h -> 0 <= c < w -> sample r c = Ret (fa r c, fe r c)) ->
  forall (m : nat) (k : Z) (fuel : nat) (az_ss el_ss : list Token),
  0 <= k -> k + Z.of_nat m = samples h ->
  (m + Z.to_nat (samples w) + 1 < fuel)%nat ->
  summary_rows sample h w fuel (k * (h / 8)) az_ss el_ss
  = Some (Ret (az_ss ++ (j ← seqZ k (Z.of_nat m);
                         cell_text Endl (j * (h / 8))
                           (row_text (fun c => degrees_float (fa (j * (h / 8)) c)) w)),
               el_ss ++ (j ← seqZ k (Z.of_nat m);
                         cell_text Endl (j * (h / 8))
                           (row_text (fun c => degrees_float (fe (j * (h / 8)) c)) w)))).
Proof.
  intros Hh Hfith Hw Hfitw Hsample.
  destruct (samples_spec h Hh) as (Hs & Hcnt & Hlast & Hnext).
  set (s := h / 8) in *.
  induction m as [|m IH]; intros k fuel az_ss el_ss Hk Hkm Hfuel.
  - destruct fuel as [|fuel]; [lia|]. cbn [summary_rows].
    assert (k = samples h) by lia. subst k.
    rewrite wrap32_small by nia.
    replace (samples h * s <? h) with false by (symmetry; apply Z.ltb_ge; lia).
    cbn. rewrite !app_nil_r. reflexivity.
  - destruct fuel as [|fuel]; [lia|]. cbn [summary_rows]. fold s.
    assert (Hin : 0 <= k * s < h) by nia.
    rewrite wrap32_small by lia.
    replace (k * s <? h) with true by (symmetry; apply Z.ltb_lt; lia).
    rewrite (summary_row_text (sample (k * s)) w (fa (k * s)) (fe (k * s)) Hw Hfitw)
      by (try lia; intros c Hc; apply Hsample; assumption).
    cbn [run_bind].
    replace (to_int (k * s + s)) with ((k + 1) * s) by (rewrite to_int_small; lia).
    rewrite IH by lia.
    rewrite (seqZ_cons k) by lia. rewrite !bind_cons.
    replace (Z.succ k) with (k + 1) by lia.
    replace (Z.pred (Z.of_nat (S m))) with (Z.of_nat m) by lia.
    unfold cell_text. rewrite <- !app_assoc. reflexivity.
Qed.

Lemma summary_rows_text (sample : Index -> Index -> Outcome (Value * Value)) (h w : Z)
    (fa fe : Z -> Z -> Value) :
  8 <= h -> h + h / 8 < 2 ^ 31 -> 8 <= w -> w + w / 8 < 2 ^ 31 ->
  (forall r c, 0 <= r < h -> 0 <= c < w -> sample r c = Ret (fa r c, fe r c)) ->
  forall fuel : nat,
  (Z.to_nat (samples h) + Z.to_nat (samples w) + 1 < fuel)%nat ->
  summary_rows sample h w fuel 0 [] []
  = Some (Ret (grid_text (fun r c => degrees_float (fa r c)) h w,
               grid_text (fun r c => degrees_float (fe r c)) h w)).
Proof.
  intros Hh Hfith Hw Hfitw Hsample fuel Hfuel.
  destruct (samples_spec h Hh) as (_ & Hcnt & _).
  pose proof (summary_rows_done sample h w fa fe Hh Hfith Hw Hfitw Hsample
                (Z.to_nat (samples h)) 0 fuel [] []) as Hrows.
  rewrite Z.mul_0_l, Z2Nat.id in Hrows by lia.
  rewrite Hrows by lia.
  unfold grid_text, ticks. rewrite !bind_fmap_list. reflexivity.
Qed.

(** The sample of [print_cloud_summary] at a point of the buffer. *)
Lemma cloud_sample_ok (cloud : PointCloud2) (x_begin : Z) (r c : Z) :
  cloud_ok cloud x_begin -> 0 <= r < height cloud -> 0 <= c < width cloud ->
  cloud_sample cloud x_begin r c
  = Ret (fst (fst (spherical_of cloud x_begin (r * width cloud + c))),
         snd (fst (spherical_of cloud x_begin (r * width cloud + c)))).
Proof.
  intros Hok Hr Hc.
  assert (Hi : 0 <= r * width cloud + c < num_points cloud) by (unfold num_points; nia).
  assert (Hmax : num_points cloud <= INT_MAX) by (destruct Hok; assumption).
  unfold INT_MAX in Hmax.
  unfold cloud_sample.
  rewrite wrap32_small, to_int_small by nia.
  replace (it_add cloud (it_add cloud x_begin (r * width cloud)) c)
    with (it_add cloud x_begin (r * width cloud + c)) by (unfold it_add; lia).
  rewrite (xyz_at_ok cloud x_begin _ Hok Hi). cbn [obind].
  unfold spherical_of.
  destruct (cartesian_to_spherical _ _ _) as [[az el] radius]. reflexivity.
Qed.

(** X27. [print_cloud_summary] does not return on a buffer of fewer than
    8 rows or fewer than 8 columns: the loop over the rows advances by
    [height / 8] and the loop over the columns by [width / 8], which is 0,
    so that however many iterations are run, the loops are not over. *)
Theorem print_cloud_summary_hangs (cloud : PointCloud2) (x_begin : Z) :
  cloud_ok cloud x_begin ->
  height cloud < 8 \/ width cloud < 8 ->
  forall fuel : nat, print_cloud_summary fuel cloud = None.
Proof.
  intros Hok Hsmall fuel.
  pose proof Hok as [Hh Hw _ _ _ Hmax].
  assert (Hwmax : width cloud <= INT_MAX) by (unfold num_points in Hmax; nia).
  unfold print_cloud_summary. rewrite (iterator_ok cloud x_begin Hok). cbn [run_bind].
  assert (Hrow0 : forall c, - 2 ^ 31 <= c < 2 ^ 31 -> wrap32 c < width cloud ->
                  exists v, cloud_sample cloud x_begin 0 c = Ret v).
  { intros c Hc Hlt. pose proof (wrap32_int_lt c (width cloud) Hc Hwmax Hlt).
    eexists. apply cloud_sample_ok; (assumption || lia). }
  destruct (Z_lt_le_dec (height cloud) 8) as [Hh8|Hh8].
  - rewrite summary_rows_stuck; [reflexivity | lia | exact Hrow0].
  - rewrite summary_rows_stuck_columns; [reflexivity | lia | lia |].
    apply Hrow0; [lia|]. change (wrap32 0) with 0. lia.
Qed.

(** X28. [print_cloud_summary] on a buffer of at least 8 rows and 8
    columns that can be read returns: it logs two records, the azimuths and
    the elevations, in degrees, of the points at the rows that are
    multiples of [height / 8] and the columns that are multiples of
    [width / 8], between 8 and 15 rows of between 8 and 15 numbers each. *)
Theorem print_cloud_summary_returns (cloud : PointCloud2) (x_begin : Z) :
  cloud_ok cloud x_begin ->
  8 <= height cloud -> 8 <= width cloud ->
  let h := height cloud in
  let w := width cloud in
  let az r c := degrees_float (fst (fst (spherical_of cloud x_begin (r * w + c)))) in
  let el r c := degrees_float (snd (fst (spherical_of cloud x_begin (r * w + c)))) in
  (exists fuel0 : nat, forall fuel : nat, (fuel0 <= fuel)%nat ->
     print_cloud_summary fuel cloud
     = Some (Ret [ {| text_severity := INFO;
                      text_format := "Azimuth sample:" +:+ newline +:+ "%s";
                      text := grid_text az h w |};
                   {| text_severity := INFO;
                      text_format := "Elevation sample:" +:+ newline +:+ "%s";
                      text := grid_text el h w |} ]))
  /\ Z.of_nat (length (ticks h)) = samples h /\ 8 <= samples h <= 15
  /\ Z.of_nat (length (ticks w)) = samples w /\ 8 <= samples w <= 15.
Proof.
  intros Hok Hh8 Hw8 h w az el.
  pose proof Hok as [Hh Hw _ _ _ Hmax].
  unfold num_points, INT_MAX in Hmax. fold h w in Hmax, Hh8, Hw8.
  destruct (samples_spec h Hh8) as (_ & Hch & _).
  destruct (samples_spec w Hw8) as (_ & Hcw & _).
  assert (Hh30 : h + h / 8 < 2 ^ 31).
  { pose proof (Z.div_le_upper_bound h 8 h ltac:(lia) ltac:(lia)). nia. }
  assert (Hw30 : w + w / 8 < 2 ^ 31).
  { pose proof (Z.div_le_upper_bound w 8 w ltac:(lia) ltac:(lia)). nia. }
  split; [|unfold ticks; rewrite !length_fmap, !length_seqZ; lia].
  exists (Z.to_nat (samples h) + Z.to_nat (samples w) + 2)%nat. intros fuel Hfuel.
  unfold print_cloud_summary. rewrite (iterator_ok cloud x_begin Hok). cbn [run_bind].
  fold h w.
  rewrite (summary_rows_text (cloud_sample cloud x_begin) h w
             (fun r c => fst (fst (spherical_of cloud x_begin (r * w + c))))
             (fun r c => snd (fst (spherical_of cloud x_begin (r * w + c)))))
    by (try lia; intros r c Hr Hc; apply cloud_sample_ok; assumption).
  reflexivity.
Qed.

Lemma model_sample_total (self : SphericalProjection) (r c : Index) :
  model_sample self r c
  = Ret (fst (fst (model_direction self r c)), snd (fst (model_direction self r c))).
Proof.
  unfold model_sample, model_direction.
  destruct (unproject self _ _) as [[x y] z].
  destruct (cartesian_to_spherical x y z) as [[az el] radius]. reflexivity.
Qed.

(** X29. [print_model_summary] does not return for a model of 1 to 7
    rows, or of some rows and 1 to 7 columns; for a model of at least 8
    rows and 8 columns (and no more than 2^30) it returns and logs the
    azimuths and elevations of the model at the same rows and columns as
    [print_cloud_summary]. *)
Theorem print_model_summary_runs (self : SphericalProjection) :
  let h := height_ self in
  let w := width_ self in
  let az r c := degrees_float (fst (fst (model_direction self r c))) in
  let el r c := degrees_float (snd (fst (model_direction self r c))) in
  (1 <= h < 8 \/ (1 <= h /\ 1 <= w < 8) ->
   forall fuel : nat, print_model_summary fuel self = None)
  /\ (8 <= h <= 2 ^ 30 -> 8 <= w <= 2 ^ 30 ->
      exists fuel0 : nat, forall fuel : nat, (fuel0 <= fuel)%nat ->
        print_model_summary fuel self
        = Some (Ret [ {| text_severity := INFO;
                         text_format := "Azimuth model sample:" +:+ newline +:+ "%s";
                         text := grid_text az h w |};
                      {| text_severity := INFO;
                         text_format := "Elevation model sample:" +:+ newline +:+ "%s";
                         text := grid_text el h w |} ])).
Proof.
  intros h w az el. split.
  - intros Hsmall fuel. unfold print_model_summary. fold h w.
    destruct (Z_lt_le_dec h 8) as [Hh8|Hh8].
    + rewrite summary_rows_stuck; [reflexivity | lia |].
      intros c _ _. eexists. apply model_sample_total.
    + rewrite summary_rows_stuck_columns; [reflexivity | lia | lia |].
      eexists. apply model_sample_total.
  - intros Hh Hw.
    assert (Hh30 : h + h / 8 < 2 ^ 31).
    { pose proof (Z.div_le_upper_bound h 8 (2 ^ 27) ltac:(lia) ltac:(lia)). lia. }
    assert (Hw30 : w + w / 8 < 2 ^ 31).
    { pose proof (Z.div_le_upper_bound w 8 (2 ^ 27) ltac:(lia) ltac:(lia)). lia. }
    exists (Z.to_nat (samples h) + Z.to_nat (samples w) + 2)%nat. intros fuel Hfuel.
    unfold print_model_summary. fold h w.
    rewrite (summary_rows_text (model_sample self) h w
               (fun r c => fst (fst (model_direction self r c)))
               (fun r c => snd (fst (model_direction self r c))))
      by (try lia; intros r c Hr Hc; apply model_sample_total).
    reflexivity.
Qed.

End Summaries.

(* ================================================================== *)
(** * The endianness flag *)
(* ================================================================== *)

Section Endianness.
Context {ext : Extern}.

Lemma fit_fast_scan_flag (cloud : PointCloud2) (b : bool) (x_begin : Z) :
  forall (n : nat) (i : Z) (e : Extrema),
  fit_fast_scan (with_bigendian cloud b) x_begin n i e = fit_fast_scan cloud x_begin n i e.
Proof.
  induction n as [|n IH]; intros i e; [reflexivity|].
  cbn [fit_fast_scan].
  change (finite_at (with_bigendian cloud b) (it_add (with_bigendian cloud b) x_begin i))
    with (finite_at cloud (it_add cloud x_begin i)).
  destruct (finite_at cloud (it_add cloud x_begin i)) as [fin| | |]; cbn [obind];
    try reflexivity.
  change (width (with_bigendian cloud b)) with (width cloud).
  destruct (negb fin); [apply IH|].
  destruct (extrema_found _); [reflexivity | apply IH].
Qed.

Lemma collect_valid_flag (cloud : PointCloud2) (b : bool) (x_begin : Z) :
  forall (n : nat) (i : Z) (valid : list Index),
  collect_valid (with_bigendian cloud b) x_begin n i valid
  = collect_valid cloud x_begin n i valid.
Proof.
  induction n as [|n IH]; intros i valid; [reflexivity|].
  cbn [collect_valid].
  change (finite_at (with_bigendian cloud b) (it_add (with_bigendian cloud b) x_begin i))
    with (finite_at cloud (it_add cloud x_begin i)).
  destruct (finite_at cloud (it_add cloud x_begin i)) as [fin| | |]; cbn [obind];
    try reflexivity.
  destruct (negb fin); apply IH.
Qed.

Lemma collect_models_flag (cloud : PointCloud2) (b : bool) (x_begin : Z) :
  forall (valid : list Index) (az el : list Model),
  collect_models (with_bigendian cloud b) x_begin valid az el
  = collect_models cloud x_begin valid az el.
Proof.
  induction valid as [|v0 valid IH]; intros az el; [reflexivity|].
  destruct valid as [|v1 valid]; [reflexivity|].
  cbn [collect_models].
  change (az_candidate (with_bigendian cloud b) x_begin v0 v1)
    with (az_candidate cloud x_begin v0 v1).
  change (el_candidate (with_bigendian cloud b) x_begin v0 v1)
    with (el_candidate cloud x_begin v0 v1).
  destruct (az_candidate cloud x_begin v0 v1) as [ma| | |]; cbn [obind]; try reflexivity.
  destruct (el_candidate cloud x_begin v0 v1) as [me| | |]; cbn [obind]; try reflexivity.
  destruct (_ && _); [reflexivity | apply IH].
Qed.

Lemma check_row_flag (cloud : PointCloud2) (b : bool) (self : SphericalProjection)
    (r : Index) :
  forall (n : nat) (c : Index) (x_it : Z) (acc : Double * Index),
  check_row (with_bigendian cloud b) self r n c x_it acc
  = check_row cloud self r n c x_it acc.
Proof.
  induction n as [|n IH]; intros c x_it acc; [reflexivity|].
  cbn [check_row].
  change (check_point (with_bigendian cloud b) self r c x_it acc)
    with (check_point cloud self r c x_it acc).
  destruct (check_point cloud self r c x_it acc) as [acc'| | |]; cbn [obind];
    try reflexivity.
  apply IH.
Qed.

Lemma check_rows_flag (cloud : PointCloud2) (b : bool) (self : SphericalProjection) :
  forall (n : nat) (r : Index) (x_it : Z) (acc : Double * Index),
  check_rows (with_bigendian cloud b) self n r x_it acc
  = check_rows cloud self n r x_it acc.
Proof.
  induction n as [|n IH]; intros r x_it acc; [reflexivity|].
  cbn [check_rows]. rewrite check_row_flag.
  destruct (check_row cloud self r _ 0 x_it acc) as [[x_it' acc']| | |]; cbn [obind];
    try reflexivity.
  apply IH.
Qed.

(** X30. The fits and [check] never look at [is_bigendian]: they read the
    floats in the byte order of the host, and a buffer gives the same result
    whatever its flag says. *)
Theorem fits_ignore_endianness_flag (shuffle : list Index -> list Index)
    (cloud : PointCloud2) (b : bool) (self : SphericalProjection) :
  fit_fast (with_bigendian cloud b) self = fit_fast cloud self
  /\ fit_robust shuffle (with_bigendian cloud b) self = fit_robust shuffle cloud self
  /\ check (with_bigendian cloud b) self = check cloud self.
Proof.
  split; [|split].
  - unfold fit_fast, m_bind, m_lift.
    change (height (with_bigendian cloud b)) with (height cloud).
    change (width (with_bigendian cloud b)) with (width cloud).
    destruct (m_assert (1 <=? height cloud) self) as [[[[] s1] l1]| | |]; cbn [obind];
      try reflexivity.
    destruct (m_assert (1 <=? width cloud) s1) as [[[[] s2] l2]| | |]; cbn [obind];
      try reflexivity.
    change (PointCloud2ConstIterator (with_bigendian cloud b) "x")
      with (PointCloud2ConstIterator cloud "x").
    destruct (PointCloud2ConstIterator cloud "x") as [x_begin| | |]; cbn [obind];
      try reflexivity.
    change (n_points_of (with_bigendian cloud b)) with (n_points_of cloud).
    rewrite fit_fast_scan_flag. reflexivity.
  - unfold fit_robust, m_bind, m_lift.
    change (height (with_bigendian cloud b)) with (height cloud).
    change (width (with_bigendian cloud b)) with (width cloud).
    destruct (m_assert (1 <=? height cloud) self) as [[[[] s1] l1]| | |]; cbn [obind];
      try reflexivity.
    destruct (m_assert (1 <=? width cloud) s1) as [[[[] s2] l2]| | |]; cbn [obind];
      try reflexivity.
    change (PointCloud2ConstIterator (with_bigendian cloud b) "x")
      with (PointCloud2ConstIterator cloud "x").
    destruct (PointCloud2ConstIterator cloud "x") as [x_begin| | |]; cbn [obind];
      try reflexivity.
    change (n_points_of (with_bigendian cloud b)) with (n_points_of cloud).
    destruct (vector_reserve (n_points_of cloud)) as [[]| | |]; cbn [obind];
      try reflexivity.
    rewrite collect_valid_flag.
    destruct (collect_valid cloud x_begin _ 0 []) as [valid| | |]; cbn [obind];
      try reflexivity.
    rewrite collect_models_flag. reflexivity.
  - unfold check, m_bind, m_get, m_lift. cbn [obind].
    change (height (with_bigendian cloud b)) with (height cloud).
    change (width (with_bigendian cloud b)) with (width cloud).
    destruct (m_assert (height_ self =? height cloud) self) as [[[[] s1] l1]| | |];
      cbn [obind]; try reflexivity.
    destruct (m_assert (width_ self =? width cloud) s1) as [[[[] s2] l2]| | |];
      cbn [obind]; try reflexivity.
    destruct (negb (height cloud =? height_ self) || negb (width cloud =? width_ self));
      unfold m_log, m_ret; cbn [obind];
      change (PointCloud2ConstIterator (with_bigendian cloud b) "x")
        with (PointCloud2ConstIterator cloud "x");
      (destruct (PointCloud2ConstIterator cloud "x") as [x_it| | |]; cbn [obind];
         try reflexivity);
      rewrite check_rows_flag; reflexivity.
Qed.

End Endianness.

(* ================================================================== *)
(** * The further properties on concrete buffers *)
(* ================================================================== *)

Section MoreExamples.
Import Fixtures.
#[local] Existing Instance axis_extern.

Lemma axes_cloud_ok : cloud_ok axes_cloud 0.
Proof. apply xyz_cloud_ok. reflexivity. Qed.


(** X5 on an empty schema: x, y, z as [float] at 0, 4 and 8. *)
Lemma position_fields_layout_witness :
  PointCloud2ConstIterator (append_position_fields FLOAT32 (reset_fields blank)) "z"
  = Ret 8.
Proof.
  destruct (position_fields_layout FLOAT32 (reset_fields blank))
    as (_ & _ & Hz & _).
  - reflexivity.
  - reflexivity.
  - reflexivity.
  - vm_compute. congruence.
  - vm_compute. reflexivity.
  - exact Hz.
Defined.

(** X6 after the position fields: the traversability labels take the
    bytes 12 to 19. *)
Lemma helper_fields_sizes_witness :
  point_step (append_traversability_fields
                (append_position_fields FLOAT32 (reset_fields blank))) = 20.
Proof.
  destruct (helper_fields_sizes FLOAT32
              (append_position_fields FLOAT32 (reset_fields blank)))
    as (_ & _ & [Hstep _] & _).
  - vm_compute. congruence.
  - vm_compute. reflexivity.
  - exact Hstep.
Defined.

(** X7 on the position and the occupancy: z ends where seen_thru
    begins. *)
Lemma appended_fields_disjoint_witness :
  let decls := [(FLOAT32, "x", 1); (FLOAT32, "y", 1); (FLOAT32, "z", 1);
                (UINT8, "seen_thru", 1); (UINT8, "hit", 1)] in
  exists f g,
    fields (append_fields decls (reset_fields blank)) !! 2%nat = Some f
    /\ fields (append_fields decls (reset_fields blank)) !! 3%nat = Some g
    /\ offset f + field_size f <= offset g.
Proof.
  intros decls.
  destruct (fields (append_fields decls (reset_fields blank)) !! 2%nat) as [f|] eqn:Hf;
    [|vm_compute in Hf; discriminate Hf].
  destruct (fields (append_fields decls (reset_fields blank)) !! 3%nat) as [g|] eqn:Hg;
    [|vm_compute in Hg; discriminate Hg].
  exists f, g. split; [reflexivity|]. split; [reflexivity|].
  destruct (appended_fields_disjoint decls blank) as [_ Hdisjoint].
  - repeat constructor; vm_compute; congruence.
  - vm_compute. reflexivity.
  - apply (Hdisjoint 2%nat 3%nat f g); [lia | exact Hf | exact Hg].
Defined.

(** X9 for 2 rows and 2 columns of positions. *)
Lemma built_cloud_ok_witness :
  cloud_ok (resize_cloud (append_position_fields FLOAT32 (reset_fields blank)) 2 2) 0.
Proof.
  destruct (built_cloud_ok [] blank 2 2 model0) as [Hok _].
  - constructor.
  - lia.
  - lia.
  - vm_compute. congruence.
  - vm_compute. reflexivity.
  - exact Hok.
Defined.


(** X11 for the points 3 and 0 of the buffer of the axes. *)
Lemma copy_points_by_parts_witness :
  copy_points axes_cloud [3; 0] nan_cloud
  = obind (copy_loop axes_cloud 12 [3; 0] 0
             (data (resize_cloud (copy_cloud_metadata axes_cloud nan_cloud) 1 2)))
          (fun bytes =>
             Ret (with_data (resize_cloud (copy_cloud_metadata axes_cloud nan_cloud) 1 2)
                    bytes)).
Proof.
  apply (copy_points_by_parts axes_cloud [3; 0] nan_cloud).
  - vm_compute. congruence.
  - vm_compute. reflexivity.
  - vm_compute. reflexivity.
Defined.





(** X15 for a buffer of one point without fields. *)
Lemma fits_throw_without_x_witness :
  fit_fast (resize_cloud (reset_fields blank) 1 1) model0
  = Throw (runtime_error "Field x does not exist").
Proof.
  destruct (fits_throw_without_x (fun valid => valid)
              (resize_cloud (reset_fields blank) 1 1) model0) as [Hfits _].
  - reflexivity.
  - destruct Hfits as (Hfast & _).
    + right. vm_compute. split; congruence.
    + exact Hfast.
Defined.

(** X16 for the buffer without points, in a build with assertions. *)
Lemma empty_cloud_fits_witness :
  fit_fast blank model0 = AssertionFailed
  /\ fit_robust (fun valid => valid) blank model0 = AssertionFailed.
Proof.
  destruct (empty_cloud_fits (fun valid => valid) blank model0) as [Hdebug _].
  - left. reflexivity.
  - apply Hdebug. reflexivity.
Defined.

(** X17 for 65536 rows of 65536 columns, whose count is 0 modulo 2^32,
    and for 46341 rows of 46341 columns, whose count is negative as an
    [int]. *)
Lemma fits_count_in_index_witness :
  fit_fast (xyz_cloud 65536 65536 []) model0 = Ret (false, model0, [])
  /\ fit_robust (fun valid => valid) (xyz_cloud 46341 46341 []) model0
     = Throw (length_error "vector::reserve").
Proof.
  split.
  - destruct (fits_count_in_index (fun valid => valid) (xyz_cloud 65536 65536 []) model0)
      as (_ & Hfast & _).
    + vm_compute. congruence.
    + vm_compute. congruence.
    + vm_compute. congruence.
    + reflexivity.
    + vm_compute. congruence.
    + exact Hfast.
  - destruct (fits_count_in_index (fun valid => valid) (xyz_cloud 46341 46341 []) model0)
      as (_ & _ & _ & Hthrow).
    + vm_compute. congruence.
    + vm_compute. congruence.
    + vm_compute. congruence.
    + reflexivity.
    + vm_compute. congruence.
    + apply Hthrow. vm_compute. reflexivity.
Defined.


(** X19 for the valid indices of the buffer of the axes in storage
    order. *)
Lemma collect_models_bounded_witness :
  exists az el,
    collect_models axes_cloud 0 [0; 1; 2; 3] [] [] = Ret (az, el)
    /\ (length az <= 3)%nat /\ (length el <= 3)%nat.
Proof.
  destruct (collect_models axes_cloud 0 [0; 1; 2; 3] [] []) as [[az el]| | |] eqn:Hrun;
    try (vm_compute in Hrun; discriminate Hrun).
  destruct (collect_models_bounded axes_cloud 0 [0; 1; 2; 3] az el Hrun)
    as (_ & Haz & Hel).
  exists az, el. split; [reflexivity|]. split; [exact Haz | exact Hel].
Defined.

(** X20 for the buffer without valid points and a model of its size. *)
Lemma check_without_valid_point_witness :
  let model := {| azimuth_start_ := f_zero; azimuth_step_ := f_half_pi;
                  elevation_start_ := f_zero; elevation_step_ := f_half_pi;
                  height_ := 2; width_ := 2 |} in
  exists r, check nan_cloud model = Ret (true, model, [r]) /\ severity r = DEBUG.
Proof.
  intros model.
  eexists. split.
  - apply (check_without_valid_point nan_cloud 0 model).
    + apply xyz_cloud_ok. reflexivity.
    + reflexivity.
    + reflexivity.
    + exact nan_cloud_no_valid_point.
  - reflexivity.
Defined.

(** X21 for the buffer of the axes and a model that was never fit. *)
Lemma check_size_mismatch_witness : check axes_cloud model0 = AssertionFailed.
Proof.
  destruct (check_size_mismatch axes_cloud model0) as [Hdebug _].
  - left. vm_compute. congruence.
  - apply Hdebug. reflexivity.
Defined.

(** X22 for the buffer whose valid points are in column 0. *)
Lemma degenerate_fit_projects_nan_witness :
  exists self' log,
    fit_fast column_cloud model0 = Ret (true, self', log)
    /\ forall x y z, snd (project self' x y z) = S754_nan.
Proof.
  destruct (degenerate_fit_projects_nan column_cloud 0 model0)
    as (self' & log & Hrun & Hcol & _).
  - apply xyz_cloud_ok. reflexivity.
  - exists 0. split; [vm_compute; split; congruence | vm_compute; reflexivity].
  - exists self', log. split; [exact Hrun|].
    apply Hcol, column_cloud_one_column.
Defined.

(** X23: the y of the four points of the buffer of the axes set to 1, 0,
    0 and 1; the y of the last point reads back as 1. *)
Lemma fill_field_spec_witness :
  exists filled,
    fill_field FLOAT32 "y"
      [bytes_of_bits one; bytes_of_bits zero; bytes_of_bits zero; bytes_of_bits one]
      axes_cloud = Ret filled
    /\ it_get filled (it_add filled 4 3) 0 = Ret (F32.of_bits one).
Proof.
  destruct (fill_field_spec FLOAT32 "y"
              [bytes_of_bits one; bytes_of_bits zero; bytes_of_bits zero; bytes_of_bits one]
              axes_cloud
              {| name := "y"; offset := 4; datatype := FLOAT32; count := 1 |})
    as (filled & Hrun & _ & _ & _ & _ & Hread).
  - reflexivity.
  - cbn. lia.
  - vm_compute. congruence.
  - vm_compute. split; congruence.
  - vm_compute. congruence.
  - vm_compute. congruence.
  - repeat constructor.
  - exists filled. split; [exact Hrun|].
    destruct (Hread eq_refl 3 (bytes_of_bits one)) as [_ Hget].
    + vm_compute. split; congruence.
    + reflexivity.
    + exact Hget.
Defined.

(** X24: the z of every point of the buffer of the axes set to 1. *)
Lemma fill_const_field_spec_witness :
  exists filled,
    fill_const_field FLOAT32 "z" (bytes_of_bits one) axes_cloud = Ret filled
    /\ field_at filled 8 4 2 = bytes_of_bits one.
Proof.
  destruct (fill_const_field_spec FLOAT32 "z" (bytes_of_bits one) axes_cloud
              {| name := "z"; offset := 8; datatype := FLOAT32; count := 1 |})
    as (filled & Hrun & _ & _ & _ & Hslots & _).
  - reflexivity.
  - cbn. lia.
  - vm_compute. congruence.
  - vm_compute. split; congruence.
  - vm_compute. congruence.
  - reflexivity.
  - exists filled. split; [exact Hrun|].
    apply (Hslots 2). vm_compute. split; congruence.
Defined.

(** X25: the x of every point of the buffer of the axes set to a value
    that is not a number. *)
Lemma fill_invalidates_witness :
  exists filled,
    fill_const_field FLOAT32 "x" (bytes_of_bits nan) axes_cloud = Ret filled
    /\ fit_fast filled model0 = Ret (false, model0, []).
Proof.
  destruct (fill_invalidates (fun valid => valid) (bytes_of_bits nan) axes_cloud 0 model0)
    as (filled & Hrun & _ & _ & Hfast & _).
  - exact axes_cloud_ok.
  - reflexivity.
  - vm_compute. reflexivity.
  - reflexivity.
  - exists filled. split; [exact Hrun | exact Hfast].
Defined.

(** X26 for a field the buffer of the axes does not have. *)
Lemma fill_throws_without_field_witness :
  fill_const_field FLOAT32 "intensity" (bytes_of_bits one) axes_cloud
  = Throw (runtime_error "Field intensity does not exist").
Proof.
  destruct (fill_throws_without_field FLOAT32 "intensity" [] (bytes_of_bits one)
              axes_cloud) as [_ Hconst].
  - reflexivity.
  - reflexivity.
  - reflexivity.
  - exact Hconst.
Defined.

(** X27 for the buffer of the axes, which has 2 rows. *)
Lemma print_cloud_summary_hangs_witness :
  print_cloud_summary 1000 axes_cloud = None.
Proof.
  apply (print_cloud_summary_hangs axes_cloud 0).
  - exact axes_cloud_ok.
  - left. vm_compute. reflexivity.
Defined.

(** X28 for 8 rows of 8 columns: every row and every column is sampled. *)
Lemma print_cloud_summary_returns_witness :
  Z.of_nat (length (ticks (height (resize_cloud
                                     (append_position_fields FLOAT32 (reset_fields blank))
                                     8 8)))) = 8.
Proof.
  destruct (print_cloud_summary_returns
              (resize_cloud (append_position_fields FLOAT32 (reset_fields blank)) 8 8) 0)
    as (_ & Hrows & _).
  - apply (built_cloud_readable [] blank 8 8).
    + constructor.
    + lia.
    + lia.
    + vm_compute. congruence.
    + vm_compute. reflexivity.
  - vm_compute. congruence.
  - vm_compute. congruence.
  - rewrite Hrows. reflexivity.
Defined.

End MoreExamples.
